(** * Reliable datagram transport of the SSH-over-UDP demo

    A shallow embedding of [ssh_udp_client.py] ([SSHClientUDP]) and
    [ssh_udp_server.py] ([ReliableUDPServer]): the packet codec
    ([_create_packet], [_parse_packet]), the splitting of a payload into
    chunks, the two senders ([send_reliable], [send_data]) and the two
    receive loops ([receiver], [start]).

    Conventions of the embedding.
    - [bytes] values are lists of [byte]; a Python [str] is the list of its
      code points ([pystr]).
    - Library calls are modelled by what they compute: [hashlib.md5] is
      implemented below (RFC 1321); [json.dumps] is implemented for the
      values a header can hold; [json.loads] (together with the preceding
      [decode('utf-8')]) is a parameter [loads] of the decoder, returning
      [None] where the library raises. The examples decode with
      [header_loads], which reads the headers that [_create_packet]
      writes.
    - A clock reading is a rational number.
    - A Python exception is the [Raise] outcome of a computation; a
      [try ... except Exception] is a match that handles it.
    - The threads of the two programs meet at queues and at the socket.
      What the environment answers to a blocking call (an acknowledgment or
      a timeout for [ack_queue.get], success or an error for [sendto], the
      clock for [time.time]) is an input of the function that makes the
      call. *)

From Stdlib Require Import Bool String Ascii List ZArith NArith QArith Lia.
From Stdlib.Strings Require Import Byte.
Import ListNotations.

Set Warnings "-register-all".

Local Open Scope Z_scope.

(** ** Bytes and strings *)

Definition bytes := list byte.

(** A Python [str]: its code points. *)
Definition pystr := list N.

Definition byte_of_N (n : N) : byte :=
  match Byte.of_N (n mod 256)%N with
  | Some b => b
  | None => x00
  end.

Definition byte_of_Z (z : Z) : byte := byte_of_N (Z.to_N (z mod 256)).

Definition Z_of_byte (b : byte) : Z := Z.of_N (Byte.to_N b).

(** A literal: the code points of an ASCII string. *)
Definition py (s : string) : pystr := map N_of_ascii (list_ascii_of_string s).

(** A bytes literal [b"..."]. *)
Definition lit (s : string) : bytes := list_byte_of_string s.

Fixpoint pystr_eqb (a b : pystr) : bool :=
  match a, b with
  | [], [] => true
  | x :: a', y :: b' => N.eqb x y && pystr_eqb a' b'
  | _, _ => false
  end.

(** Python exceptions that the modelled code can meet. *)
Inductive exn : Type :=
| KeyError
| TypeError
| ValueError
| AttributeError
| UnicodeEncodeError
| OSError.

(** The outcome of a Python call: a value, or a raised exception. *)
Inductive outcome (A : Type) : Type :=
| Return (a : A)
| Raise (e : exn).

Arguments Return {A} a.
Arguments Raise {A} e.

Definition bind {A B : Type} (m : outcome A) (k : A -> outcome B) : outcome B :=
  match m with
  | Return a => k a
  | Raise e => Raise e
  end.

Notation "x <- m ;; k" := (bind m (fun x => k))
  (at level 61, m at next level, right associativity).

(** [s.encode('utf-8')]: surrogates cannot be encoded. *)
Definition utf8_char (c : N) : outcome bytes :=
  (if c <? 128 then Return [byte_of_N c]
   else if c <? 2048 then
     Return [byte_of_N (192 + c / 64); byte_of_N (128 + c mod 64)]
   else if (55296 <=? c) && (c <=? 57343) then Raise UnicodeEncodeError
   else if c <? 65536 then
     Return [byte_of_N (224 + c / 4096); byte_of_N (128 + (c / 64) mod 64);
             byte_of_N (128 + c mod 64)]
   else
     Return [byte_of_N (240 + c / 262144); byte_of_N (128 + (c / 4096) mod 64);
             byte_of_N (128 + (c / 64) mod 64); byte_of_N (128 + c mod 64)])%N.

Fixpoint encode_utf8 (s : pystr) : outcome bytes :=
  match s with
  | [] => Return []
  | c :: s' =>
      b <- utf8_char c ;;
      r <- encode_utf8 s' ;;
      Return (b ++ r)
  end.

(** The argument of a send: [str] or [bytes] ([isinstance(data, str)]). *)
Inductive pydata : Type :=
| PStr (s : pystr)
| PBytes (b : bytes).

Definition as_bytes (d : pydata) : outcome bytes :=
  match d with
  | PStr s => encode_utf8 s
  | PBytes b => Return b
  end.

(** ** [hashlib.md5(data).hexdigest()] *)

Module MD5.

Definition add32 (a b : Z) : Z := (a + b) mod 4294967296.

Definition rotl32 (x c : Z) : Z :=
  Z.lor (Z.shiftl x c mod 4294967296) (Z.shiftr x (32 - c)).

Definition not32 (x : Z) : Z := Z.lxor x 4294967295.

Definition shifts : list Z :=
  [7; 12; 17; 22; 7; 12; 17; 22; 7; 12; 17; 22; 7; 12; 17; 22;
   5; 9; 14; 20; 5; 9; 14; 20; 5; 9; 14; 20; 5; 9; 14; 20;
   4; 11; 16; 23; 4; 11; 16; 23; 4; 11; 16; 23; 4; 11; 16; 23;
   6; 10; 15; 21; 6; 10; 15; 21; 6; 10; 15; 21; 6; 10; 15; 21].

(** [floor (2^32 * abs (sin (i + 1)))] for [i] from 0 to 63. *)
Definition sines : list Z :=
  [3614090360; 3905402710; 606105819; 3250441966; 4118548399; 1200080426;
   2821735955; 4249261313; 1770035416; 2336552879; 4294925233; 2304563134;
   1804603682; 4254626195; 2792965006; 1236535329; 4129170786; 3225465664;
   643717713; 3921069994; 3593408605; 38016083; 3634488961; 3889429448;
   568446438; 3275163606; 4107603335; 1163531501; 2850285829; 4243563512;
   1735328473; 2368359562; 4294588738; 2272392833; 1839030562; 4259657740;
   2763975236; 1272893353; 4139469664; 3200236656; 681279174; 3936430074;
   3572445317; 76029189; 3654602809; 3873151461; 530742520; 3299628645;
   4096336452; 1126891415; 2878612391; 4237533241; 1700485571; 2399980690;
   4293915773; 2240044497; 1873313359; 4264355552; 2734768916; 1309151649;
   4149444226; 3174756917; 718787259; 3951481745].

(** Little-endian bytes of a word, and back. *)
Definition le_bytes (n : nat) (w : Z) : bytes :=
  map (fun k => byte_of_Z (Z.shiftr w (8 * Z.of_nat k))) (seq 0 n).

Definition le_word (b : bytes) : Z :=
  fold_right (fun x acc => Z_of_byte x + 256 * acc) 0 b.

Definition pad (msg : bytes) : bytes :=
  let len := Z.of_nat (length msg) in
  msg ++ [x80] ++ repeat x00 (Z.to_nat ((55 - len) mod 64))
      ++ le_bytes 8 ((8 * len) mod 18446744073709551616).

Definition words (block : bytes) : list Z :=
  map (fun k => le_word (firstn 4 (skipn (4 * k) block))) (seq 0 16).

Definition state : Type := (Z * Z * Z * Z)%type.

Definition step (M : list Z) (st : state) (i : nat) : state :=
  let '(A, B, C, D) := st in
  let zi := Z.of_nat i in
  let '(F, g) :=
    if zi <? 16 then (Z.lor (Z.land B C) (Z.land (not32 B) D), zi)
    else if zi <? 32 then
      (Z.lor (Z.land D B) (Z.land (not32 D) C), (5 * zi + 1) mod 16)
    else if zi <? 48 then (Z.lxor B (Z.lxor C D), (3 * zi + 5) mod 16)
    else (Z.lxor C (Z.lor B (not32 D)), (7 * zi) mod 16) in
  let F' := add32 (add32 (add32 F A) (nth i sines 0)) (nth (Z.to_nat g) M 0) in
  (D, add32 B (rotl32 F' (nth i shifts 0)), B, C).

Definition block_step (st : state) (block : bytes) : state :=
  let '(a0, b0, c0, d0) := st in
  let '(A, B, C, D) := fold_left (step (words block)) (seq 0 64) st in
  (add32 a0 A, add32 b0 B, add32 c0 C, add32 d0 D).

Definition init : state := (1732584193, 4023233417, 2562383102, 271733878).

Definition digest (msg : bytes) : bytes :=
  let p := pad msg in
  let blocks :=
    map (fun k => firstn 64 (skipn (64 * k) p)) (seq 0 (length p / 64)) in
  let '(a, b, c, d) := fold_left block_step blocks init in
  le_bytes 4 a ++ le_bytes 4 b ++ le_bytes 4 c ++ le_bytes 4 d.

Definition hex_digit (n : Z) : N :=
  Z.to_N (if n <? 10 then 48 + n else 87 + n).

Definition hex_of_byte (b : byte) : pystr :=
  [hex_digit (Z_of_byte b / 16); hex_digit (Z_of_byte b mod 16)].

Definition hexdigest (msg : bytes) : pystr :=
  flat_map hex_of_byte (digest msg).

End MD5.

Definition md5 : bytes -> pystr := MD5.hexdigest.

(** ** JSON values

    What [json.loads] can return and what [json.dumps] is given. A float is
    kept as its exact value (for [==] and truth tests) together with the
    text [json.dumps] writes for it. *)

Inductive fvalue : Type :=
| FFinite (q : Q)
| FInfinity (negative : bool)
| FNaN.

Record pyfloat : Type := { fl_val : fvalue; fl_repr : bytes }.

Inductive json : Type :=
| JNull
| JBool (b : bool)
| JInt (n : Z)
| JFloat (f : pyfloat)
| JStr (s : pystr)
| JArr (l : list json)
| JObj (m : list (pystr * json)).

(** The numeric value of [bool], [int] and [float] objects. *)
Inductive number : Type :=
| NumInt (n : Z)
| NumFloat (v : fvalue).

Definition as_number (j : json) : option number :=
  match j with
  | JBool b => Some (NumInt (if b then 1 else 0))
  | JInt n => Some (NumInt n)
  | JFloat f => Some (NumFloat (fl_val f))
  | _ => None
  end.

Definition fvalue_eqb (a b : fvalue) : bool :=
  match a, b with
  | FFinite q1, FFinite q2 => Qeq_bool q1 q2
  | FInfinity s1, FInfinity s2 => Bool.eqb s1 s2
  | _, _ => false
  end.

Definition number_eqb (a b : number) : bool :=
  match a, b with
  | NumInt x, NumInt y => x =? y
  | NumInt x, NumFloat v => fvalue_eqb (FFinite (inject_Z x)) v
  | NumFloat v, NumInt x => fvalue_eqb v (FFinite (inject_Z x))
  | NumFloat v, NumFloat w => fvalue_eqb v w
  end.

(** Python's [a == b] where at least one side is [None], a number or a
    [str] (the only comparisons the two programs make on header values). *)
Definition py_eq (a b : json) : bool :=
  match a, b with
  | JNull, JNull => true
  | JStr s, JStr t => pystr_eqb s t
  | _, _ =>
      match as_number a, as_number b with
      | Some x, Some y => number_eqb x y
      | _, _ => false
      end
  end.

(** [bool(x)], as in [if not x]. *)
Definition truthy (j : json) : bool :=
  match j with
  | JNull => false
  | JBool b => b
  | JInt n => negb (n =? 0)
  | JFloat f => negb (fvalue_eqb (fl_val f) (FFinite (inject_Z 0)))
  | JStr s => negb (length s =? 0)%nat
  | JArr l => negb (length l =? 0)%nat
  | JObj m => negb (length m =? 0)%nat
  end.

(** Lists and dicts cannot be dictionary keys ([TypeError: unhashable]). *)
Definition hashable (j : json) : bool :=
  match j with
  | JArr _ | JObj _ => false
  | _ => true
  end.

(** ** [json.dumps] (default separators, [ensure_ascii=True]) *)

Definition digit_byte (n : N) : byte := byte_of_N (48 + n).

Fixpoint dec_digits (fuel : nat) (n : N) : bytes :=
  match fuel with
  | O => [digit_byte (n mod 10)]
  | S fuel' =>
      if (n <? 10)%N then [digit_byte n]
      else dec_digits fuel' (n / 10) ++ [digit_byte (n mod 10)]
  end.

(** [repr] of an [int]. *)
Definition dec (z : Z) : bytes :=
  let n := Z.to_N (Z.abs z) in
  (if z <? 0 then lit "-" else []) ++ dec_digits (N.to_nat (N.size n)) n.

Definition hex_byte (n : N) : byte :=
  byte_of_N (if (n <? 10)%N then 48 + n else 87 + n).

Definition hex4 (n : N) : bytes :=
  [hex_byte ((n / 4096) mod 16); hex_byte ((n / 256) mod 16);
   hex_byte ((n / 16) mod 16); hex_byte (n mod 16)]%N.

Definition escape_char (c : N) : bytes :=
  (if c =? 34 then [x5c; x22]
   else if c =? 92 then [x5c; x5c]
   else if c =? 10 then lit "\n"
   else if c =? 13 then lit "\r"
   else if c =? 9 then lit "\t"
   else if c =? 8 then lit "\b"
   else if c =? 12 then lit "\f"
   else if (32 <=? c) && (c <=? 126) then [byte_of_N c]
   else if c <? 65536 then lit "\u" ++ hex4 c
   else
     let v := c - 65536 in
     lit "\u" ++ hex4 (55296 + (v / 1024) mod 1024)
       ++ lit "\u" ++ hex4 (56320 + v mod 1024))%N%list.

Definition quote (s : pystr) : bytes :=
  [x22] ++ flat_map escape_char s ++ [x22].

Fixpoint json_dumps (j : json) : bytes :=
  match j with
  | JNull => lit "null"
  | JBool true => lit "true"
  | JBool false => lit "false"
  | JInt n => dec n
  | JFloat f => fl_repr f
  | JStr s => quote s
  | JArr l =>
      lit "["
        ++ (fix items (l : list json) : bytes :=
              match l with
              | [] => []
              | x :: r =>
                  json_dumps x
                    ++ match r with [] => [] | _ :: _ => lit ", " ++ items r end
              end) l
        ++ lit "]"
  | JObj m =>
      lit "{"
        ++ (fix items (m : list (pystr * json)) : bytes :=
              match m with
              | [] => []
              | (k, v) :: r =>
                  quote k ++ lit ": " ++ json_dumps v
                    ++ match r with [] => [] | _ :: _ => lit ", " ++ items r end
              end) m
        ++ lit "}"
  end.

(** ** Packet codec: [_create_packet] *)

Definition PACKET_SIZE : nat := 1400.
Definition HEADER_SIZE : nat := 200.
Definition DATA_SIZE : nat := PACKET_SIZE - HEADER_SIZE.
Definition MAX_RETRIES : nat := 5.

(** [b.ljust(width, b' ')]: pads on the right, never truncates. *)
Definition ljust (width : nat) (b : bytes) : bytes :=
  b ++ repeat " "%byte (width - length b).

(** The dictionary given to [json.dumps]. *)
Definition header_dict (data : bytes) (seq_num : json) (packet_type : pystr)
    (session_id : json) : json :=
  JObj [(py "seq", seq_num);
        (py "checksum", JStr (md5 data));
        (py "type", JStr packet_type);
        (py "length", JInt (Z.of_nat (length data)));
        (py "session", session_id)].

(** [_create_packet] of both classes, on [bytes] data (every call of the
    repository passes [bytes]); the initiating side passes its own
    [self.session_id] as [session_id]. *)
Definition _create_packet (data : bytes) (seq_num : json) (packet_type : pystr)
    (session_id : json) : bytes :=
  let header := json_dumps (header_dict data seq_num packet_type session_id) in
  let header := ljust HEADER_SIZE header in
  header ++ data.

(** ** Chunking *)

(** [range(0, stop, step)] for a positive [step]. *)
Definition py_range (stop step : nat) : list nat :=
  map (fun k => k * step)%nat (seq 0 ((stop + step - 1) / step)).

(** [data[i:j]] for [0 <= i <= j]. *)
Definition slice (data : bytes) (i j : nat) : bytes :=
  firstn (j - i) (skipn i data).

(** [[data[i:i+size] for i in range(0, len(data), size)]]. *)
Definition split_chunks (size : nat) (data : bytes) : list bytes :=
  map (fun i => slice data i (i + size)) (py_range (length data) size).

(** [chunks] of [send_reliable] and [send_data]. *)
Definition split (data : bytes) : list bytes := split_chunks DATA_SIZE data.

(** ["LAST" if i == total_chunks - 1 else "DATA"]. *)
Definition chunk_type (i total_chunks : nat) : pystr :=
  if (Z.of_nat i =? Z.of_nat total_chunks - 1) then py "LAST" else py "DATA".

(** ** Packet codec: [_parse_packet] *)

(** What [_parse_packet] returns: the dictionary with the keys [seq],
    [type], [length], [session] and [data]. The header values are whatever
    JSON values the header held. *)
Record packet : Type := {
  p_seq : json;
  p_type : json;
  p_length : json;
  p_session : json;
  p_data : bytes
}.

Definition is_space (b : byte) : bool :=
  match b with
  | x20 | x09 | x0a | x0b | x0c | x0d => true
  | _ => false
  end.

Fixpoint lstrip (b : bytes) : bytes :=
  match b with
  | [] => []
  | c :: r => if is_space c then lstrip r else b
  end.

(** [b.strip()]. *)
Definition strip (b : bytes) : bytes := rev (lstrip (rev (lstrip b))).

Fixpoint lookup (m : list (pystr * json)) (key : pystr) : option json :=
  match m with
  | [] => None
  | (k, v) :: r => if pystr_eqb k key then Some v else lookup r key
  end.

(** [header_info[key]] for the object that [json.loads] returned: only a
    dict can be indexed with a [str]. *)
Definition getitem (header_info : json) (key : string) : outcome json :=
  match header_info with
  | JObj m =>
      match lookup m (py key) with
      | Some v => Return v
      | None => Raise KeyError
      end
  | _ => Raise TypeError
  end.

(** [key in header_info], evaluated after an index succeeded (a dict). *)
Definition contains (header_info : json) (key : string) : bool :=
  match header_info with
  | JObj m => match lookup m (py key) with Some _ => true | None => false end
  | _ => false
  end.

(** [header_info.get(key, default)], likewise. *)
Definition get_default (header_info : json) (key : string) (default : json)
  : json :=
  match header_info with
  | JObj m => match lookup m (py key) with Some v => v | None => default end
  | _ => default
  end.

(** [x in [s1, s2, ...]] for a list of [str] literals. *)
Definition among (x : json) (l : list string) : bool :=
  existsb (fun s => py_eq x (JStr (py s))) l.

(** [data[:n]]: [n] must be an [int] (a [bool] is one) or [None]. *)
Definition slice_to (data : bytes) (n : json) : outcome bytes :=
  let upto (z : Z) :=
    if z <? 0 then firstn (Z.to_nat (Z.of_nat (length data) + z)) data
    else firstn (Z.to_nat z) data in
  match n with
  | JNull => Return data
  | JBool b => Return (upto (if b then 1 else 0))
  | JInt z => Return (upto z)
  | _ => Raise TypeError
  end.

(** [try: body except Exception as e: handler]. *)
Definition try_except {A : Type} (body : outcome A) (handler : exn -> outcome A)
  : outcome A :=
  match body with
  | Return a => Return a
  | Raise e => handler e
  end.

(** The types each side exempts from the checksum test. *)
Definition server_exempt : list string := ["ACK"; "CONNECT"]%string.
Definition client_exempt : list string := ["ACK"; "CONNECT_ACK"]%string.

(** The test [if header_info['type'] not in exempt: ... return None]:
    [Return false] stands for the early [return None]. *)
Definition checksum_passes (exempt : list string) (header_info : json)
    (data : bytes) : outcome bool :=
  ty <- getitem header_info "type" ;;
  if negb (among ty exempt) then
    let calculated_checksum := md5 data in
    c <- getitem header_info "checksum" ;;
    if negb (py_eq c (JStr calculated_checksum)) then
      _ <- getitem header_info "seq" ;;     (* the warning's f-string *)
      Return false
    else Return true
  else Return true.

(** The dictionary that [_parse_packet] of the accepting side returns. *)
Definition server_fields (header_info : json) (data : bytes)
  : outcome (option packet) :=
  seq_v <- getitem header_info "seq" ;;
  type_v <- getitem header_info "type" ;;
  length_v <- getitem header_info "length" ;;
  let session_v := get_default header_info "session" (JStr []) in
  data_v <- (if contains header_info "length"
             then n <- getitem header_info "length" ;; slice_to data n
             else Return data) ;;
  Return (Some {| p_seq := seq_v; p_type := type_v; p_length := length_v;
                  p_session := session_v; p_data := data_v |}).

(** The dictionary that [_parse_packet] of the initiating side returns. *)
Definition client_fields (header_info : json) (data : bytes)
  : outcome (option packet) :=
  seq_v <- getitem header_info "seq" ;;
  type_v <- getitem header_info "type" ;;
  length_v <- (if contains header_info "length"
               then getitem header_info "length"
               else Return (JInt 0)) ;;
  let session_v := get_default header_info "session" (JStr []) in
  data_v <- (if contains header_info "length"
             then n <- getitem header_info "length" ;; slice_to data n
             else Return data) ;;
  Return (Some {| p_seq := seq_v; p_type := type_v; p_length := length_v;
                  p_session := session_v; p_data := data_v |}).

Section Decoder.

(** [json.loads(header.decode('utf-8'))]: [None] when either call raises
    ([UnicodeDecodeError] and [JSONDecodeError] are both [ValueError]s). *)
Variable loads : bytes -> option json.

Definition json_loads (header : bytes) : outcome json :=
  match loads header with
  | Some v => Return v
  | None => Raise ValueError
  end.

(** [ReliableUDPServer._parse_packet]. *)
Definition server_parse_packet (pkt : bytes) : outcome (option packet) :=
  let header := strip (firstn HEADER_SIZE pkt) in
  let data := skipn HEADER_SIZE pkt in
  try_except
    (header_info <- json_loads header ;;
     ok <- checksum_passes server_exempt header_info data ;;
     if negb ok then Return None
     else server_fields header_info data)
    (fun _ => Return None).

(** [SSHClientUDP._parse_packet]; the second component is the new value
    of [self.data_received], given the old one: it grows once the
    checksum test is passed, before the dictionary is built. *)
Definition client_parse_packet (data_received : Z) (pkt : bytes)
  : outcome (option packet) * Z :=
  let header := strip (firstn HEADER_SIZE pkt) in
  let data := skipn HEADER_SIZE pkt in
  match (header_info <- json_loads header ;;
         ok <- checksum_passes client_exempt header_info data ;;
         Return (header_info, ok)) with
  | Raise _ => (Return None, data_received)
  | Return (_, false) => (Return None, data_received)
  | Return (header_info, true) =>
      (try_except (client_fields header_info data) (fun _ => Return None),
       data_received + Z.of_nat (length pkt))
  end.

End Decoder.

(** ** What the two programs send and observe *)

(** A socket address [(host, port)]. *)
Definition address : Type := (pystr * Z)%type.

(** A datagram handed to [socket.sendto]: the arguments of the
    [_create_packet] call that built it, and the destination. *)
Record tx : Type := {
  tx_data : bytes;
  tx_seq : json;
  tx_type : pystr;
  tx_session : json;
  tx_to : address
}.

(** The bytes on the wire. *)
Definition wire (p : tx) : bytes :=
  _create_packet (tx_data p) (tx_seq p) (tx_type p) (tx_session p).

(** What a sender or a receive loop does, in order. *)
Inductive event : Type :=
| Sent (p : tx)              (* [sendto] returned *)
| SendFailed (p : tx)        (* [sendto] raised *)
| AckGot (a : json)          (* [ack_queue.get] returned [a] *)
| AckTimeout                 (* [ack_queue.get] raised [queue.Empty] *)
| StartHandler (session_id : json) (peer : address).

(** ** The initiating side: [SSHClientUDP] *)

Record client : Type := {
  session_id : json;
  sequence_number : Z;
  server_addr : address;
  connected : bool;
  ack_queue : list json;
  data_queue : list bytes;
  data_sent : Z;
  data_received : Z
}.

(** What happens around one pass of the retry loop: whether [sendto]
    raises, and the acknowledgments that the receiver thread puts in
    [ack_queue] before [ack_queue.get(timeout=TIMEOUT)] returns. *)
Record attempt : Type := {
  send_raises : bool;
  arrivals : list json
}.

Definition quiet : attempt := {| send_raises := false; arrivals := [] |}.

(** The first answer of the environment, and the rest; nothing happens
    once the list is used up. *)
Definition next_attempt (env : list attempt) : attempt * list attempt :=
  match env with
  | [] => (quiet, [])
  | a :: env' => (a, env')
  end.

(** The result of [send_reliable] and of its loops: what is returned or
    raised, the object afterwards, what was done, what is left of the
    environment's answers. *)
Definition run (A S : Type) : Type :=
  (outcome A * S * list event * list attempt)%type.

(** Field updates of the client object. *)
Definition set_sequence_number (st : client) (n : Z) : client :=
  {| session_id := session_id st; sequence_number := n;
     server_addr := server_addr st; connected := connected st;
     ack_queue := ack_queue st; data_queue := data_queue st;
     data_sent := data_sent st; data_received := data_received st |}.

Definition set_ack_queue (st : client) (q : list json) : client :=
  {| session_id := session_id st; sequence_number := sequence_number st;
     server_addr := server_addr st; connected := connected st;
     ack_queue := q; data_queue := data_queue st;
     data_sent := data_sent st; data_received := data_received st |}.

Definition set_data_queue (st : client) (q : list bytes) : client :=
  {| session_id := session_id st; sequence_number := sequence_number st;
     server_addr := server_addr st; connected := connected st;
     ack_queue := ack_queue st; data_queue := q;
     data_sent := data_sent st; data_received := data_received st |}.

Definition set_data_sent (st : client) (n : Z) : client :=
  {| session_id := session_id st; sequence_number := sequence_number st;
     server_addr := server_addr st; connected := connected st;
     ack_queue := ack_queue st; data_queue := data_queue st;
     data_sent := n; data_received := data_received st |}.

Definition set_data_received (st : client) (n : Z) : client :=
  {| session_id := session_id st; sequence_number := sequence_number st;
     server_addr := server_addr st; connected := connected st;
     ack_queue := ack_queue st; data_queue := data_queue st;
     data_sent := data_sent st; data_received := n |}.

Definition set_session_id (st : client) (s : json) : client :=
  {| session_id := s; sequence_number := sequence_number st;
     server_addr := server_addr st; connected := connected st;
     ack_queue := ack_queue st; data_queue := data_queue st;
     data_sent := data_sent st; data_received := data_received st |}.

(** [self._create_packet(data, seq_num, packet_type)] of the client: the
    datagram for [self.server_addr], and [self.data_sent += len(packet)]. *)
Definition client_create_packet (st : client) (data : bytes) (seq_num : json)
    (packet_type : pystr) : tx * client :=
  let p := {| tx_data := data; tx_seq := seq_num; tx_type := packet_type;
              tx_session := session_id st; tx_to := server_addr st |} in
  (p, set_data_sent st (data_sent st + Z.of_nat (length (wire p)))).

(** [while not ack_received and retries < self.MAX_RETRIES], with
    [left = MAX_RETRIES - retries]; returns [ack_received]. *)
Fixpoint retry_loop (left : nat) (st : client) (chunk : bytes) (seq_num : Z)
    (packet_type : pystr) (env : list attempt) : run bool client :=
  match left with
  | O => (Return false, st, [], env)
  | S left' =>
      let (p, st) := client_create_packet st chunk (JInt seq_num) packet_type in
      let (a, env) := next_attempt env in
      if send_raises a then (Raise OSError, st, [SendFailed p], env)
      else
        match ack_queue st ++ arrivals a with
        | [] =>
            let '(r, st, tr, env) :=
              retry_loop left' (set_ack_queue st []) chunk seq_num packet_type
                env in
            (r, st, Sent p :: AckTimeout :: tr, env)
        | ack :: q =>
            let st := set_ack_queue st q in
            if py_eq ack (JInt seq_num) then
              (Return true, st, [Sent p; AckGot ack], env)
            else
              let '(r, st, tr, env) :=
                retry_loop left' st chunk seq_num packet_type env in
              (r, st, Sent p :: AckGot ack :: tr, env)
        end
  end.

(** [for i, chunk in enumerate(chunks)] of [send_reliable], from index
    [i] on, and the final [return True]. *)
Fixpoint send_chunks (chunks : list bytes) (i total_chunks : nat) (st : client)
    (env : list attempt) : run bool client :=
  match chunks with
  | [] => (Return true, st, [], env)
  | chunk :: rest =>
      let seq_num := sequence_number st in
      let st := set_sequence_number st (sequence_number st + 1) in
      let packet_type := chunk_type i total_chunks in
      match retry_loop MAX_RETRIES st chunk seq_num packet_type env with
      | (Return true, st', tr, env') =>
          let '(r, st'', tr', env'') :=
            send_chunks rest (S i) total_chunks st' env' in
          (r, st'', tr ++ tr', env'')
      | (Return false, st', tr, env') => (Return false, st', tr, env')
      | (Raise e, st', tr, env') => (Raise e, st', tr, env')
      end
  end.

(** [SSHClientUDP.send_reliable]. *)
Definition send_reliable (st : client) (data : pydata) (env : list attempt)
  : run bool client :=
  if negb (connected st) then (Return false, st, [], env)
  else
    match as_bytes data with
    | Raise e => (Raise e, st, [], env)
    | Return data =>
        let chunks := split data in
        send_chunks chunks 0 (length chunks) st env
    end.

(** ** The accepting side: [ReliableUDPServer] *)

(** An entry of [self.clients]. *)
Record session : Type := {
  addr : address;
  last_active : Q;
  buffer : list bytes
}.

(** A [dict] keyed by header values: the items in insertion order. Keys
    are compared with [==]. *)
Definition dict (V : Type) : Type := list (json * V).

Fixpoint dict_get {V : Type} (d : dict V) (k : json) : option V :=
  match d with
  | [] => None
  | (k', v) :: r => if py_eq k' k then Some v else dict_get r k
  end.

Definition dict_mem {V : Type} (d : dict V) (k : json) : bool :=
  match dict_get d k with Some _ => true | None => false end.

(** [d[k] = v]. *)
Fixpoint dict_set {V : Type} (d : dict V) (k : json) (v : V) : dict V :=
  match d with
  | [] => [(k, v)]
  | (k', v') :: r =>
      if py_eq k' k then (k', v) :: r else (k', v') :: dict_set r k v
  end.

Record server : Type := {
  clients : dict session;
  sequence_numbers : dict Z
}.

Definition set_clients (st : server) (c : dict session) : server :=
  {| clients := c; sequence_numbers := sequence_numbers st |}.

Definition set_sequence_numbers (st : server) (s : dict Z) : server :=
  {| clients := clients st; sequence_numbers := s |}.

(** The answers of [socket.sendto], one per call: [true] when it returns,
    [false] when it raises; it returns once the list is used up. *)
Definition next_send (env : list bool) : bool * list bool :=
  match env with
  | [] => (true, [])
  | b :: env' => (b, env')
  end.

(** [for attempt in range(max_retries)] of [send_data], with
    [left = max_retries - attempt]: [true] after the [break], [false] for
    the [return False] of the last attempt. *)
Fixpoint send_attempts (left : nat) (p : tx) (env : list bool)
  : bool * list event * list bool :=
  match left with
  | O => (true, [], env)
  | S left' =>
      let (ok, env) := next_send env in
      if ok then (true, [Sent p], env)
      else if (left' =? 0)%nat then (false, [SendFailed p], env)
      else
        let '(r, tr, env) := send_attempts left' p env in
        (r, SendFailed p :: tr, env)
  end.

(** [for i, chunk in enumerate(chunks)] of [send_data], from index [i]
    on: [false] for [return False]. *)
Fixpoint send_all (chunks : list bytes) (i total_chunks : nat) (seq_num : Z)
    (to : address) (session_id : json) (env : list bool)
  : bool * list event * list bool :=
  match chunks with
  | [] => (true, [], env)
  | chunk :: rest =>
      let packet_type := chunk_type i total_chunks in
      let p := {| tx_data := chunk; tx_seq := JInt (seq_num + Z.of_nat i);
                  tx_type := packet_type; tx_session := session_id;
                  tx_to := to |} in
      let max_retries := 5%nat in
      let '(ok, tr, env) := send_attempts max_retries p env in
      if ok then
        let '(r, tr', env) :=
          send_all rest (S i) total_chunks seq_num to session_id env in
        (r, tr ++ tr', env)
      else (false, tr, env)
  end.

(** The counter of a session, [0] where the dictionary has none (the code
    reads it only after it made sure there is one). *)
Definition counter (st : server) (session_id : json) : Z :=
  match dict_get (sequence_numbers st) session_id with
  | Some n => n
  | None => 0
  end.

Definition set_counter (st : server) (session_id : json) (n : Z) : server :=
  set_sequence_numbers st (dict_set (sequence_numbers st) session_id n).

(** [ReliableUDPServer.send_data]. Its only caller, [handle_client], runs
    for sessions whose id is a [str]; [session_id] is typed accordingly. *)
Definition send_data (st : server) (data : pydata) (to : address)
    (session_id : pystr) (env : list bool)
  : outcome bool * server * list event * list bool :=
  match as_bytes data with
  | Raise e => (Raise e, st, [], env)
  | Return data =>
      let sid := JStr session_id in
      let st :=
        if negb (dict_mem (sequence_numbers st) sid)
        then set_counter st sid 0
        else st in
      let seq_num := counter st sid in
      let st := set_counter st sid (counter st sid + 1) in
      let chunks := split data in
      let total_chunks := length chunks in
      let '(ok, tr, env) := send_all chunks 0 total_chunks seq_num to sid env in
      if ok then
        let st := set_counter st sid (counter st sid + Z.of_nat total_chunks) in
        (Return true, st, tr, env)
      else (Return false, st, tr, env)
  end.

(** ** The receive loops *)

(** What [socket.recvfrom] does in one pass of a loop: it times out, or
    returns a datagram and the address it came from. *)
Inductive arrival : Type :=
| SocketTimeout
| Datagram (data : bytes) (from : address).

(** [socket.recvfrom(bufsize)] keeps the first [bufsize] bytes. *)
Definition recvfrom (bufsize : nat) (datagram : bytes) : bytes :=
  firstn bufsize datagram.

(** What the environment answers during one pass of the server loop: the
    text of [time.time()] in a generated session id, the clock when a
    packet is handled and when the sweep runs, and whether the one
    [sendto] of the pass returns. *)
Record answers : Type := {
  clock_text : pystr;
  clock_handle : Q;
  clock_sweep : Q;
  sendto_ok : bool
}.

Definition ascii_str (b : bytes) : pystr := map Byte.to_N b.

(** [hashlib.md5(f"{addr[0]}:{addr[1]}:{time.time()}".encode()).hexdigest()]. *)
Definition new_session_id (from : address) (env : answers) : outcome pystr :=
  text <- encode_utf8 (fst from ++ py ":" ++ ascii_str (dec (snd from))
                         ++ py ":" ++ clock_text env) ;;
  Return (md5 text).

(** [session_id.encode('utf-8')]. *)
Definition encode_session (session_id : json) : outcome bytes :=
  match session_id with
  | JStr s => encode_utf8 s
  | _ => Raise AttributeError
  end.

(** [self.socket.sendto(packet, addr)] in a receive loop. *)
Definition sendto (ok : bool) (p : tx) : outcome unit * list event :=
  if ok then (Return tt, [Sent p]) else (Raise OSError, [SendFailed p]).

Definition touch (now : Q) (s : session) : session :=
  {| addr := addr s; last_active := now; buffer := buffer s |}.

Definition put (chunk : bytes) (s : session) : session :=
  {| addr := addr s; last_active := last_active s;
     buffer := buffer s ++ [chunk] |}.

(** [self.clients[session_id][...] = ...] on the entry of a known session. *)
Definition update_client (st : server) (session_id : json)
    (f : session -> session) : server :=
  match dict_get (clients st) session_id with
  | Some s => set_clients st (dict_set (clients st) session_id (f s))
  | None => st
  end.

(** [ReliableUDPServer._send_ack]. *)
Definition _send_ack (ok : bool) (seq_num : json) (to : address)
    (session_id : json) : outcome unit * list event :=
  let ack_packet :=
    {| tx_data := lit "ACK"; tx_seq := seq_num; tx_type := py "ACK";
       tx_session := session_id; tx_to := to |} in
  sendto ok ack_packet.

(** The branch [if packet['type'] == "CONNECT"] of [start]. *)
Definition handle_connect (st : server) (pkt : packet) (from : address)
    (env : answers) : outcome unit * server * list event :=
  let session_id := p_session pkt in
  if negb (hashable session_id) then (Raise TypeError, st, [])
  else if negb (dict_mem (clients st) session_id) then
    match (if negb (truthy session_id)
           then s <- new_session_id from env ;; Return (JStr s)
           else Return session_id) with
    | Raise e => (Raise e, st, [])
    | Return session_id =>
        let st :=
          set_clients st
            (dict_set (clients st) session_id
               {| addr := from; last_active := clock_handle env;
                  buffer := [] |}) in
        let st := set_counter st session_id 0 in
        match encode_session session_id with
        | Raise e => (Raise e, st, [])
        | Return payload =>
            let ack_packet :=
              {| tx_data := payload; tx_seq := JInt 0;
                 tx_type := py "CONNECT_ACK"; tx_session := session_id;
                 tx_to := from |} in
            match sendto (sendto_ok env) ack_packet with
            | (Raise e, tr) => (Raise e, st, tr)
            | (Return _, tr) =>
                (Return tt, st, tr ++ [StartHandler session_id from])
            end
        end
    end
  else
    match encode_session session_id with
    | Raise e => (Raise e, st, [])
    | Return payload =>
        let ack_packet :=
          {| tx_data := payload; tx_seq := JInt 0;
             tx_type := py "CONNECT_ACK"; tx_session := session_id;
             tx_to := from |} in
        let (r, tr) := sendto (sendto_ok env) ack_packet in
        (r, st, tr)
    end.

(** The branch [elif packet['type'] in ["DATA", "LAST"]] of [start]. *)
Definition handle_data (st : server) (pkt : packet) (from : address)
    (env : answers) : outcome unit * server * list event :=
  let session_id := p_session pkt in
  if negb (hashable session_id) then (Raise TypeError, st, [])
  else if dict_mem (clients st) session_id then
    let st := update_client st session_id (touch (clock_handle env)) in
    match _send_ack (sendto_ok env) (p_seq pkt) from session_id with
    | (Raise e, tr) => (Raise e, st, tr)
    | (Return _, tr) =>
        (Return tt, update_client st session_id (put (p_data pkt)), tr)
    end
  else (Return tt, st, []).

(** The session is idle: [current_time - info['last_active'] > 60]. *)
Definition idle (current_time : Q) (info : session) : bool :=
  negb (Qle_bool (current_time - last_active info) 60).

(** "Clean up inactive sessions": every idle session is deleted. *)
Definition sweep (current_time : Q) (st : server) : server :=
  set_clients st
    (filter (fun item => negb (idle current_time (snd item))) (clients st)).

(** "Handle different packet types": the body of the inner [try] of
    [start] for a decoded packet. *)
Definition server_dispatch (st : server) (pkt : packet) (from : address)
    (env : answers) : outcome unit * server * list event :=
  if py_eq (p_type pkt) (JStr (py "CONNECT"))
  then handle_connect st pkt from env
  else if among (p_type pkt) ["DATA"; "LAST"]%string
  then handle_data st pkt from env
  else (Return tt, st, []).

Section Loops.

Variable loads : bytes -> option json.

(** One pass of [while self.running] in [ReliableUDPServer.start]. The
    [continue] after a packet that does not parse skips the sweep. *)
Definition server_loop_body (st : server) (a : arrival) (env : answers)
  : server * list event :=
  match a with
  | SocketTimeout => (sweep (clock_sweep env) st, [])
  | Datagram datagram from =>
      let data := recvfrom PACKET_SIZE datagram in
      match server_parse_packet loads data with
      | Raise _ => (sweep (clock_sweep env) st, [])
      | Return None => (st, [])
      | Return (Some pkt) =>
          let '(_, st, tr) := server_dispatch st pkt from env in
          (* except Exception: logged; then the sweep *)
          (sweep (clock_sweep env) st, tr)
      end
  end.

(** One pass of [while self.running] in [SSHClientUDP.receiver];
    [send_ok] tells whether the [sendto] of the pass returns. *)
Definition receiver_body (st : client) (a : arrival) (send_ok : bool)
  : client * list event :=
  match a with
  | SocketTimeout => (st, [])
  | Datagram datagram _ =>
      let data := recvfrom PACKET_SIZE datagram in
      let (parsed, received) :=
        client_parse_packet loads (data_received st) data in
      let st := set_data_received st received in
      match parsed with
      | Raise _ => (st, [])
      | Return None => (st, [])
      | Return (Some pkt) =>
          if py_eq (p_type pkt) (JStr (py "ACK")) then
            (set_ack_queue st (ack_queue st ++ [p_seq pkt]), [])
          else if py_eq (p_type pkt) (JStr (py "CONNECT_ACK")) then
            if negb (truthy (session_id st))
            then (set_session_id st (p_session pkt), [])
            else (st, [])
          else if among (p_type pkt) ["DATA"; "LAST"]%string then
            let (ack_packet, st) :=
              client_create_packet st (lit "ACK") (p_seq pkt) (py "ACK") in
            match sendto send_ok ack_packet with
            | (Raise _, tr) => (st, tr)
            | (Return _, tr) =>
                (set_data_queue st (data_queue st ++ [p_data pkt]), tr)
            end
          else (st, [])
      end
  end.

End Loops.

(** ** The session handler: [handle_client] *)

(** [b.decode('utf-8')]: strict; no overlong form, no surrogate, nothing
    above U+10FFFF. ([UnicodeDecodeError] is a [ValueError].) *)
Definition continuation (b : byte) : bool :=
  (128 <=? Byte.to_N b)%N && (Byte.to_N b <=? 191)%N.

Definition low6 (b : byte) : N := (Byte.to_N b - 128)%N.

Fixpoint decode_utf8 (b : bytes) : outcome pystr :=
  match b with
  | [] => Return []
  | b0 :: r =>
      let z := Byte.to_N b0 in
      (if z <? 128 then s <- decode_utf8 r ;; Return (z :: s)
       else if (194 <=? z) && (z <=? 223) then
         match r with
         | b1 :: r1 =>
             if continuation b1
             then s <- decode_utf8 r1 ;;
                  Return ((z - 192) * 64 + low6 b1 :: s)
             else Raise ValueError
         | _ => Raise ValueError
         end
       else if (224 <=? z) && (z <=? 239) then
         match r with
         | b1 :: b2 :: r2 =>
             if continuation b1 && continuation b2
                && (negb (z =? 224) || (160 <=? Byte.to_N b1))
                && (negb (z =? 237) || (Byte.to_N b1 <=? 159))
             then s <- decode_utf8 r2 ;;
                  Return ((z - 224) * 4096 + low6 b1 * 64 + low6 b2 :: s)
             else Raise ValueError
         | _ => Raise ValueError
         end
       else if (240 <=? z) && (z <=? 244) then
         match r with
         | b1 :: b2 :: b3 :: r3 =>
             if continuation b1 && continuation b2 && continuation b3
                && (negb (z =? 240) || (144 <=? Byte.to_N b1))
                && (negb (z =? 244) || (Byte.to_N b1 <=? 143))
             then s <- decode_utf8 r3 ;;
                  Return ((z - 240) * 262144 + low6 b1 * 4096
                          + low6 b2 * 64 + low6 b3 :: s)
             else Raise ValueError
         | _ => Raise ValueError
         end
       else Raise ValueError)%N
  end.

(** [c.isspace()] for a character of a [str]. *)
Definition str_space (c : N) : bool :=
  ((9 <=? c) && (c <=? 13) || (28 <=? c) && (c <=? 32)
   || (c =? 133) || (c =? 160) || (c =? 5760)
   || (8192 <=? c) && (c <=? 8202)
   || (c =? 8232) || (c =? 8233) || (c =? 8239) || (c =? 8287)
   || (c =? 12288))%N.

Fixpoint str_lstrip (s : pystr) : pystr :=
  match s with
  | [] => []
  | c :: r => if str_space c then str_lstrip r else s
  end.

(** [s.strip()]. *)
Definition str_strip (s : pystr) : pystr :=
  rev (str_lstrip (rev (str_lstrip s))).

(** [cmd.lower() == 'exit']: only the ASCII letters lower to [e], [x],
    [i] and [t]. *)
Definition is_exit (cmd : pystr) : bool :=
  match cmd with
  | [e; x; i; t] =>
      ((e =? 69) || (e =? 101)) && ((x =? 88) || (x =? 120))
      && ((i =? 73) || (i =? 105)) && ((t =? 84) || (t =? 116))
  | _ => false
  end%N.

(** [del d[k]]: the item with that key goes; [KeyError] without one. *)
Fixpoint dict_del {V : Type} (d : dict V) (k : json) : outcome (dict V) :=
  match d with
  | [] => Raise KeyError
  | (k', v) :: r =>
      if py_eq k' k then Return r
      else r' <- dict_del r k ;; Return ((k', v) :: r')
  end.

(** How a step of the handler ends: it goes on with the next command, or
    returns. *)
Inductive handler : Type :=
| GoesOn
| Returns.

Definition goodbye : pystr :=
  py "Goodbye!" ++ [13; 10]%N.

(** [f"Executing: {cmd}\r\n$ "]. *)
Definition executing (cmd : pystr) : pystr :=
  py "Executing: " ++ cmd ++ [13; 10]%N ++ py "$ ".

(** The body of the [try] in [handle_client] for one [cmd_data] taken from
    the session's buffer; an exception is logged and the handler goes on.
    The result of [send_data] is not looked at. *)
Definition handle_command (st : server) (cmd_data : bytes) (to : address)
    (session_id : pystr) (env : list bool)
  : handler * server * list event * list bool :=
  match decode_utf8 cmd_data with
  | Raise _ => (GoesOn, st, [], env)
  | Return text =>
      let cmd := str_strip text in
      if is_exit cmd then
        let '(r, st, tr, env) := send_data st (PStr goodbye) to session_id env in
        match r with
        | Raise _ => (GoesOn, st, tr, env)
        | Return _ =>
            match dict_del (clients st) (JStr session_id) with
            | Raise _ => (GoesOn, st, tr, env)
            | Return c => (Returns, set_clients st c, tr, env)
            end
        end
      else
        let output := executing cmd in
        let '(_, st, tr, env) := send_data st (PStr output) to session_id env in
        (GoesOn, st, tr, env)
  end.

(** ** [SSHClientUDP.disconnect] *)

Definition set_connected (st : client) (b : bool) : client :=
  {| session_id := session_id st; sequence_number := sequence_number st;
     server_addr := server_addr st; connected := b;
     ack_queue := ack_queue st; data_queue := data_queue st;
     data_sent := data_sent st; data_received := data_received st |}.

(** [disconnect]: the exit command is sent inside [try: ... except: pass];
    then the receiver thread is stopped and the socket closed (neither is
    a field of [client]), and [self.connected = False]. *)
Definition disconnect (st : client) (env : list attempt)
  : client * list event * list attempt :=
  if connected st then
    let '(_, st, tr, env) := send_reliable st (PStr (py "exit")) env in
    (set_connected st false, tr, env)
  else (st, [], env).

(** ** The main thread meets the receiver thread: [connect], [send_command]

    [connect] and [send_command] poll the clock and the fields that the
    receiver thread writes. Each test [time.time() < deadline] of such a
    loop is a look: the environment says how the test comes out, and which
    passes the receiver thread has made since the last look (each pass
    with what its [recvfrom] returned and whether its [sendto] returns).
    A loop that has used up the looks it is given is still running: the
    model says [None]. *)

Record look : Type := {
  in_time : bool;
  passes : list (arrival * bool)
}.

(** The passes of the receiver thread, in order. *)
Fixpoint receive (loads : bytes -> option json) (st : client)
    (ps : list (arrival * bool)) : client * list event :=
  match ps with
  | [] => (st, [])
  | (a, ok) :: rest =>
      let (st1, tr1) := receiver_body loads st a ok in
      let (st2, tr2) := receive loads st1 rest in
      (st2, tr1 ++ tr2)
  end.

(** How the wait for a session id ends. *)
Inductive polled : Type :=
| SessionSet
| TimedOut.

(** [while time.time() < timeout: if self.session_id: ...;
    time.sleep(0.1)], up to the point where the session id is seen. *)
Fixpoint poll_session (loads : bytes -> option json) (ls : list look)
    (st : client) : option (polled * client * list event) :=
  match ls with
  | [] => None
  | l :: rest =>
      let (st, tr) := receive loads st (passes l) in
      if in_time l then
        if truthy (session_id st) then Some (SessionSet, st, tr)
        else
          match poll_session loads rest st with
          | Some (r, st', tr') => Some (r, st', tr ++ tr')
          | None => None
          end
      else Some (TimedOut, st, tr)
  end.

(** "Wait for welcome message": the first chunk found in [data_queue] is
    taken, decoded for the log, and the loop left; the decoding is not
    inside a [try] that catches its error. ([get] returns at once: the
    queue is not empty and the main thread is its only reader.) *)
Fixpoint await_welcome (loads : bytes -> option json) (ls : list look)
    (st : client) : option (outcome unit * client * list event) :=
  match ls with
  | [] => None
  | l :: rest =>
      let (st, tr) := receive loads st (passes l) in
      if in_time l then
        match data_queue st with
        | [] =>
            match await_welcome loads rest st with
            | Some (r, st', tr') => Some (r, st', tr ++ tr')
            | None => None
            end
        | welcome :: q =>
            let st := set_data_queue st q in
            match decode_utf8 welcome with
            | Raise e => Some (Raise e, st, tr)
            | Return _ => Some (Return tt, st, tr)
            end
        end
      else Some (Return tt, st, tr)
  end.

(** What happens around one attempt of [connect]: whether [sendto]
    raises, and the looks of the wait that follows. *)
Record connect_attempt : Type := {
  sendto_raises : bool;
  looks : list look
}.

(** What [connect] gives back: the value returned, and [self.running]
    (the receiver thread goes on while it is true). *)
Record connect_result : Type := {
  connect_returns : bool;
  running : bool
}.

(** [for attempt in range(self.MAX_RETRIES)] of [connect], with
    [left = MAX_RETRIES - attempt], the final [return False], and the
    handler [except Exception: self.running = False; return False]. *)
Fixpoint connect_attempts (loads : bytes -> option json) (left : nat)
    (connect_packet : tx) (st : client) (env : list connect_attempt)
    (welcome : list look) : option (connect_result * client * list event) :=
  match left with
  | O => Some ({| connect_returns := false; running := true |}, st, [])
  | S left' =>
      match env with
      | [] => None
      | a :: env' =>
          if sendto_raises a then
            Some ({| connect_returns := false; running := false |}, st,
                  [SendFailed connect_packet])
          else
            match poll_session loads (looks a) st with
            | None => None
            | Some (TimedOut, st, tr) =>
                match connect_attempts loads left' connect_packet st env'
                        welcome with
                | Some (r, st', tr') =>
                    Some (r, st', Sent connect_packet :: tr ++ tr')
                | None => None
                end
            | Some (SessionSet, st, tr) =>
                let st := set_connected st true in
                match await_welcome loads welcome st with
                | None => None
                | Some (Raise _, st, tr') =>
                    Some ({| connect_returns := false; running := false |},
                          st, Sent connect_packet :: tr ++ tr')
                | Some (Return _, st, tr') =>
                    Some ({| connect_returns := true; running := true |},
                          st, Sent connect_packet :: tr ++ tr')
                end
            end
      end
  end.

(** [SSHClientUDP.connect]: the packet is built once, before the loop. *)
Definition connect (loads : bytes -> option json) (st : client)
    (env : list connect_attempt) (welcome : list look)
  : option (connect_result * client * list event) :=
  let (connect_packet, st) :=
    client_create_packet st (lit "CONNECT") (JInt 0) (py "CONNECT") in
  connect_attempts loads MAX_RETRIES connect_packet st env welcome.

(** The loop of [send_command] that puts the response together:
    [while time.time() < response_timeout], taking a chunk from
    [data_queue] whenever there is one. ([get] never raises
    [queue.Empty] here, so the loop ends only when the time is up.) *)
Fixpoint collect (loads : bytes -> option json) (ls : list look)
    (st : client) (response : bytes)
  : option (bytes * client * list event) :=
  match ls with
  | [] => None
  | l :: rest =>
      let (st, tr) := receive loads st (passes l) in
      if in_time l then
        let '(st, response) :=
          match data_queue st with
          | [] => (st, response)
          | data :: q => (set_data_queue st q, response ++ data)
          end in
        match collect loads rest st response with
        | Some (r, st', tr') => Some (r, st', tr ++ tr')
        | None => None
        end
      else Some (response, st, tr)
  end.

(** The dictionary that [send_command] returns. *)
Record command_result : Type := {
  output : pystr;
  execution_time : Q
}.

(** [SSHClientUDP.send_command] for a [str] command; [started] and
    [finished] are the clock readings that give [execution_time]. What
    [send_reliable] returns is not looked at; any exception gives
    [None]. *)
Definition send_command (loads : bytes -> option json) (st : client)
    (command : pystr) (started finished : Q) (acks : list attempt)
    (ls : list look)
  : option (option command_result * client * list event) :=
  if negb (connected st) then Some (None, st, [])
  else
    let '(r, st, tr, _) :=
      send_reliable st (PStr (command ++ [10%N])) acks in
    match r with
    | Raise _ => Some (None, st, tr)
    | Return _ =>
        match collect loads ls st [] with
        | None => None
        | Some (response, st, tr') =>
            match decode_utf8 response with
            | Raise _ => Some (None, st, tr ++ tr')
            | Return text =>
                Some (Some {| output := text;
                              execution_time := finished - started |},
                      st, tr ++ tr')
            end
        end
    end.

(** ** Vocabulary of the statements *)

(** How [send_command] puts a reply together: [response = b""], then
    [response += data] for each chunk taken from [data_queue]. *)
Definition reassemble (chunks : list bytes) : bytes :=
  fold_left (fun response data => response ++ data) chunks [].

(** The datagrams that left, in order. *)
Fixpoint sent (tr : list event) : list tx :=
  match tr with
  | [] => []
  | Sent p :: tr' => p :: sent tr'
  | _ :: tr' => sent tr'
  end.

(** The parts of what a sender gives back. *)
Definition returned {A S E : Type} (x : outcome A * S * list event * E)
  : outcome A := fst (fst (fst x)).

Definition trace_of {A S E : Type} (x : outcome A * S * list event * E)
  : list event := snd (fst x).

(** The datagram that [send_reliable] builds for a chunk. *)
Definition chunk_packet (st : client) (chunk : bytes) (seq_num : Z)
    (packet_type : pystr) : tx :=
  fst (client_create_packet st chunk (JInt seq_num) packet_type).

(** An acknowledgment that is not the one awaited. *)
Definition unmatched (seq_num : Z) (a : json) : Prop :=
  py_eq a (JInt seq_num) = false.

(** How a wait for the acknowledgment of [seq_num] ends without it: a
    timeout, or some other acknowledgment. *)
Definition fruitless (seq_num : Z) (w : event) : Prop :=
  w = AckTimeout \/ exists a, w = AckGot a /\ unmatched seq_num a.

(** No acknowledgment of [seq_num] is queued or ever arrives (and
    [sendto] does not raise). *)
Definition never_acked (seq_num : Z) (st : client) (env : list attempt)
  : Prop :=
  Forall (unmatched seq_num) (ack_queue st)
  /\ Forall (fun a => send_raises a = false
                      /\ Forall (unmatched seq_num) (arrivals a)) env.

(** After a wait that ended without the acknowledgment, the next datagram
    handed to the socket, if any, is the same one. *)
Definition resend (p : tx) (rest : list event) : Prop :=
  match rest with
  | [] => True
  | Sent q :: _ | SendFailed q :: _ => q = p
  | _ => False
  end.

(** Stop-and-wait, as a property of what a sender does: every datagram
    that leaves is followed by a wait for an acknowledgment; when the wait
    ends without an acknowledgment of that datagram's sequence number,
    only that datagram may be sent next. A send ends where [sendto]
    raises. *)
Fixpoint stop_and_wait (tr : list event) : Prop :=
  match tr with
  | [] => True
  | Sent p :: AckGot a :: rest =>
      if py_eq a (tx_seq p) then stop_and_wait rest
      else resend p rest /\ stop_and_wait rest
  | Sent p :: AckTimeout :: rest => resend p rest /\ stop_and_wait rest
  | [SendFailed _] => True
  | _ => False
  end.

(** The datagrams whose acknowledgment was received right after they
    left. *)
Fixpoint acknowledged (tr : list event) : list tx :=
  match tr with
  | [] => []
  | Sent p :: tr' =>
      match tr' with
      | AckGot a :: _ =>
          if py_eq a (tx_seq p) then p :: acknowledged tr'
          else acknowledged tr'
      | _ => acknowledged tr'
      end
  | _ :: tr' => acknowledged tr'
  end.

(** A sender's step that hands a datagram to the socket (and waits for
    nothing). *)
Definition is_send (e : event) : Prop :=
  match e with
  | Sent _ | SendFailed _ => True
  | _ => False
  end.

Definition state_of {A S E : Type} (x : outcome A * S * list event * E)
  : S := snd (fst (fst x)).

(** Payloads of two and of three chunks. *)
Definition two_chunks : bytes := repeat "a"%byte 1201.
Definition three_chunks : bytes := repeat "a"%byte 2401.

(** The header's checksum is there and equals the digest of the payload. *)
Definition checksum_ok (header_info : json) (data : bytes) : bool :=
  match getitem header_info "checksum" with
  | Return c => py_eq c (JStr (md5 data))
  | Raise _ => false
  end.

(** A decoder for the examples: it reads the headers that
    [_create_packet] writes for integer sequence numbers and plain session
    ids, that is one JSON object whose values are integers or strings of
    printable ASCII without escapes. On such a header it returns what
    [json.loads] returns; it answers [None] to everything else. *)
Fixpoint skip_spaces (b : bytes) : bytes :=
  match b with
  | x20 :: r => skip_spaces r
  | _ => b
  end.

(** The characters up to the closing quote. *)
Fixpoint read_string (b : bytes) : option (pystr * bytes) :=
  match b with
  | [] => None
  | x22 :: r => Some ([], r)
  | x5c :: _ => None
  | c :: r =>
      if (Z_of_byte c <? 32) || (126 <? Z_of_byte c) then None
      else match read_string r with
           | Some (s, r') => Some (Byte.to_N c :: s, r')
           | None => None
           end
  end.

Fixpoint read_digits (b : bytes) (acc : Z) : Z * bytes :=
  match b with
  | c :: r =>
      if (48 <=? Z_of_byte c) && (Z_of_byte c <=? 57)
      then read_digits r (10 * acc + (Z_of_byte c - 48))
      else (acc, b)
  | [] => (acc, b)
  end.

(** An integer without sign: no leading zero. *)
Definition read_natural (b : bytes) : option (Z * bytes) :=
  match b with
  | x30 :: r =>
      match r with
      | c :: _ =>
          if (48 <=? Z_of_byte c) && (Z_of_byte c <=? 57) then None
          else Some (0, r)
      | [] => Some (0, r)
      end
  | c :: _ =>
      if (49 <=? Z_of_byte c) && (Z_of_byte c <=? 57)
      then Some (read_digits b 0)
      else None
  | [] => None
  end.

Definition read_value (b : bytes) : option (json * bytes) :=
  match b with
  | x22 :: r =>
      match read_string r with
      | Some (s, r') => Some (JStr s, r')
      | None => None
      end
  | x2d :: r =>
      match read_natural r with
      | Some (n, r') => Some (JInt (- n), r')
      | None => None
      end
  | _ =>
      match read_natural b with
      | Some (n, r') => Some (JInt n, r')
      | None => None
      end
  end.

(** The members of an object, from a key on, up to the closing brace. *)
Fixpoint read_members (fuel : nat) (b : bytes)
  : option (list (pystr * json) * bytes) :=
  match fuel with
  | O => None
  | S fuel' =>
      match skip_spaces b with
      | x22 :: r =>
          match read_string r with
          | Some (k, r1) =>
              match skip_spaces r1 with
              | x3a :: r2 =>
                  match read_value (skip_spaces r2) with
                  | Some (v, r3) =>
                      match skip_spaces r3 with
                      | x2c :: r4 =>
                          match read_members fuel' r4 with
                          | Some (m, r5) =>
                              match lookup m k with
                              | None => Some ((k, v) :: m, r5)
                              | Some _ => None
                              end
                          | None => None
                          end
                      | x7d :: r4 => Some ([(k, v)], r4)
                      | _ => None
                      end
                  | None => None
                  end
              | _ => None
              end
          | None => None
          end
      | _ => None
      end
  end.

Definition header_loads (b : bytes) : option json :=
  match skip_spaces b with
  | x7b :: r =>
      match read_members (length r) r with
      | Some (m, r') =>
          match skip_spaces r' with
          | [] => Some (JObj m)
          | _ => None
          end
      | None => None
      end
  | _ => None
  end.

(** No two items of a dictionary have equal keys. *)
Fixpoint unique_keys {V : Type} (d : dict V) : Prop :=
  match d with
  | [] => True
  | (k, _) :: r => dict_get r k = None /\ unique_keys r
  end.

(** The acknowledgment of a packet, as either side builds it. *)
Definition ack_of (pkt : packet) (session_id : json) (to : address) : tx :=
  {| tx_data := lit "ACK"; tx_seq := p_seq pkt; tx_type := py "ACK";
     tx_session := session_id; tx_to := to |}.

(** The datagram carries an integer sequence number [n], [lo <= n < hi]. *)
Definition numbered (lo hi : Z) (p : tx) : Prop :=
  exists n, tx_seq p = JInt n /\ lo <= n < hi.

(** The numbers [first], [first + 1], ..., [count] of them. *)
Definition numbers_from (first : Z) (count : nat) : list json :=
  map (fun j => JInt (first + Z.of_nat j)) (seq 0 count).

(** A number as a float value: integers are exact. *)
Definition embed (n : number) : fvalue :=
  match n with
  | NumInt x => FFinite (inject_Z x)
  | NumFloat v => v
  end.

(** The types of the protocol. *)
Definition packet_types : list pystr :=
  [py "CONNECT"; py "CONNECT_ACK"; py "DATA"; py "LAST"; py "ACK"].

(** A packet whose payload was replaced on the way. *)
Definition altered (pkt payload : bytes) : bytes :=
  firstn HEADER_SIZE pkt ++ payload.

(** The dictionary that decoding gives for the packet that
    [_create_packet] builds from these arguments. *)
Definition packet_of (data : bytes) (seq_num : json) (packet_type : pystr)
    (session_id : json) : packet :=
  {| p_seq := seq_num; p_type := JStr packet_type;
     p_length := JInt (Z.of_nat (length data)); p_session := session_id;
     p_data := data |}.

(** The header of a datagram, and the packet its receiver should see. *)
Definition header_of (p : tx) : json :=
  header_dict (tx_data p) (tx_seq p) (tx_type p) (tx_session p).

Definition received_as (p : tx) : packet :=
  packet_of (tx_data p) (tx_seq p) (tx_type p) (tx_session p).

(** The library reads the header of [p] back as it was written, and the
    header fits its region. *)
Definition readable (loads : bytes -> option json) (p : tx) : Prop :=
  loads (json_dumps (header_of p)) = Some (header_of p)
  /\ (length (json_dumps (header_of p)) <= HEADER_SIZE)%nat.

(** A channel that loses nothing: the client's receive loop gets the
    datagrams in order, one per pass, and its own [sendto] returns. *)
Fixpoint deliver (loads : bytes -> option json) (c : client) (ps : list tx)
  : client * list event :=
  match ps with
  | [] => (c, [])
  | p :: ps' =>
      let (c1, tr1) := receiver_body loads c (Datagram (wire p) (tx_to p)) true in
      let (c2, tr2) := deliver loads c1 ps' in
      (c2, tr1 ++ tr2)
  end.

(** The datagrams handed to the socket, whether [sendto] returned or
    raised. *)
Fixpoint handed (tr : list event) : list tx :=
  match tr with
  | [] => []
  | Sent p :: tr' | SendFailed p :: tr' => p :: handed tr'
  | _ :: tr' => handed tr'
  end.

(** The acknowledgment of [n] arrives before the wait times out. *)
Definition acked (n : Z) : attempt :=
  {| send_raises := false; arrivals := [JInt n] |}.

(** A channel that loses some transmissions: for each chunk in turn, the
    given number of waits time out, and then the acknowledgment of the
    chunk's number arrives; chunks are numbered from [first] on. *)
Fixpoint lossy (first : Z) (losses : list nat) : list attempt :=
  match losses with
  | [] => []
  | k :: rest => repeat quiet k ++ acked first :: lossy (first + 1) rest
  end.

(** Each item as many times as it was transmitted: once more than it was
    lost. *)
Fixpoint copies {A : Type} (losses : list nat) (l : list A) : list A :=
  match losses, l with
  | k :: ks, x :: r => repeat x (S k) ++ copies ks r
  | _, _ => []
  end.

(** The bytes that the datagrams take on the wire, together. *)
Definition wire_bytes (ps : list tx) : Z :=
  fold_right (fun p n => Z.of_nat (length (wire p)) + n) 0 ps.

(** No session is registered under an id that counts as false (the empty
    string, [0], [None], ...). *)
Definition keys_truthy {V : Type} (d : dict V) : Prop :=
  Forall (fun item => truthy (fst item) = true) d.

(** The datagram that says goodbye to session [sid], numbered [n]. *)
Definition goodbye_packet (n : Z) (sid : pystr) (to : address) : tx :=
  {| tx_data := lit "Goodbye!" ++ [x0d; x0a]; tx_seq := JInt n;
     tx_type := py "LAST"; tx_session := JStr sid; tx_to := to |}.

(** A code point that is a surrogate ([U+D800] to [U+DFFF]). *)
Definition surrogate (c : N) : bool :=
  ((55296 <=? c) && (c <=? 57343))%N.

(** The accepting side's loop gets the datagrams in order from one peer,
    one per pass, each pass with its own answers of the environment. *)
Fixpoint serve (loads : bytes -> option json) (s : server)
    (arrived : list (tx * answers)) (from : address) : server * list event :=
  match arrived with
  | [] => (s, [])
  | (p, env) :: rest =>
      let (s1, tr1) := server_loop_body loads s (Datagram (wire p) from) env in
      let (s2, tr2) := serve loads s1 rest from in
      (s2, tr1 ++ tr2)
  end.

(** A pass in which [sendto] returns and the sweep runs at most a minute
    after the packet was handled. *)
Definition prompt_pass (env : answers) : Prop :=
  sendto_ok env = true
  /\ Qle_bool (clock_sweep env - clock_handle env) 60 = true.

(** Looks at which nothing has been received: the time is not up, or it
    is. *)
Definition waiting : look := {| in_time := true; passes := [] |}.
Definition time_up : look := {| in_time := false; passes := [] |}.

(** An attempt of [connect] that nothing answers: [sendto] returns, the
    wait polls some number of times and runs out. *)
Definition unanswered (a : connect_attempt) : Prop :=
  sendto_raises a = false
  /\ exists k more, looks a = repeat waiting k ++ time_up :: more.

(** The [CONNECT] datagram of a client. *)
Definition connect_packet_of (st : client) : tx :=
  {| tx_data := lit "CONNECT"; tx_seq := JInt 0; tx_type := py "CONNECT";
     tx_session := session_id st; tx_to := server_addr st |}.

(** A client that [connect] has connected, with nothing queued. *)
Definition connected_client (sid : pystr) (peer : address) : client :=
  {| session_id := JStr sid; sequence_number := 0; server_addr := peer;
     connected := true; ack_queue := []; data_queue := [];
     data_sent := 0; data_received := 0 |}.

(** A server that has no session yet. *)
Definition fresh_server : server := {| clients := []; sequence_numbers := [] |}.

Definition localhost : address := (py "127.0.0.1", 2223).

(** A server with one session, last active at time [t]. *)
Definition server_with (sid : pystr) (peer : address) (t : Q) : server :=
  {| clients := [(JStr sid,
                  {| addr := peer; last_active := t; buffer := [] |})];
     sequence_numbers := [(JStr sid, 0)] |}.

(** A [LAST] packet carrying [b"pwd"] with sequence number 3 in session
    [s1]: the datagram, the packet as decoded, and answers of the
    environment for a pass at time 10. *)
Definition sample_datagram : bytes :=
  _create_packet (lit "pwd") (JInt 3) (py "LAST") (JStr (py "s1")).

Definition sample_packet : packet :=
  {| p_seq := JInt 3; p_type := JStr (py "LAST"); p_length := JInt 3;
     p_session := JStr (py "s1"); p_data := lit "pwd" |}.

Definition sample_answers : answers :=
  {| clock_text := py "10.0"; clock_handle := 10; clock_sweep := 10;
     sendto_ok := true |}.

(** * Properties *)

(** ** Equality of header values and dictionaries *)

Lemma pystr_eqb_eq (a b : pystr) : pystr_eqb a b = true <-> a = b.
Proof.
  revert b; induction a as [|x a IH]; intros [|y b]; simpl;
    try (split; congruence).
  rewrite andb_true_iff, N.eqb_eq, IH. split.
  - now intros [-> ->].
  - intros E; injection E; auto.
Qed.

Lemma pystr_eqb_refl (a : pystr) : pystr_eqb a a = true.
Proof. now apply pystr_eqb_eq. Qed.

Lemma number_eqb_embed (a b : number) :
  number_eqb a b = fvalue_eqb (embed a) (embed b).
Proof.
  destruct a as [x|v], b as [y|w]; simpl; try reflexivity.
  unfold Qeq_bool; simpl. now rewrite !Z.mul_1_r.
Qed.

Lemma fvalue_eqb_sym (a b : fvalue) : fvalue_eqb a b = fvalue_eqb b a.
Proof.
  destruct a as [q|s|], b as [r|t|]; simpl; try reflexivity.
  - apply Qeq_bool_comm.
  - now destruct s, t.
Qed.

Lemma fvalue_eqb_trans (a b c : fvalue) :
  fvalue_eqb a b = true -> fvalue_eqb b c = true -> fvalue_eqb a c = true.
Proof.
  destruct a as [q|s|], b as [r|t|], c as [u|w|]; simpl; try congruence.
  - apply Qeq_bool_trans.
  - destruct s, t, w; simpl; congruence.
Qed.

Lemma py_eq_sym (a b : json) : py_eq a b = py_eq b a.
Proof.
  assert (N : forall x y, number_eqb x y = number_eqb y x)
    by (intros; rewrite !number_eqb_embed; apply fvalue_eqb_sym).
  destruct a as [| | | |s| |], b as [| | | |t| |]; cbn [py_eq as_number];
    try reflexivity; try apply N.
  destruct (pystr_eqb s t) eqn:E, (pystr_eqb t s) eqn:F; try reflexivity.
  - apply pystr_eqb_eq in E; subst. now rewrite pystr_eqb_refl in F.
  - apply pystr_eqb_eq in F; subst. now rewrite pystr_eqb_refl in E.
Qed.

Lemma py_eq_trans (a b c : json) :
  py_eq a b = true -> py_eq b c = true -> py_eq a c = true.
Proof.
  assert (N : forall x y z, number_eqb x y = true -> number_eqb y z = true ->
                            number_eqb x z = true)
    by (intros x y z; rewrite !number_eqb_embed; apply fvalue_eqb_trans).
  destruct a as [| | | |s| |], b as [| | | |t| |]; cbn [py_eq as_number];
    try discriminate; destruct c as [| | | |u| |]; cbn [py_eq as_number];
    try discriminate; try apply N; try reflexivity.
  rewrite !pystr_eqb_eq. congruence.
Qed.

(** Comparing with a [str] succeeds for that very [str] only. *)
Lemma py_eq_str (a : json) (s : pystr) : py_eq a (JStr s) = true <-> a = JStr s.
Proof.
  destruct a as [| | | |t| |]; simpl; try (split; discriminate).
  rewrite pystr_eqb_eq. split; congruence.
Qed.

Lemma py_eq_str_refl (s : pystr) : py_eq (JStr s) (JStr s) = true.
Proof. now apply py_eq_str. Qed.

Lemma dict_get_set_same (V : Type) (d : dict V) (k : json) (v : V) :
  py_eq k k = true -> dict_get (dict_set d k v) k = Some v.
Proof.
  intros R. induction d as [|[k' v'] d IH]; simpl.
  - now rewrite R.
  - destruct (py_eq k' k) eqn:E; simpl; now rewrite E.
Qed.

Lemma dict_get_set_other (V : Type) (d : dict V) (k k2 : json) (v : V) :
  py_eq k k2 = false -> dict_get (dict_set d k v) k2 = dict_get d k2.
Proof.
  intros D. induction d as [|[k' v'] d IH]; simpl.
  - now rewrite D.
  - destruct (py_eq k' k) eqn:E; simpl.
    + destruct (py_eq k' k2) eqn:F; [|reflexivity].
      rewrite py_eq_sym in E. now rewrite (py_eq_trans _ _ _ E F) in D.
    + now rewrite IH.
Qed.

(** ** Chunking and reassembly *)

Lemma firstn_plus (A : Type) (a b : nat) (l : list A) :
  firstn (a + b) l = firstn a l ++ firstn b (skipn a l).
Proof.
  revert l; induction a as [|a IH]; intros l; simpl; [reflexivity|].
  destruct l as [|x l]; simpl.
  - now rewrite firstn_nil.
  - now rewrite IH.
Qed.

Lemma slice_width (data : bytes) (i size : nat) :
  slice data i (i + size) = firstn size (skipn i data).
Proof.
  unfold slice. now replace (i + size - i)%nat with size by lia.
Qed.

Lemma concat_slices (size : nat) (data : bytes) (m : nat) :
  concat (map (fun i => slice data i (i + size))
              (map (fun k => k * size)%nat (seq 0 m)))
  = firstn (m * size) data.
Proof.
  induction m as [|m IH]; [reflexivity|].
  rewrite seq_S, !map_app, concat_app, IH. simpl.
  rewrite app_nil_r, slice_width.
  replace (size + m * size)%nat with (m * size + size)%nat by lia.
  now rewrite firstn_plus.
Qed.

Lemma range_covers (len size : nat) :
  (0 < size)%nat -> (len <= (len + size - 1) / size * size)%nat.
Proof.
  intros Hs.
  pose proof (Nat.div_mod_eq (len + size - 1) size) as E.
  pose proof (Nat.mod_upper_bound (len + size - 1) size ltac:(lia)) as B.
  nia.
Qed.

Lemma concat_split_chunks (size : nat) (data : bytes) :
  (0 < size)%nat -> concat (split_chunks size data) = data.
Proof.
  intros Hs. unfold split_chunks, py_range.
  rewrite concat_slices. apply firstn_all2. now apply range_covers.
Qed.

Lemma reassemble_concat (chunks : list bytes) :
  reassemble chunks = concat chunks.
Proof.
  unfold reassemble.
  enough (H : forall acc, fold_left (fun r d => r ++ d) chunks acc
                          = acc ++ concat chunks) by apply (H []).
  induction chunks as [|c chunks IH]; intros acc; simpl.
  - now rewrite app_nil_r.
  - now rewrite IH, app_assoc.
Qed.

(** C3. Splitting a payload into pieces of the maximum chunk size and
    putting the pieces together again, in order, gives the payload back:
    [reassemble (split P) = P] for every byte string [P]. *)
Theorem reassemble_split (P : bytes) : reassemble (split P) = P.
Proof.
  rewrite reassemble_concat. apply concat_split_chunks.
  unfold DATA_SIZE, PACKET_SIZE, HEADER_SIZE. lia.
Qed.

(** X3. Every chunk is non-empty and has at most [DATA_SIZE] (1200)
    bytes, and a payload of [n] bytes has [ceil (n / 1200)] chunks. *)
Theorem split_chunk_sizes (P : bytes) :
  Forall (fun c => (0 < length c <= DATA_SIZE)%nat) (split P)
  /\ length (split P) = ((length P + DATA_SIZE - 1) / DATA_SIZE)%nat.
Proof.
  unfold split, split_chunks, py_range.
  assert (Hs : (0 < DATA_SIZE)%nat)
    by (unfold DATA_SIZE, PACKET_SIZE, HEADER_SIZE; lia).
  generalize DATA_SIZE Hs. intros size Hsize. split.
  - rewrite map_map. apply Forall_map. apply Forall_forall.
    intros k Hk. apply in_seq in Hk. rewrite slice_width.
    rewrite length_firstn, length_skipn.
    pose proof (Nat.Div0.mul_div_le (length P + size - 1) size) as M.
    nia.
  - now rewrite !length_map, length_seq.
Qed.

(** ** The empty payload *)

Lemma split_empty : split [] = [].
Proof. reflexivity. Qed.

Lemma counter_set (s : server) (k : json) (n : Z) :
  py_eq k k = true -> counter (set_counter s k n) k = n.
Proof.
  intros R. unfold counter, set_counter; simpl. now rewrite dict_get_set_same.
Qed.

(** C10. For the empty payload there is no chunk; a connected client's
    [send_reliable] and the server's [send_data] transmit nothing, not even
    a [LAST] packet, and both return [True]. (The server still advances the
    session's counter by one.) *)
Theorem empty_payload_sends_nothing (c : client) (s : server) (data : pydata)
    (to : address) (sid : pystr) (acks : list attempt) (sends : list bool) :
  connected c = true ->
  as_bytes data = Return [] ->
  split [] = []
  /\ send_reliable c data acks = (Return true, c, [], acks)
  /\ exists s',
       send_data s data to sid sends = (Return true, s', [], sends)
       /\ clients s' = clients s
       /\ counter s' (JStr sid) = counter s (JStr sid) + 1.
Proof.
  intros Hc Hd. split; [reflexivity|]. split.
  - unfold send_reliable. now rewrite Hc, Hd.
  - unfold send_data. rewrite Hd. simpl.
    eexists. split; [reflexivity|]. split.
    + now destruct (dict_mem (sequence_numbers s) (JStr sid)).
    + pose proof (py_eq_str_refl sid) as R.
      rewrite !counter_set by exact R.
      unfold dict_mem.
      destruct (dict_get (sequence_numbers s) (JStr sid)) eqn:G; simpl.
      * unfold counter. rewrite G. lia.
      * rewrite counter_set by exact R. unfold counter. rewrite G. lia.
Qed.

Lemma empty_payload_sends_nothing_witness :
  send_reliable (connected_client (py "s1") localhost) (PStr []) []
  = (Return true, connected_client (py "s1") localhost, [], []).
Proof.
  exact (proj1 (proj2 (empty_payload_sends_nothing
                         (connected_client (py "s1") localhost) fresh_server
                         (PStr []) localhost (py "s1") [] []
                         eq_refl eq_refl))).
Defined.

(** ** The reliable sender of the initiating side *)

Lemma send_chunks_app (l1 l2 : list bytes) (i total : nat) (st : client)
    (env : list attempt) :
  send_chunks (l1 ++ l2) i total st env
  = match send_chunks l1 i total st env with
    | (Return true, st1, tr1, env1) =>
        let '(r, st2, tr2, env2) :=
          send_chunks l2 (i + length l1) total st1 env1 in
        (r, st2, tr1 ++ tr2, env2)
    | other => other
    end.
Proof.
  revert i st env. induction l1 as [|c l1 IH]; intros i st env.
  - simpl. rewrite Nat.add_0_r.
    now destruct (send_chunks l2 i total st env) as [[[r st2] tr2] env2].
  - cbn [app send_chunks length].
    destruct (retry_loop MAX_RETRIES _ c _ _ env) as [[[r st1] tr1] env1].
    destruct r as [[|]|e]; try reflexivity.
    rewrite IH.
    destruct (send_chunks l1 (S i) total st1 env1) as [[[r st2] tr2] env2].
    destruct r as [[|]|e]; try reflexivity.
    replace (i + S (length l1))%nat with (S i + length l1)%nat by lia.
    destruct (send_chunks l2 _ total st2 env2) as [[[r st3] tr3] env3].
    now rewrite app_assoc.
Qed.

(** The retry loop when the acknowledgment never comes: the same datagram
    leaves once per pass, each time followed by a fruitless wait, and the
    loop ends with [ack_received] still false. *)
Lemma retry_loop_never_acked (left : nat) (st : client) (chunk : bytes)
    (seq_num : Z) (packet_type : pystr) (env : list attempt) :
  never_acked seq_num st env ->
  exists st' waits env',
    retry_loop left st chunk seq_num packet_type env
    = (Return false, st',
       flat_map (fun w => [Sent (chunk_packet st chunk seq_num packet_type); w])
                waits,
       env')
    /\ length waits = left
    /\ Forall (fruitless seq_num) waits
    /\ sequence_number st' = sequence_number st.
Proof.
  revert st env. induction left as [|left IH]; intros st env [Hq He].
  - exists st, [], env. simpl. auto.
  - cbn [retry_loop client_create_packet].
    set (p := {| tx_data := chunk; tx_seq := JInt seq_num;
                 tx_type := packet_type; tx_session := session_id st;
                 tx_to := server_addr st |}).
    set (st1 := set_data_sent st _).
    assert (Hnext : send_raises (fst (next_attempt env)) = false
                    /\ Forall (unmatched seq_num)
                              (arrivals (fst (next_attempt env)))
                    /\ Forall (fun a => send_raises a = false
                                 /\ Forall (unmatched seq_num) (arrivals a))
                              (snd (next_attempt env))).
    { destruct env as [|a env]; simpl; [auto|].
      inversion He as [|? ? [Ha1 Ha2] He']; subst. auto. }
    destruct (next_attempt env) as [a env1]; simpl in Hnext.
    destruct Hnext as (Hs & Ha & He1). rewrite Hs.
    assert (Hall : Forall (unmatched seq_num) (ack_queue st1 ++ arrivals a))
      by (apply Forall_app; split; assumption).
    destruct (ack_queue st1 ++ arrivals a) as [|ack q] eqn:Q.
    + destruct (IH (set_ack_queue st1 []) env1)
        as (st' & ws & env' & E & L & F & S).
      { split; [constructor | exact He1]. }
      rewrite E. exists st', (AckTimeout :: ws), env'.
      repeat split; simpl; auto.
      constructor; [now left | exact F].
    + inversion Hall as [|? ? Hack Hq']; subst.
      unfold unmatched in Hack. rewrite Hack.
      destruct (IH (set_ack_queue st1 q) env1)
        as (st' & ws & env' & E & L & F & S).
      { split; [exact Hq' | exact He1]. }
      rewrite E. exists st', (AckGot ack :: ws), env'.
      repeat split; simpl; auto.
      constructor; [right; now exists ack | exact F].
Qed.

Lemma send_reliable_connected (st : client) (data : pydata) (payload : bytes)
    (env : list attempt) :
  connected st = true ->
  as_bytes data = Return payload ->
  send_reliable st data env
  = send_chunks (split payload) 0 (length (split payload)) st env.
Proof. intros Hc Hd. unfold send_reliable. now rewrite Hc, Hd. Qed.

(** C2. Take any chunk of a payload that a connected client sends with
    [send_reliable]: say the chunks before it were acknowledged, and no
    acknowledgment of this one is queued or ever arrives. Then the same
    datagram leaves on every pass of the retry loop, each followed by a
    fruitless wait, exactly [MAX_RETRIES] (5) times; after that
    [send_reliable] returns [False] for the whole payload, and nothing
    else is sent. *)
Theorem send_reliable_gives_up_after_max_retries
    (st : client) (data : pydata) (payload : bytes) (env : list attempt)
    (k : nat) (chunk : bytes)
    (st_k : client) (tr_k : list event) (env_k : list attempt) :
  connected st = true ->
  as_bytes data = Return payload ->
  nth_error (split payload) k = Some chunk ->
  send_chunks (firstn k (split payload)) 0 (length (split payload)) st env
  = (Return true, st_k, tr_k, env_k) ->
  never_acked (sequence_number st_k) st_k env_k ->
  let seq_num := sequence_number st_k in
  let p := chunk_packet st_k chunk seq_num
             (chunk_type k (length (split payload))) in
  exists st' waits env',
    send_reliable st data env
    = (Return false, st',
       tr_k ++ flat_map (fun w => [Sent p; w]) waits, env')
    /\ length waits = MAX_RETRIES
    /\ Forall (fruitless seq_num) waits
    /\ sent (flat_map (fun w => [Sent p; w]) waits) = repeat p MAX_RETRIES.
Proof.
  intros Hc Hd Hk Hpre Hnever seq_num p.
  destruct (nth_error_split _ _ Hk) as (l1 & l2 & Hsplit & Hlen).
  assert (Hfirst : firstn k (split payload) = l1).
  { rewrite Hsplit, <- Hlen, <- (Nat.add_0_r (length l1)), firstn_app_2.
    simpl. apply app_nil_r. }
  rewrite (@send_reliable_connected st data payload env Hc Hd).
  rewrite Hfirst in Hpre. subst p seq_num.
  remember (length (split payload)) as total eqn:Htotal.
  rewrite Hsplit, send_chunks_app, Hpre.
  cbn [Nat.add send_chunks]. rewrite Hlen.
  destruct (@retry_loop_never_acked MAX_RETRIES
              (set_sequence_number st_k (sequence_number st_k + 1))
              chunk (sequence_number st_k) (chunk_type k total) env_k Hnever)
    as (st' & waits & env' & E & L & F & S).
  rewrite E. exists st', waits, env'.
  split; [reflexivity|]. split; [exact L|]. split; [exact F|].
  rewrite <- L.
  generalize (chunk_packet st_k chunk (sequence_number st_k)
                (chunk_type k total)) as p.
  intros p. clear - F. induction F as [|w ws Hw F IH]; [reflexivity|].
  cbn [flat_map app sent length repeat].
  destruct Hw as [-> | (a & -> & _)]; now rewrite IH.
Qed.

Lemma send_reliable_gives_up_after_max_retries_witness :
  exists st' waits env',
    send_reliable (connected_client (py "s1") localhost) (PStr (py "exit")) []
    = (Return false, st',
       [] ++ flat_map
               (fun w =>
                  [Sent (chunk_packet (connected_client (py "s1") localhost)
                           (lit "exit") 0 (py "LAST")); w]) waits,
       env')
    /\ length waits = MAX_RETRIES
    /\ Forall (fruitless 0) waits
    /\ sent (flat_map
               (fun w =>
                  [Sent (chunk_packet (connected_client (py "s1") localhost)
                           (lit "exit") 0 (py "LAST")); w]) waits)
       = repeat (chunk_packet (connected_client (py "s1") localhost)
                   (lit "exit") 0 (py "LAST")) MAX_RETRIES.
Proof.
  apply (@send_reliable_gives_up_after_max_retries
           (connected_client (py "s1") localhost)
           (PStr (py "exit")) (lit "exit") [] 0%nat (lit "exit")
           (connected_client (py "s1") localhost) [] []).
  - reflexivity.
  - reflexivity.
  - reflexivity.
  - reflexivity.
  - split; constructor.
Defined.

(** ** Stop-and-wait *)

(** What one run of the retry loop contributes to a trace that goes on
    with [rest] (there is a rest only when the loop got its
    acknowledgment). *)
Lemma retry_loop_trace (left : nat) (st : client) (chunk : bytes)
    (seq_num : Z) (packet_type : pystr) (env : list attempt)
    (r : outcome bool) (st' : client) (tr : list event)
    (env' : list attempt) :
  retry_loop left st chunk seq_num packet_type env = (r, st', tr, env') ->
  forall rest,
    r = Return true \/ rest = [] ->
    stop_and_wait rest ->
    stop_and_wait (tr ++ rest)
    /\ resend (chunk_packet st chunk seq_num packet_type) (tr ++ rest)
    /\ acknowledged (tr ++ rest)
       = match r with
         | Return true => [chunk_packet st chunk seq_num packet_type]
         | _ => []
         end ++ acknowledged rest.
Proof.
  revert st env r st' tr env'.
  induction left as [|left IH]; intros st env r st' tr env' E rest Hr Hrest.
  - simpl in E. injection E as <- <- <- <-.
    destruct Hr as [Hr | ->]; [discriminate|]. simpl. auto.
  - cbn [retry_loop client_create_packet] in E.
    change ({| tx_data := chunk; tx_seq := JInt seq_num;
               tx_type := packet_type; tx_session := session_id st;
               tx_to := server_addr st |})
      with (chunk_packet st chunk seq_num packet_type) in E.
    set (p := chunk_packet st chunk seq_num packet_type) in *.
    set (st1 := set_data_sent st _) in E.
    destruct (next_attempt env) as [a env1].
    destruct (send_raises a).
    { injection E as <- <- <- <-.
      destruct Hr as [Hr | ->]; [discriminate|]. simpl. auto. }
    destruct (ack_queue st1 ++ arrivals a) as [|ack q].
    + destruct (retry_loop left (set_ack_queue st1 []) chunk seq_num
                  packet_type env1) as [[[r2 st2] tr2] env2] eqn:E2.
      injection E as <- <- <- <-.
      destruct (IH _ _ _ _ _ _ E2 rest Hr Hrest) as (H1 & H2 & H3).
      change (chunk_packet (set_ack_queue st1 []) chunk seq_num packet_type)
        with p in H2, H3.
      cbn [app stop_and_wait acknowledged].
      repeat split; try assumption; reflexivity.
    + destruct (py_eq ack (JInt seq_num)) eqn:M.
      * injection E as <- <- <- <-.
        cbn [app stop_and_wait acknowledged].
        change (tx_seq p) with (JInt seq_num). rewrite M.
        repeat split; try assumption; reflexivity.
      * destruct (retry_loop left (set_ack_queue st1 q) chunk seq_num
                    packet_type env1) as [[[r2 st2] tr2] env2] eqn:E2.
        injection E as <- <- <- <-.
        destruct (IH _ _ _ _ _ _ E2 rest Hr Hrest) as (H1 & H2 & H3).
        change (chunk_packet (set_ack_queue st1 q) chunk seq_num packet_type)
          with p in H2, H3.
        cbn [app stop_and_wait acknowledged].
        change (tx_seq p) with (JInt seq_num). rewrite M.
        repeat split; try assumption; reflexivity.
Qed.

Lemma send_chunks_trace (chunks : list bytes) (i total : nat) (st : client)
    (env : list attempt) (r : outcome bool) (st' : client) (tr : list event)
    (env' : list attempt) :
  send_chunks chunks i total st env = (r, st', tr, env') ->
  stop_and_wait tr
  /\ (r = Return true -> map tx_data (acknowledged tr) = chunks).
Proof.
  revert i st env r st' tr env'.
  induction chunks as [|c chunks IH]; intros i st env r st' tr env' E.
  - simpl in E. injection E as <- <- <- <-. simpl. auto.
  - cbn [send_chunks] in E.
    destruct (retry_loop MAX_RETRIES _ c _ _ env)
      as [[[r1 st1] tr1] env1] eqn:E1.
    destruct r1 as [[|]|e].
    + destruct (send_chunks chunks (S i) total st1 env1)
        as [[[r2 st2] tr2] env2] eqn:E2.
      injection E as <- <- <- <-.
      destruct (IH _ _ _ _ _ _ _ E2) as [S2 A2].
      destruct (retry_loop_trace _ _ _ _ _ _ _ _ _ _ E1 tr2
                  (or_introl eq_refl) S2)
        as (H1 & _ & H3).
      split; [exact H1|]. intros Hr. rewrite H3. simpl. now rewrite A2.
    + injection E as <- <- <- <-.
      destruct (retry_loop_trace _ _ _ _ _ _ _ _ _ _ E1 []
                  (or_intror eq_refl) I)
        as (H1 & _ & _).
      rewrite app_nil_r in H1. split; [exact H1 | discriminate].
    + injection E as <- <- <- <-.
      destruct (retry_loop_trace _ _ _ _ _ _ _ _ _ _ E1 []
                  (or_intror eq_refl) I)
        as (H1 & _ & _).
      rewrite app_nil_r in H1. split; [exact H1 | discriminate].
Qed.

Lemma sent_app (a b : list event) : sent (a ++ b) = sent a ++ sent b.
Proof.
  induction a as [|e a IH]; [reflexivity|].
  destruct e; simpl; now rewrite IH.
Qed.

(** The server's five attempts for one datagram: it leaves at most once,
    and nothing is awaited. *)
Lemma send_attempts_trace (left : nat) (p : tx) (env : list bool)
    (ok : bool) (tr : list event) (env' : list bool) :
  send_attempts (S left) p env = (ok, tr, env') ->
  Forall is_send tr /\ sent tr = if ok then [p] else [].
Proof.
  revert env ok tr env'.
  induction left as [|left IH]; intros env ok tr env' E.
  - cbn in E. destruct (next_send env) as [[|] env1];
      injection E as <- <- <-; split; repeat constructor.
  - change (send_attempts (S (S left)) p env)
      with (let (b, env1) := next_send env in
            if b then (true, [Sent p], env1)
            else let '(r, tr, env2) := send_attempts (S left) p env1 in
                 (r, SendFailed p :: tr, env2)) in E.
    destruct (next_send env) as [[|] env1].
    + injection E as <- <- <-. split; repeat constructor.
    + destruct (send_attempts (S left) p env1) as [[ok2 tr2] env2] eqn:E2.
      injection E as <- <- <-.
      destruct (IH _ _ _ _ E2) as [F S].
      split; [constructor; [exact I | exact F] | exact S].
Qed.

(** The server's loop over the chunks: only sends; when it completes, the
    chunks left once each, in order, numbered from [seq_num + i] on. *)
Lemma send_all_trace (chunks : list bytes) (i total : nat) (seq_num : Z)
    (to : address) (sid : json) (env : list bool)
    (ok : bool) (tr : list event) (env' : list bool) :
  send_all chunks i total seq_num to sid env = (ok, tr, env') ->
  Forall is_send tr
  /\ (ok = true ->
      map tx_data (sent tr) = chunks
      /\ map tx_seq (sent tr)
         = map (fun j => JInt (seq_num + Z.of_nat j)) (seq i (length chunks))
      /\ map tx_type (sent tr)
         = map (fun j => chunk_type j total) (seq i (length chunks))).
Proof.
  revert i env ok tr env'.
  induction chunks as [|c chunks IH]; intros i env ok tr env' E.
  - simpl in E. injection E as <- <- <-. simpl. auto.
  - cbn [send_all] in E.
    destruct (send_attempts 5 _ env) as [[ok1 tr1] env1] eqn:E1.
    destruct (send_attempts_trace _ _ _ _ _ _ E1) as [F1 S1].
    destruct ok1.
    + destruct (send_all chunks (S i) total seq_num to sid env1)
        as [[ok2 tr2] env2] eqn:E2.
      injection E as <- <- <-.
      destruct (IH _ _ _ _ _ E2) as [F2 S2].
      split; [apply Forall_app; auto|].
      intros Hok. destruct (S2 Hok) as (D & Q & T).
      rewrite sent_app, S1. simpl. now rewrite D, Q, T.
    + injection E as <- <- <-. split; [exact F1 | discriminate].
Qed.

(** C1, as the code has it. On the initiating side payload sends are
    stop-and-wait: every datagram of [send_reliable] is followed by a wait
    for an acknowledgment, a wait that ends without an acknowledgment of
    that datagram's sequence number is followed by the same datagram or by
    nothing, and when the send succeeds the acknowledged datagrams carry
    the chunks of the payload in order. On the accepting side [send_data]
    only sends: it waits for no acknowledgment, and when it returns [True]
    every chunk left exactly once, in order. *)
Theorem stop_and_wait_on_the_initiating_side
    (c : client) (s : server) (data : pydata) (to : address) (sid : pystr)
    (acks : list attempt) (sends : list bool) :
  (stop_and_wait (trace_of (send_reliable c data acks))
   /\ forall payload,
        as_bytes data = Return payload ->
        returned (send_reliable c data acks) = Return true ->
        map tx_data (acknowledged (trace_of (send_reliable c data acks)))
        = split payload)
  /\ (Forall is_send (trace_of (send_data s data to sid sends))
      /\ forall payload,
           as_bytes data = Return payload ->
           returned (send_data s data to sid sends) = Return true ->
           map tx_data (sent (trace_of (send_data s data to sid sends)))
           = split payload).
Proof.
  split.
  - unfold send_reliable.
    destruct (connected c); cbn [negb].
    2:{ split; [exact I | discriminate]. }
    destruct (as_bytes data) as [payload|e].
    2:{ split; [exact I | discriminate]. }
    destruct (send_chunks (split payload) 0 (length (split payload)) c acks)
      as [[[r st'] tr] env'] eqn:E.
    destruct (send_chunks_trace _ _ _ _ _ _ _ _ _ E) as [H1 H2].
    split; [exact H1|].
    intros payload' [= <-] Hr. exact (H2 Hr).
  - unfold send_data.
    destruct (as_bytes data) as [payload|e].
    2:{ split; [constructor | discriminate]. }
    match goal with
    | |- context [send_all ?a ?b ?c ?d ?e ?f ?g] =>
        destruct (send_all a b c d e f g) as [[ok tr] env'] eqn:E
    end.
    destruct (send_all_trace _ _ _ _ _ _ _ _ _ _ E) as [H1 H2].
    destruct ok; (split; [exact H1|]).
    + intros payload' [= <-] _. exact (proj1 (H2 eq_refl)).
    + discriminate.
Qed.

(** C1 fails on the accepting side: [send_data] hands the two chunks of a
    1201-byte payload to the socket one after the other and returns
    [True]; no acknowledgment is awaited in between. *)
Lemma accepting_side_does_not_wait :
  returned (send_data fresh_server (PBytes two_chunks) localhost (py "s1") [])
  = Return true
  /\ map tx_seq
       (sent (trace_of
                (send_data fresh_server (PBytes two_chunks) localhost
                   (py "s1") [])))
     = [JInt 0; JInt 1]
  /\ ~ stop_and_wait
        (trace_of
           (send_data fresh_server (PBytes two_chunks) localhost (py "s1") [])).
Proof.
  split; [vm_compute; reflexivity|].
  split; [vm_compute; reflexivity|].
  intros H. vm_compute in H. exact H.
Qed.

(** ** The packet codec *)

Lemma length_ljust (width : nat) (b : bytes) :
  length (ljust width b) = Nat.max width (length b).
Proof. unfold ljust. rewrite length_app, repeat_length. lia. Qed.

Lemma firstn_app_exact (A : Type) (l1 l2 : list A) (n : nat) :
  length l1 = n -> firstn n (l1 ++ l2) = l1.
Proof.
  intros <-.
  now rewrite firstn_app, Nat.sub_diag, firstn_all, firstn_O, app_nil_r.
Qed.

Lemma skipn_app_exact (A : Type) (l1 l2 : list A) (n : nat) :
  length l1 = n -> skipn n (l1 ++ l2) = l2.
Proof.
  intros <-. now rewrite skipn_app, Nat.sub_diag, skipn_all, skipn_O.
Qed.

(** C5, as the code has it. [_create_packet] checks no size and never
    fails: the packet is the JSON header, padded with spaces to at least
    200 bytes and never cut, followed by the payload, so its size is
    [max 200 (header length) + payload length]. When the JSON header fits
    in 200 bytes the header region is exactly 200 bytes and the payload
    follows it unchanged; if moreover the payload has at most 1200 bytes,
    the packet has at most 1400. *)
Theorem create_packet_size (data : bytes) (seq_num : json)
    (packet_type : pystr) (session_id : json) :
  let header := json_dumps (header_dict data seq_num packet_type session_id) in
  let pkt := _create_packet data seq_num packet_type session_id in
  length pkt = (Nat.max HEADER_SIZE (length header) + length data)%nat
  /\ ((length header <= HEADER_SIZE)%nat ->
      firstn HEADER_SIZE pkt = ljust HEADER_SIZE header
      /\ length (ljust HEADER_SIZE header) = HEADER_SIZE
      /\ skipn HEADER_SIZE pkt = data
      /\ ((length data <= DATA_SIZE)%nat -> (length pkt <= PACKET_SIZE)%nat)).
Proof.
  intros header pkt. subst pkt. unfold _create_packet. fold header.
  split; [now rewrite length_app, length_ljust|].
  intros Hh.
  assert (L : length (ljust HEADER_SIZE header) = HEADER_SIZE)
    by (rewrite length_ljust; lia).
  repeat split.
  - now apply firstn_app_exact.
  - exact L.
  - now apply skipn_app_exact.
  - rewrite length_app, L.
    unfold DATA_SIZE, PACKET_SIZE, HEADER_SIZE in *. lia.
Qed.

(** C5 fails as stated: given a payload of 1201 bytes, [_create_packet]
    returns a packet of 1401 bytes. *)
Lemma create_packet_oversize :
  length (_create_packet (repeat "a"%byte 1201) (JInt 0) (py "DATA")
            (JStr (py "s1"))) = 1401%nat.
Proof. vm_compute. reflexivity. Qed.

(** Which types each side exempts. *)
Lemma server_exempt_types (s : pystr) :
  among (JStr s) server_exempt = true <-> s = py "ACK" \/ s = py "CONNECT".
Proof.
  unfold among, server_exempt; cbn [existsb]. rewrite !orb_true_iff.
  rewrite !py_eq_str. split.
  - intros [E | [E | E]]; [left | right | discriminate]; congruence.
  - intros [-> | ->]; auto.
Qed.

Lemma client_exempt_types (s : pystr) :
  among (JStr s) client_exempt = true <-> s = py "ACK" \/ s = py "CONNECT_ACK".
Proof.
  unfold among, client_exempt; cbn [existsb]. rewrite !orb_true_iff.
  rewrite !py_eq_str. split.
  - intros [E | [E | E]]; [left | right | discriminate]; congruence.
  - intros [-> | ->]; auto.
Qed.

(** What the checksum test answers, given the type of the packet. *)
Lemma checksum_passes_spec (exempt : list string) (hi ty : json)
    (data : bytes) :
  getitem hi "type" = Return ty ->
  (exists ok, checksum_passes exempt hi data = Return ok
              /\ ok = (among ty exempt || checksum_ok hi data))
  \/ ((exists e, checksum_passes exempt hi data = Raise e)
      /\ among ty exempt || checksum_ok hi data = false).
Proof.
  intros Hty. unfold checksum_passes, checksum_ok. rewrite Hty. cbn [bind].
  destruct (among ty exempt); cbn [negb orb]; [left; eauto|].
  destruct (getitem hi "checksum") as [c|e]; cbn [bind]; [|right; eauto].
  destruct (py_eq c (JStr (md5 data))); cbn [negb]; [left; eauto|].
  destruct (getitem hi "seq") as [q|e]; cbn [bind]; [left | right]; eauto.
Qed.

(** How both decoders go once the header has been read as [hi] and has
    a type. *)
Lemma server_parse_packet_spec (loads : bytes -> option json) (pkt : bytes)
    (hi ty : json) :
  loads (strip (firstn HEADER_SIZE pkt)) = Some hi ->
  getitem hi "type" = Return ty ->
  server_parse_packet loads pkt
  = if among ty server_exempt || checksum_ok hi (skipn HEADER_SIZE pkt)
    then try_except (server_fields hi (skipn HEADER_SIZE pkt))
           (fun _ => Return None)
    else Return None.
Proof.
  intros Hl Hty. unfold server_parse_packet, json_loads. rewrite Hl.
  cbn [bind].
  destruct (checksum_passes_spec server_exempt hi ty
              (skipn HEADER_SIZE pkt) Hty)
    as [(ok & -> & ->) | [(e & ->) ->]]; cbn [bind try_except].
  - now destruct (among ty server_exempt || checksum_ok hi _).
  - reflexivity.
Qed.

Lemma client_parse_packet_spec (loads : bytes -> option json) (pkt : bytes)
    (hi ty : json) (n : Z) :
  loads (strip (firstn HEADER_SIZE pkt)) = Some hi ->
  getitem hi "type" = Return ty ->
  client_parse_packet loads n pkt
  = if among ty client_exempt || checksum_ok hi (skipn HEADER_SIZE pkt)
    then (try_except (client_fields hi (skipn HEADER_SIZE pkt))
            (fun _ => Return None),
          n + Z.of_nat (length pkt))
    else (Return None, n).
Proof.
  intros Hl Hty. unfold client_parse_packet, json_loads. rewrite Hl.
  cbn [bind].
  destruct (checksum_passes_spec client_exempt hi ty
              (skipn HEADER_SIZE pkt) Hty)
    as [(ok & -> & ->) | [(e & ->) ->]]; cbn [bind].
  - now destruct (among ty client_exempt || checksum_ok hi _).
  - reflexivity.
Qed.

(** C4, as the code has it. On decode each side skips the checksum test
    for two types only: the accepting side for [ACK] and [CONNECT], the
    initiating side for [ACK] and [CONNECT_ACK]. For every other type --
    [DATA] and [LAST] on both sides, but also [CONNECT_ACK] on the
    accepting side and [CONNECT] on the initiating side -- the packet is
    rejected unless the header's checksum equals the MD5 digest of the
    payload. For an exempt type the result does not depend on the
    checksum. *)
Theorem checksum_exemptions (loads : bytes -> option json) (pkt : bytes)
    (hi ty : json) (n : Z) :
  loads (strip (firstn HEADER_SIZE pkt)) = Some hi ->
  getitem hi "type" = Return ty ->
  let data := skipn HEADER_SIZE pkt in
  (server_parse_packet loads pkt
   = if among ty server_exempt || checksum_ok hi data
     then try_except (server_fields hi data) (fun _ => Return None)
     else Return None)
  /\ (fst (client_parse_packet loads n pkt)
      = if among ty client_exempt || checksum_ok hi data
        then try_except (client_fields hi data) (fun _ => Return None)
        else Return None)
  /\ (forall s, among (JStr s) server_exempt = true
                <-> s = py "ACK" \/ s = py "CONNECT")
  /\ (forall s, among (JStr s) client_exempt = true
                <-> s = py "ACK" \/ s = py "CONNECT_ACK").
Proof.
  intros Hl Hty data. subst data.
  split; [now apply server_parse_packet_spec|].
  split; [|split; [exact server_exempt_types | exact client_exempt_types]].
  rewrite (client_parse_packet_spec loads pkt hi ty n Hl Hty).
  now destruct (among ty client_exempt || checksum_ok hi _).
Qed.

(** A [DATA] packet whose payload was altered on the way: both sides
    reject it. *)
Lemma checksum_exemptions_witness :
  let pkt := altered (_create_packet (lit "ls") (JInt 3) (py "DATA")
                        (JStr (py "s1"))) (lit "rm") in
  server_parse_packet header_loads pkt = Return None
  /\ fst (client_parse_packet header_loads 0 pkt) = Return None.
Proof.
  intros pkt.
  destruct (checksum_exemptions header_loads pkt
              (header_dict (lit "ls") (JInt 3) (py "DATA") (JStr (py "s1")))
              (JStr (py "DATA")) 0) as (S & C & _).
  - vm_compute; reflexivity.
  - reflexivity.
  - split; [rewrite S | rewrite C]; vm_compute; reflexivity.
Defined.

(** C4 fails as stated. A [CONNECT_ACK] packet whose payload was altered
    is rejected by the accepting side, and a [CONNECT] packet whose
    payload was altered is rejected by the initiating side: their
    checksums are tested. (Unaltered, both are accepted; and the altered
    [CONNECT] packet is accepted by the accepting side, the altered
    [CONNECT_ACK] packet by the initiating side, untested.) *)
Lemma control_packets_checked :
  let connect_ack :=
    _create_packet (lit "y") (JInt 0) (py "CONNECT_ACK") (JStr []) in
  let connect := _create_packet (lit "y") (JInt 0) (py "CONNECT") (JStr []) in
  let decoded ty payload :=
    Return (Some {| p_seq := JInt 0; p_type := JStr (py ty);
                    p_length := JInt 1; p_session := JStr [];
                    p_data := payload |}) in
  server_parse_packet header_loads (altered connect_ack (lit "x"))
  = Return None
  /\ fst (client_parse_packet header_loads 0 (altered connect (lit "x")))
     = Return None
  /\ server_parse_packet header_loads connect_ack
     = decoded "CONNECT_ACK"%string (lit "y")
  /\ fst (client_parse_packet header_loads 0 connect)
     = decoded "CONNECT"%string (lit "y")
  /\ server_parse_packet header_loads (altered connect (lit "x"))
     = decoded "CONNECT"%string (lit "x")
  /\ fst (client_parse_packet header_loads 0 (altered connect_ack (lit "x")))
     = decoded "CONNECT_ACK"%string (lit "x").
Proof. repeat split; vm_compute; reflexivity. Qed.

(** Neither decoder lets an exception out. *)
Lemma server_parse_packet_returns (loads : bytes -> option json)
    (pkt : bytes) :
  exists r, server_parse_packet loads pkt = Return r.
Proof.
  unfold server_parse_packet.
  match goal with |- context [try_except ?b ?h] => destruct b as [r|e] end;
    cbn [try_except]; eauto.
Qed.

Lemma client_parse_packet_returns (loads : bytes -> option json) (n : Z)
    (pkt : bytes) :
  exists r, fst (client_parse_packet loads n pkt) = Return r.
Proof.
  unfold client_parse_packet.
  match goal with
  | |- context [match ?b with Return _ => _ | Raise _ => _ end] =>
      destruct b as [[hi [|]]|e]
  end; cbn [fst]; eauto.
  destruct (client_fields hi _) as [r|e]; cbn [try_except]; eauto.
Qed.

Lemma getitem_contains (hi : json) (key : string) (v : json) :
  getitem hi key = Return v -> contains hi key = true.
Proof.
  unfold getitem, contains. destruct hi; try discriminate.
  now destruct (lookup m (py key)).
Qed.

Lemma server_fields_raise (hi : json) (data : bytes) :
  (exists e, getitem hi "seq" = Raise e)
  \/ (exists e, getitem hi "type" = Raise e)
  \/ (exists e, getitem hi "length" = Raise e)
  \/ (exists n e, getitem hi "length" = Return n
                  /\ slice_to data n = Raise e) ->
  try_except (server_fields hi data) (fun _ => Return None) = Return None.
Proof.
  unfold server_fields.
  intros [(e & E) | [(e & E) | [(e & E) | (n & e & E & S)]]]; rewrite ?E;
    cbn [bind try_except]; try reflexivity.
  - destruct (getitem hi "seq"); reflexivity.
  - destruct (getitem hi "seq"); cbn [bind try_except]; [|reflexivity].
    destruct (getitem hi "type"); reflexivity.
  - rewrite (getitem_contains _ _ _ E).
    destruct (getitem hi "seq"); cbn [bind try_except]; [|reflexivity].
    destruct (getitem hi "type"); cbn [bind try_except]; [|reflexivity].
    rewrite ?E. cbn [bind]. rewrite S. reflexivity.
Qed.

Lemma client_fields_raise (hi : json) (data : bytes) :
  (exists e, getitem hi "seq" = Raise e)
  \/ (exists e, getitem hi "type" = Raise e)
  \/ (exists n e, getitem hi "length" = Return n
                  /\ slice_to data n = Raise e) ->
  try_except (client_fields hi data) (fun _ => Return None) = Return None.
Proof.
  unfold client_fields.
  intros [(e & E) | [(e & E) | (n & e & E & S)]]; rewrite ?E;
    cbn [bind try_except]; try reflexivity.
  - destruct (getitem hi "seq"); reflexivity.
  - rewrite (getitem_contains _ _ _ E).
    destruct (getitem hi "seq"); cbn [bind try_except]; [|reflexivity].
    destruct (getitem hi "type"); cbn [bind try_except]; [|reflexivity].
    rewrite ?E. cbn [bind]. rewrite S. reflexivity.
Qed.

(** C6. Decoding is total. For every byte string both [_parse_packet]
    functions return, a packet or [None]; they never raise. [None] is what
    they return when the header cannot be read as JSON (malformed, or cut
    short), when the header is not a dictionary or lacks [type] or [seq]
    (or [length], on the accepting side), when [length] cannot be used as
    a slice bound, and when a checksum that is tested does not match.
    After [None] both receive loops go on to their next pass: nothing is
    sent and no queue or session changes. *)
Theorem decode_is_total (loads : bytes -> option json) (pkt : bytes) (n : Z) :
  let header := strip (firstn HEADER_SIZE pkt) in
  let data := skipn HEADER_SIZE pkt in
  (exists r, server_parse_packet loads pkt = Return r)
  /\ (exists r, fst (client_parse_packet loads n pkt) = Return r)
  /\ (loads header = None ->
      server_parse_packet loads pkt = Return None
      /\ client_parse_packet loads n pkt = (Return None, n))
  /\ (forall hi,
        loads header = Some hi ->
        (exists e, getitem hi "type" = Raise e)
        \/ (exists e, getitem hi "seq" = Raise e) ->
        server_parse_packet loads pkt = Return None
        /\ fst (client_parse_packet loads n pkt) = Return None)
  /\ (forall hi,
        loads header = Some hi ->
        (exists e, getitem hi "length" = Raise e) ->
        server_parse_packet loads pkt = Return None)
  /\ (forall hi bound,
        loads header = Some hi ->
        getitem hi "length" = Return bound ->
        (exists e, slice_to data bound = Raise e) ->
        server_parse_packet loads pkt = Return None
        /\ fst (client_parse_packet loads n pkt) = Return None)
  /\ (forall hi ty,
        loads header = Some hi ->
        getitem hi "type" = Return ty ->
        checksum_ok hi data = false ->
        (among ty server_exempt = false ->
         server_parse_packet loads pkt = Return None)
        /\ (among ty client_exempt = false ->
            client_parse_packet loads n pkt = (Return None, n)))
  /\ (forall st from env,
        server_parse_packet loads (recvfrom PACKET_SIZE pkt) = Return None ->
        server_loop_body loads st (Datagram pkt from) env = (st, []))
  /\ (forall st from ok,
        fst (client_parse_packet loads (data_received st)
               (recvfrom PACKET_SIZE pkt)) = Return None ->
        exists received,
          receiver_body loads st (Datagram pkt from) ok
          = (set_data_received st received, [])).
Proof.
  intros header data. subst header data.
  split; [apply server_parse_packet_returns|].
  split; [apply client_parse_packet_returns|].
  split.
  { intros Hl. unfold server_parse_packet, client_parse_packet, json_loads.
    now rewrite Hl. }
  split.
  { intros hi Hl Hmiss.
    destruct (getitem hi "type") as [ty|e] eqn:Hty.
    - destruct Hmiss as [(e & E) | Hseq]; [discriminate|].
      rewrite (server_parse_packet_spec loads pkt hi ty Hl Hty).
      rewrite (client_parse_packet_spec loads pkt hi ty n Hl Hty).
      split.
      + destruct (_ || _); [|reflexivity].
        apply server_fields_raise. now left.
      + destruct (_ || _); [|reflexivity].
        cbn [fst]. apply client_fields_raise. now left.
    - unfold server_parse_packet, client_parse_packet, json_loads,
        checksum_passes.
      rewrite Hl. cbn [bind]. rewrite Hty. cbn [bind try_except fst]. auto. }
  split.
  { intros hi Hl Hlen.
    destruct (getitem hi "type") as [ty|e] eqn:Hty.
    - rewrite (server_parse_packet_spec loads pkt hi ty Hl Hty).
      destruct (_ || _); [|reflexivity].
      apply server_fields_raise. now right; right; left.
    - unfold server_parse_packet, json_loads, checksum_passes.
      rewrite Hl. cbn [bind]. rewrite Hty. reflexivity. }
  split.
  { intros hi bound Hl Hlen (e & Hs).
    destruct (getitem hi "type") as [ty|e'] eqn:Hty.
    - rewrite (server_parse_packet_spec loads pkt hi ty Hl Hty).
      rewrite (client_parse_packet_spec loads pkt hi ty n Hl Hty).
      split.
      + destruct (_ || _); [|reflexivity].
        apply server_fields_raise. right; right; right. eauto.
      + destruct (_ || _); [|reflexivity].
        cbn [fst]. apply client_fields_raise. right; right. eauto.
    - unfold server_parse_packet, client_parse_packet, json_loads,
        checksum_passes.
      rewrite Hl. cbn [bind]. rewrite Hty. cbn [bind try_except fst]. auto. }
  split.
  { intros hi ty Hl Hty Hck. split; intros Hex.
    - rewrite (server_parse_packet_spec loads pkt hi ty Hl Hty).
      now rewrite Hex, Hck.
    - rewrite (client_parse_packet_spec loads pkt hi ty n Hl Hty).
      now rewrite Hex, Hck. }
  split.
  { intros st from env Hp. unfold server_loop_body. now rewrite Hp. }
  intros st from ok Hp. unfold receiver_body.
  destruct (client_parse_packet loads (data_received st)
              (recvfrom PACKET_SIZE pkt)) as [parsed received].
  cbn [fst] in Hp. subst parsed. eauto.
Qed.

(** ** The receive loops: acknowledgments *)

Lemma py_eq_hashable (a b : json) : py_eq a b = true -> hashable b = true.
Proof.
  destruct b as [| | | | |l|m]; try reflexivity;
    destruct a as [| | | | | |]; discriminate.
Qed.

Lemma dict_get_key (V : Type) (d : dict V) (k : json) (v : V) :
  dict_get d k = Some v -> py_eq k k = true /\ hashable k = true.
Proof.
  induction d as [|[k' v'] d IH]; simpl; [discriminate|].
  destruct (py_eq k' k) eqn:E; [intros _ | exact IH].
  split; [|exact (py_eq_hashable _ _ E)].
  apply (py_eq_trans k k' k); [now rewrite py_eq_sym | exact E].
Qed.

Lemma among_data_last (ty : json) :
  among ty ["DATA"; "LAST"]%string = true ->
  py_eq ty (JStr (py "CONNECT")) = false
  /\ py_eq ty (JStr (py "ACK")) = false
  /\ py_eq ty (JStr (py "CONNECT_ACK")) = false.
Proof.
  unfold among; cbn [existsb]. rewrite !orb_true_iff, !py_eq_str.
  intros [-> | [-> | E]]; [| |discriminate]; repeat split; reflexivity.
Qed.

Lemma client_parse_packet_any_count (loads : bytes -> option json)
    (n m : Z) (pkt : bytes) :
  fst (client_parse_packet loads n pkt) = fst (client_parse_packet loads m pkt).
Proof.
  unfold client_parse_packet.
  match goal with
  | |- context [match ?b with Return _ => _ | Raise _ => _ end] =>
      destruct b as [[hi [|]]|e]
  end; reflexivity.
Qed.

(** What the accepting side does with a [DATA] or [LAST] packet of a
    known session, up to the sweep that ends the pass. *)
Lemma handle_data_known (s : server) (pkt : packet) (from : address)
    (env : answers) (info : session) :
  dict_get (clients s) (p_session pkt) = Some info ->
  sendto_ok env = true ->
  exists s',
    handle_data s pkt from env
    = (Return tt, s', [Sent (ack_of pkt (p_session pkt) from)])
    /\ dict_get (clients s') (p_session pkt)
       = Some {| addr := addr info; last_active := clock_handle env;
                 buffer := buffer info ++ [p_data pkt] |}
    /\ sequence_numbers s' = sequence_numbers s
    /\ forall k, py_eq (p_session pkt) k = false ->
                 dict_get (clients s') k = dict_get (clients s) k.
Proof.
  intros Hget Hok.
  destruct (dict_get_key _ _ _ _ Hget) as [Hrefl Hhash].
  unfold handle_data, dict_mem, _send_ack, sendto, update_client.
  rewrite Hhash, Hget, Hok. cbn [negb set_clients clients].
  rewrite dict_get_set_same by exact Hrefl.
  eexists. split; [reflexivity|]. cbn [set_clients clients sequence_numbers].
  split; [now rewrite dict_get_set_same by exact Hrefl|].
  split; [reflexivity|].
  intros k Hk. now rewrite !dict_get_set_other by exact Hk.
Qed.

(** C8. A [DATA] or [LAST] packet that passes decoding is acknowledged
    and queued, whatever was received before: the accepting side, when the
    packet's session is known, refreshes the session's [last_active],
    sends an [ACK] with the packet's own sequence number to the sender and
    then appends the chunk to the session's buffer; the initiating side
    sends an [ACK] with the packet's sequence number to the server and then
    appends the chunk to [data_queue]. Receiving the same datagram once
    more does the same once more. (Each statement is for a pass whose
    [sendto] returns.) *)
Theorem data_is_acknowledged_then_queued (loads : bytes -> option json)
    (s : server) (c : client) (datagram : bytes) (from : address)
    (env : answers) (pkt : packet) (info : session) :
  (server_parse_packet loads (recvfrom PACKET_SIZE datagram)
   = Return (Some pkt) ->
   among (p_type pkt) ["DATA"; "LAST"]%string = true ->
   dict_get (clients s) (p_session pkt) = Some info ->
   sendto_ok env = true ->
   exists s',
     server_loop_body loads s (Datagram datagram from) env
     = (sweep (clock_sweep env) s',
        [Sent (ack_of pkt (p_session pkt) from)])
     /\ dict_get (clients s') (p_session pkt)
        = Some {| addr := addr info; last_active := clock_handle env;
                  buffer := buffer info ++ [p_data pkt] |}
     /\ sequence_numbers s' = sequence_numbers s
     /\ forall k, py_eq (p_session pkt) k = false ->
                  dict_get (clients s') k = dict_get (clients s) k)
  /\ (fst (client_parse_packet loads (data_received c)
             (recvfrom PACKET_SIZE datagram)) = Return (Some pkt) ->
      among (p_type pkt) ["DATA"; "LAST"]%string = true ->
      exists c' c'',
        receiver_body loads c (Datagram datagram from) true
        = (c', [Sent (ack_of pkt (session_id c) (server_addr c))])
        /\ data_queue c' = data_queue c ++ [p_data pkt]
        /\ ack_queue c' = ack_queue c
        /\ session_id c' = session_id c
        /\ sequence_number c' = sequence_number c
        /\ receiver_body loads c' (Datagram datagram from) true
           = (c'', [Sent (ack_of pkt (session_id c) (server_addr c))])
        /\ data_queue c'' = data_queue c ++ [p_data pkt; p_data pkt]).
Proof.
  split.
  - intros Hp Hty Hget Hok.
    destruct (among_data_last _ Hty) as (Hc & _ & _).
    destruct (handle_data_known s pkt from env info Hget Hok)
      as (s' & E & G & Q & O).
    exists s'. unfold server_loop_body, server_dispatch.
    rewrite Hp, Hc, Hty, E. auto.
  - intros Hp Hty.
    destruct (among_data_last _ Hty) as (_ & Ha & Hca).
    assert (Step : forall c0,
               fst (client_parse_packet loads (data_received c0)
                      (recvfrom PACKET_SIZE datagram)) = Return (Some pkt) ->
               exists c1,
                 receiver_body loads c0 (Datagram datagram from) true
                 = (c1, [Sent (ack_of pkt (session_id c0) (server_addr c0))])
                 /\ data_queue c1 = data_queue c0 ++ [p_data pkt]
                 /\ ack_queue c1 = ack_queue c0
                 /\ session_id c1 = session_id c0
                 /\ sequence_number c1 = sequence_number c0
                 /\ server_addr c1 = server_addr c0).
    { intros c0 H0. unfold receiver_body.
      destruct (client_parse_packet loads (data_received c0)
                  (recvfrom PACKET_SIZE datagram)) as [parsed received].
      cbn [fst] in H0. subst parsed. rewrite Ha, Hca, Hty.
      cbn [client_create_packet sendto]. eexists.
      split; [reflexivity|]. repeat split. }
    destruct (Step c Hp) as (c' & E1 & D1 & A1 & S1 & N1 & P1).
    destruct (Step c') as (c'' & E2 & D2 & _).
    { rewrite (client_parse_packet_any_count loads _ (data_received c)).
      exact Hp. }
    exists c', c''. rewrite S1, P1 in E2.
    repeat split; try assumption.
    rewrite D2, D1, <- app_assoc. reflexivity.
Qed.

Lemma data_is_acknowledged_then_queued_witness :
  snd (server_loop_body (header_loads)
         (server_with (py "s1") localhost 0)
         (Datagram sample_datagram localhost) sample_answers)
  = [Sent (ack_of sample_packet (JStr (py "s1")) localhost)]
  /\ snd (receiver_body (header_loads)
            (connected_client (py "s1") localhost)
            (Datagram sample_datagram localhost) true)
     = [Sent (ack_of sample_packet (JStr (py "s1")) localhost)].
Proof.
  destruct (data_is_acknowledged_then_queued (header_loads)
              (server_with (py "s1") localhost 0)
              (connected_client (py "s1") localhost)
              sample_datagram localhost sample_answers sample_packet
              {| addr := localhost; last_active := 0; buffer := [] |})
    as [S C].
  split.
  - destruct S as (s' & E & _).
    + vm_compute; reflexivity.
    + reflexivity.
    + reflexivity.
    + reflexivity.
    + now rewrite E.
  - destruct C as (c' & c'' & E & _).
    + vm_compute; reflexivity.
    + reflexivity.
    + now rewrite E.
Defined.

(** ** The idle sweep *)

Lemma idle_spec (now : Q) (info : session) :
  idle now info = true <-> (60 < now - last_active info)%Q.
Proof.
  unfold idle. rewrite negb_true_iff. split.
  - intros H. apply Qnot_le_lt. intros L.
    apply Qle_bool_iff in L. congruence.
  - intros H. destruct (Qle_bool (now - last_active info) 60) eqn:E;
      [|reflexivity].
    apply Qle_bool_iff in E. exfalso. exact (Qlt_not_le _ _ H E).
Qed.

Lemma dict_get_congr (V : Type) (d : dict V) (k1 k2 : json) :
  py_eq k1 k2 = true -> dict_get d k1 = dict_get d k2.
Proof.
  intros E. induction d as [|[k v] d IH]; simpl; [reflexivity|].
  rewrite IH. destruct (py_eq k k1) eqn:A, (py_eq k k2) eqn:B;
    try reflexivity.
  - now rewrite (py_eq_trans _ _ _ A E) in B.
  - rewrite py_eq_sym in E. now rewrite (py_eq_trans _ _ _ B E) in A.
Qed.

Lemma dict_get_filter_none (V : Type) (f : json * V -> bool) (d : dict V)
    (k : json) :
  dict_get d k = None -> dict_get (filter f d) k = None.
Proof.
  induction d as [|[k' v] d IH]; simpl; [reflexivity|].
  destruct (py_eq k' k) eqn:E; [discriminate|]. intros H.
  destruct (f (k', v)); simpl; [rewrite E|]; auto.
Qed.

Lemma dict_get_filter_drop (V : Type) (f : json * V -> bool) (d : dict V)
    (k : json) (v : V) :
  unique_keys d ->
  dict_get d k = Some v ->
  (forall k', f (k', v) = false) ->
  dict_get (filter f d) k = None.
Proof.
  intros U G F. induction d as [|[k' v'] d IH]; simpl in *; [discriminate|].
  destruct U as [N U].
  destruct (py_eq k' k) eqn:E.
  - injection G as ->. rewrite F.
    apply dict_get_filter_none. now rewrite <- (dict_get_congr _ d _ _ E).
  - destruct (f (k', v')); simpl; [rewrite E|]; auto.
Qed.

Lemma dict_get_filter_keep (V : Type) (f : json * V -> bool) (d : dict V)
    (k : json) (v : V) :
  dict_get d k = Some v ->
  (forall k', f (k', v) = true) ->
  dict_get (filter f d) k = Some v.
Proof.
  intros G F. induction d as [|[k' v'] d IH]; simpl in *; [discriminate|].
  destruct (py_eq k' k) eqn:E.
  - injection G as ->. rewrite F. simpl. now rewrite E.
  - destruct (f (k', v')); simpl; [rewrite E|]; auto.
Qed.

(** C9. The sweep deletes every session whose last activity is more than
    60 time units before the sweep's clock reading, and keeps the others;
    it ends every pass of the server loop that handled a timeout. Once a
    session is deleted, a [DATA] or [LAST] packet that names it is
    dropped: the pass sends nothing and changes nothing (it only sweeps
    again). *)
Theorem idle_sessions_are_swept (loads : bytes -> option json) (s : server)
    (now : Q) (sid : json) (info : session) :
  unique_keys (clients s) ->
  dict_get (clients s) sid = Some info ->
  (60 < now - last_active info)%Q ->
  dict_get (clients (sweep now s)) sid = None
  /\ (forall datagram from env pkt,
        server_parse_packet loads (recvfrom PACKET_SIZE datagram)
        = Return (Some pkt) ->
        among (p_type pkt) ["DATA"; "LAST"]%string = true ->
        py_eq (p_session pkt) sid = true ->
        server_loop_body loads (sweep now s) (Datagram datagram from) env
        = (sweep (clock_sweep env) (sweep now s), []))
  /\ (forall k other,
        dict_get (clients s) k = Some other ->
        ~ (60 < now - last_active other)%Q ->
        dict_get (clients (sweep now s)) k = Some other)
  /\ (forall env,
        server_loop_body loads s SocketTimeout env
        = (sweep (clock_sweep env) s, [])).
Proof.
  intros U G Hidle.
  assert (Gone : dict_get (clients (sweep now s)) sid = None).
  { unfold sweep. cbn [set_clients clients].
    apply (dict_get_filter_drop _ _ _ _ info U G).
    intros k'. cbn [snd]. now rewrite (proj2 (idle_spec now info) Hidle). }
  split; [exact Gone|]. split; [|split; [|reflexivity]].
  - intros datagram from env pkt Hp Hty Hsid.
    destruct (among_data_last _ Hty) as (Hc & _ & _).
    destruct (dict_get_key _ _ _ _ G) as [_ Hhash].
    rewrite <- (dict_get_congr _ (clients (sweep now s)) _ _ Hsid) in Gone.
    assert (Hhash' : hashable (p_session pkt) = true).
    { rewrite py_eq_sym in Hsid. exact (py_eq_hashable _ _ Hsid). }
    unfold server_loop_body, server_dispatch. rewrite Hp, Hc, Hty.
    unfold handle_data, dict_mem. now rewrite Hhash', Gone.
  - intros k other Gk Hfresh. unfold sweep. cbn [set_clients clients].
    apply dict_get_filter_keep; [exact Gk|].
    intros k'. cbn [snd].
    destruct (idle now other) eqn:I; [|reflexivity].
    apply idle_spec in I. contradiction.
Qed.

(** A session silent since time 0, swept at time 100; then a [LAST]
    packet for it arrives. *)
Lemma idle_sessions_are_swept_witness :
  dict_get (clients (sweep 100 (server_with (py "s1") localhost 0)))
    (JStr (py "s1")) = None
  /\ server_loop_body header_loads
       (sweep 100 (server_with (py "s1") localhost 0))
       (Datagram sample_datagram localhost) sample_answers
     = (sweep 10 (sweep 100 (server_with (py "s1") localhost 0)), []).
Proof.
  destruct (idle_sessions_are_swept header_loads
              (server_with (py "s1") localhost 0) 100 (JStr (py "s1"))
              {| addr := localhost; last_active := 0; buffer := [] |})
    as (A & B & _).
  - split; [reflexivity | exact I].
  - reflexivity.
  - reflexivity.
  - split; [exact A|].
    apply (B sample_datagram localhost sample_answers sample_packet).
    + vm_compute; reflexivity.
    + reflexivity.
    + reflexivity.
Defined.

(** The loop keeps the keys of [self.clients] distinct. *)
Lemma dict_set_unique (V : Type) (d : dict V) (k : json) (v : V) :
  unique_keys d -> unique_keys (dict_set d k v).
Proof.
  induction d as [|[k' v'] d IH]; simpl; [auto|].
  intros [N U]. destruct (py_eq k' k) eqn:E; simpl; [auto|].
  split; [|auto].
  rewrite dict_get_set_other; [exact N | now rewrite py_eq_sym].
Qed.

Lemma filter_unique (V : Type) (f : json * V -> bool) (d : dict V) :
  unique_keys d -> unique_keys (filter f d).
Proof.
  induction d as [|[k v] d IH]; simpl; [auto|].
  intros [N U]. destruct (f (k, v)); simpl; [|auto].
  split; [now apply dict_get_filter_none | auto].
Qed.

Lemma update_client_unique (s : server) (k : json) (f : session -> session) :
  unique_keys (clients s) -> unique_keys (clients (update_client s k f)).
Proof.
  intros U. unfold update_client.
  destruct (dict_get (clients s) k); [|exact U].
  now apply dict_set_unique.
Qed.

Lemma server_dispatch_unique_keys (s : server) (pkt : packet)
    (from : address) (env : answers) :
  unique_keys (clients s) ->
  unique_keys (clients (snd (fst (server_dispatch s pkt from env)))).
Proof.
  intros U. unfold server_dispatch.
  destruct (py_eq (p_type pkt) _).
  - unfold handle_connect.
    destruct (negb (hashable _)); [exact U|].
    destruct (negb (dict_mem _ _)).
    + match goal with
      | |- context [match ?m with Return _ => _ | Raise _ => _ end] =>
          destruct m as [sid|e]
      end; [|exact U].
      destruct (encode_session sid); cbn [fst snd];
        [|now apply dict_set_unique].
      unfold sendto. destruct (sendto_ok env); cbn [fst snd];
        now apply dict_set_unique.
    + destruct (encode_session _); [|exact U].
      unfold sendto. now destruct (sendto_ok env).
  - destruct (among _ _); [|exact U].
    unfold handle_data.
    destruct (negb (hashable _)); [exact U|].
    destruct (dict_mem _ _); [|exact U].
    unfold _send_ack, sendto. destruct (sendto_ok env); cbn [fst snd];
      repeat apply update_client_unique; exact U.
Qed.

(** X5. A pass of the server loop keeps the keys of [self.clients]
    pairwise different (under [==]), whatever arrives. *)
Theorem server_loop_keeps_keys_distinct (loads : bytes -> option json)
    (s : server) (a : arrival) (env : answers) :
  unique_keys (clients s) ->
  unique_keys (clients (fst (server_loop_body loads s a env))).
Proof.
  intros U. unfold server_loop_body.
  destruct a as [|datagram from]; cbn [fst].
  { now apply filter_unique. }
  destruct (server_parse_packet loads _) as [[pkt|]|e]; cbn [fst];
    [|exact U|now apply filter_unique].
  pose proof (server_dispatch_unique_keys s pkt from env U) as H.
  destruct (server_dispatch s pkt from env) as [[r s'] tr].
  cbn [fst snd] in *. now apply filter_unique.
Qed.

Lemma server_loop_keeps_keys_distinct_witness :
  unique_keys
    (clients (fst (server_loop_body (header_loads)
                     (server_with (py "s1") localhost 0)
                     (Datagram sample_datagram localhost) sample_answers))).
Proof.
  apply server_loop_keeps_keys_distinct. split; [reflexivity | exact I].
Defined.

(** ** Sequence numbers *)

Lemma retry_loop_numbers (left : nat) (st : client) (chunk : bytes)
    (seq_num : Z) (packet_type : pystr) (env : list attempt)
    (r : outcome bool) (st' : client) (tr : list event)
    (env' : list attempt) :
  retry_loop left st chunk seq_num packet_type env = (r, st', tr, env') ->
  sequence_number st' = sequence_number st
  /\ Forall (fun p => tx_seq p = JInt seq_num) (sent tr).
Proof.
  revert st env r st' tr env'.
  induction left as [|left IH]; intros st env r st' tr env' E.
  - simpl in E. injection E as <- <- <- <-. simpl. auto.
  - cbn [retry_loop client_create_packet] in E.
    set (st1 := set_data_sent st _) in E.
    destruct (next_attempt env) as [a env1].
    destruct (send_raises a).
    { injection E as <- <- <- <-. simpl. auto. }
    destruct (ack_queue st1 ++ arrivals a) as [|ack q].
    + destruct (retry_loop left (set_ack_queue st1 []) chunk seq_num
                  packet_type env1) as [[[r2 st2] tr2] env2] eqn:E2.
      injection E as <- <- <- <-.
      destruct (IH _ _ _ _ _ _ E2) as [N F].
      split; [exact N|]. cbn [sent]. constructor; [reflexivity | exact F].
    + destruct (py_eq ack (JInt seq_num)).
      * injection E as <- <- <- <-. split; [reflexivity|].
        cbn [sent]. repeat constructor.
      * destruct (retry_loop left (set_ack_queue st1 q) chunk seq_num
                    packet_type env1) as [[[r2 st2] tr2] env2] eqn:E2.
        injection E as <- <- <- <-.
        destruct (IH _ _ _ _ _ _ E2) as [N F].
        split; [exact N|]. cbn [sent]. constructor; [reflexivity | exact F].
Qed.

Lemma numbered_weaken (lo hi lo' hi' : Z) (p : tx) :
  lo' <= lo -> hi <= hi' -> numbered lo hi p -> numbered lo' hi' p.
Proof. intros L H (n & E & B). exists n. split; [exact E | lia]. Qed.

Lemma numbers_from_cons (first : Z) (count : nat) :
  numbers_from first (S count)
  = JInt first :: numbers_from (first + 1) count.
Proof.
  unfold numbers_from. cbn [seq map]. rewrite Z.add_0_r. f_equal.
  rewrite <- seq_shift, map_map. apply map_ext.
  intros j. f_equal. lia.
Qed.

Lemma send_chunks_numbers (chunks : list bytes) (i total : nat) (st : client)
    (env : list attempt) (r : outcome bool) (st' : client) (tr : list event)
    (env' : list attempt) :
  send_chunks chunks i total st env = (r, st', tr, env') ->
  sequence_number st <= sequence_number st'
  /\ Forall (numbered (sequence_number st) (sequence_number st')) (sent tr)
  /\ (r = Return true ->
      sequence_number st' = sequence_number st + Z.of_nat (length chunks)
      /\ map tx_seq (acknowledged tr)
         = numbers_from (sequence_number st) (length chunks)).
Proof.
  revert i st env r st' tr env'.
  induction chunks as [|c chunks IH]; intros i st env r st' tr env' E.
  - simpl in E. injection E as <- <- <- <-. simpl.
    repeat split; try constructor; lia.
  - cbn [send_chunks] in E.
    destruct (retry_loop MAX_RETRIES _ c _ _ env)
      as [[[r1 st1] tr1] env1] eqn:E1.
    destruct (retry_loop_numbers _ _ _ _ _ _ _ _ _ _ E1) as [N1 F1].
    cbn [set_sequence_number sequence_number] in N1.
    assert (F1' : forall hi, sequence_number st < hi ->
                  Forall (numbered (sequence_number st) hi) (sent tr1)).
    { intros hi Hhi. revert F1. apply Forall_impl. intros p Hp.
      exists (sequence_number st). split; [exact Hp | lia]. }
    destruct r1 as [[|]|e].
    + destruct (send_chunks chunks (S i) total st1 env1)
        as [[[r2 st2] tr2] env2] eqn:E2.
      injection E as <- <- <- <-.
      destruct (IH _ _ _ _ _ _ _ E2) as (L2 & F2 & S2).
      rewrite N1 in L2, F2, S2.
      split; [lia|]. split.
      * rewrite sent_app. apply Forall_app. split; [apply F1'; lia|].
        revert F2. apply Forall_impl. intros p. apply numbered_weaken; lia.
      * intros Hr. destruct (S2 Hr) as [S2a S2b].
        split; [rewrite S2a; cbn [length]; lia|].
        destruct (send_chunks_trace _ _ _ _ _ _ _ _ _ E2) as [W2 _].
        destruct (retry_loop_trace _ _ _ _ _ _ _ _ _ _ E1 tr2
                    (or_introl eq_refl) W2) as (_ & _ & H3).
        rewrite H3. cbn [length app map]. rewrite numbers_from_cons, S2b.
        reflexivity.
    + injection E as <- <- <- <-. rewrite N1.
      split; [lia|]. split; [apply F1'; lia | discriminate].
    + injection E as <- <- <- <-. rewrite N1.
      split; [lia|]. split; [apply F1'; lia | discriminate].
Qed.

(** X1. On the initiating side sequence numbers are never reused. Every
    datagram that a [send_reliable] call sends carries a number between
    the counter before the call (included) and the counter after it
    (excluded), and the counter never goes down, so every datagram of a
    later call has a larger number than every datagram of an earlier one;
    within a successful call the acknowledged datagrams are numbered
    consecutively from the counter on, one number per chunk. *)
Theorem send_reliable_numbers_increase (st : client) (d1 d2 : pydata)
    (env1 env2 : list attempt) :
  let first := send_reliable st d1 env1 in
  let second := send_reliable (state_of first) d2 env2 in
  (forall p q,
     In p (sent (trace_of first)) -> In q (sent (trace_of second)) ->
     exists n m, tx_seq p = JInt n /\ tx_seq q = JInt m /\ n < m)
  /\ (forall payload,
        as_bytes d1 = Return payload ->
        returned first = Return true ->
        map tx_seq (acknowledged (trace_of first))
        = numbers_from (sequence_number st) (length (split payload))).
Proof.
  intros first second.
  assert (Bounds : forall c d env,
            sequence_number c
            <= sequence_number (state_of (send_reliable c d env))
            /\ Forall (numbered (sequence_number c)
                         (sequence_number
                            (state_of (send_reliable c d env))))
                      (sent (trace_of (send_reliable c d env)))).
  { intros c d env. unfold send_reliable.
    destruct (connected c); cbn [negb];
      [|split; [apply Z.le_refl | constructor]].
    destruct (as_bytes d) as [payload|e];
      [|split; [apply Z.le_refl | constructor]].
    destruct (send_chunks (split payload) 0 (length (split payload)) c env)
      as [[[r c'] tr] env'] eqn:E.
    destruct (send_chunks_numbers _ _ _ _ _ _ _ _ _ E) as (L & F & _).
    split; [exact L | exact F]. }
  split.
  - intros p q Hp Hq.
    destruct (Bounds st d1 env1) as [_ F1].
    destruct (Bounds (state_of first) d2 env2) as [_ F2].
    fold first in F1. fold second in F2.
    rewrite Forall_forall in F1, F2.
    destruct (F1 p Hp) as (n & En & Bn). destruct (F2 q Hq) as (m & Em & Bm).
    exists n, m. repeat split; try assumption. lia.
  - intros payload Hd Hr. subst first. unfold send_reliable in *.
    destruct (connected st); cbn [negb] in *; [|discriminate].
    rewrite Hd in *.
    destruct (send_chunks (split payload) 0 (length (split payload)) st env1)
      as [[[r c'] tr] env'] eqn:E.
    destruct (send_chunks_numbers _ _ _ _ _ _ _ _ _ E) as (_ & _ & S).
    exact (proj2 (S Hr)).
Qed.

(** X2. On the accepting side a [send_data] call that returns [True]
    numbers the chunks consecutively from the session's counter (0 for a
    session without one) and leaves the counter one above the number of
    chunks further: the next payload starts after a gap of one. The
    datagrams are tagged [DATA], except the last one, tagged [LAST]. *)
Theorem send_data_numbers (s : server) (data : pydata) (payload : bytes)
    (to : address) (sid : pystr) (sends : list bool) :
  as_bytes data = Return payload ->
  returned (send_data s data to sid sends) = Return true ->
  map tx_seq (sent (trace_of (send_data s data to sid sends)))
  = numbers_from (counter s (JStr sid)) (length (split payload))
  /\ counter (state_of (send_data s data to sid sends)) (JStr sid)
     = counter s (JStr sid) + 1 + Z.of_nat (length (split payload))
  /\ map tx_type (sent (trace_of (send_data s data to sid sends)))
     = map (fun j => if (S j =? length (split payload))%nat
                     then py "LAST" else py "DATA")
         (seq 0 (length (split payload))).
Proof.
  intros Hd. unfold send_data. rewrite Hd.
  pose proof (py_eq_str_refl sid) as R.
  set (s0 := if negb (dict_mem (sequence_numbers s) (JStr sid))
             then set_counter s (JStr sid) 0 else s).
  assert (C0 : counter s0 (JStr sid) = counter s (JStr sid)).
  { subst s0. unfold dict_mem, counter.
    destruct (dict_get (sequence_numbers s) (JStr sid)) eqn:G; cbn [negb].
    - now rewrite G.
    - fold (counter (set_counter s (JStr sid) 0) (JStr sid)).
      now rewrite counter_set. }
  destruct (send_all (split payload) 0 (length (split payload))
              (counter s0 (JStr sid)) to (JStr sid) sends)
    as [[ok tr] env'] eqn:E.
  destruct (send_all_trace _ _ _ _ _ _ _ _ _ _ E) as [_ H].
  destruct ok; [|discriminate]. intros _.
  destruct (H eq_refl) as (_ & Q & T).
  cbn [trace_of state_of fst snd]. split; [|split].
  - rewrite Q, C0. reflexivity.
  - rewrite !counter_set by exact R. rewrite C0. lia.
  - rewrite T. apply map_ext. intros j. unfold chunk_type.
    destruct (Nat.eqb_spec (S j) (length (split payload))) as [E1 | E1];
      destruct (Z.eqb_spec (Z.of_nat j)
                  (Z.of_nat (length (split payload)) - 1)) as [E2 | E2];
      try reflexivity; lia.
Qed.

Lemma send_data_numbers_witness :
  map tx_seq
    (sent (trace_of (send_data fresh_server (PBytes two_chunks) localhost
                       (py "s1") [])))
  = [JInt 0; JInt 1]
  /\ counter (state_of (send_data fresh_server (PBytes two_chunks) localhost
                          (py "s1") [])) (JStr (py "s1")) = 3.
Proof.
  destruct (send_data_numbers fresh_server (PBytes two_chunks) two_chunks
              localhost (py "s1") [] eq_refl) as (A & B & _).
  - vm_compute; reflexivity.
  - split; [rewrite A | rewrite B]; vm_compute; reflexivity.
Defined.

(** C7 fails on the accepting side. [send_data] reads the session's
    counter, numbers the chunks from it, and moves the counter past them
    only after the last chunk; the [return False] of a chunk whose five
    [sendto] attempts all raise leaves the counter one above its old
    value. Here a three-chunk payload gets its first two chunks out with
    the numbers 0 and 1 and fails on the third; the next payload of the
    session is sent with the number 1 again. *)
Theorem send_data_reuses_a_sequence_number :
  let first :=
    send_data fresh_server (PBytes three_chunks) localhost (py "s1")
      [true; true; false; false; false; false; false] in
  let second :=
    send_data (state_of first) (PStr (py "$ ")) localhost (py "s1") [] in
  returned first = Return false
  /\ map tx_seq (sent (trace_of first)) = [JInt 0; JInt 1]
  /\ counter (state_of first) (JStr (py "s1")) = 1
  /\ returned second = Return true
  /\ map tx_seq (sent (trace_of second)) = [JInt 1]
  /\ map tx_type (sent (trace_of first ++ trace_of second))
     = [py "DATA"; py "DATA"; py "LAST"].
Proof. repeat split; vm_compute; reflexivity. Qed.

(** ** Packets of the protocol fit the capacity *)

Lemma length_dec_digits (fuel : nat) (n : N) (k : nat) :
  (0 < k)%nat -> (n < 10 ^ N.of_nat k)%N ->
  (length (dec_digits fuel n) <= k)%nat.
Proof.
  revert n k. induction fuel as [|fuel IH]; intros n k Hk Hn; simpl; [lia|].
  destruct (N.ltb_spec n 10) as [Hlt | Hge]; simpl; [lia|].
  destruct k as [|[|k]]; [lia | simpl in Hn; lia |].
  rewrite length_app. simpl.
  assert (length (dec_digits fuel (n / 10)) <= S k)%nat; [|lia].
  apply IH; [lia|].
  apply N.Div0.div_lt_upper_bound.
  replace (N.of_nat (S (S k))) with (N.succ (N.of_nat (S k))) in Hn by lia.
  now rewrite N.pow_succ_r' in Hn.
Qed.

Lemma length_dec (z : Z) (k : nat) :
  (0 < k)%nat -> 0 <= z < 10 ^ Z.of_nat k -> (length (dec z) <= k)%nat.
Proof.
  intros Hk [H0 Hz]. unfold dec.
  destruct (Z.ltb_spec z 0) as [Hneg | _]; [lia|]. simpl.
  apply length_dec_digits; [exact Hk|].
  rewrite Z.abs_eq by exact H0.
  apply N2Z.inj_lt. rewrite Z2N.id by exact H0.
  rewrite N2Z.inj_pow. simpl. now rewrite nat_N_Z.
Qed.

Lemma hex_pair_plain (b : byte) :
  length (flat_map escape_char (MD5.hex_of_byte b)) = 2%nat.
Proof. destruct b; reflexivity. Qed.

Lemma length_md5_digest (msg : bytes) : length (MD5.digest msg) = 16%nat.
Proof.
  unfold MD5.digest.
  destruct (fold_left MD5.block_step _ MD5.init) as [[[a b] c] d].
  unfold MD5.le_bytes. now rewrite !length_app, !length_map, !length_seq.
Qed.

Lemma length_quote_md5 (msg : bytes) : length (quote (md5 msg)) = 34%nat.
Proof.
  unfold quote, md5, MD5.hexdigest.
  rewrite !length_app. cbn [length].
  assert (H : forall l, length (flat_map escape_char
                                  (flat_map MD5.hex_of_byte l))
                        = (2 * length l)%nat).
  { induction l as [|b l IH]; [reflexivity|].
    cbn [flat_map]. rewrite flat_map_app, length_app, hex_pair_plain, IH.
    cbn [length]. lia. }
  rewrite H, length_md5_digest. reflexivity.
Qed.

Lemma json_dumps_header (data : bytes) (seq_num : json) (packet_type : pystr)
    (session_id : json) :
  json_dumps (header_dict data seq_num packet_type session_id)
  = lit "{" ++ quote (py "seq") ++ lit ": " ++ json_dumps seq_num
      ++ lit ", " ++ quote (py "checksum") ++ lit ": " ++ quote (md5 data)
      ++ lit ", " ++ quote (py "type") ++ lit ": " ++ quote packet_type
      ++ lit ", " ++ quote (py "length") ++ lit ": "
      ++ dec (Z.of_nat (length data))
      ++ lit ", " ++ quote (py "session") ++ lit ": " ++ json_dumps session_id
      ++ lit "}".
Proof.
  unfold header_dict. cbn [json_dumps]. rewrite <- !app_assoc. reflexivity.
Qed.

Lemma length_header (data : bytes) (seq_num : json) (packet_type : pystr)
    (session_id : json) :
  length (json_dumps (header_dict data seq_num packet_type session_id))
  = (92 + length (json_dumps seq_num) + length (quote packet_type)
     + length (dec (Z.of_nat (length data)))
     + length (json_dumps session_id))%nat.
Proof.
  rewrite json_dumps_header, !length_app, length_quote_md5.
  change (length (lit "{")) with 1%nat.
  change (length (lit "}")) with 1%nat.
  change (length (lit ": ")) with 2%nat.
  change (length (lit ", ")) with 2%nat.
  change (length (quote (py "seq"))) with 5%nat.
  change (length (quote (py "checksum"))) with 10%nat.
  change (length (quote (py "type"))) with 6%nat.
  change (length (quote (py "length"))) with 8%nat.
  change (length (quote (py "session"))) with 9%nat.
  lia.
Qed.

(** X4. The packets that the two programs build fit the capacity: for a
    payload of at most 1200 bytes (every chunk, [b"ACK"], [b"CONNECT"], a
    session id), a sequence number below [10^50], one of the five packet
    types and a session id that is empty or an MD5 hex digest, the header
    region is exactly 200 bytes and the packet has at most 1400. *)
Theorem protocol_packets_fit (data : bytes) (n : Z) (packet_type : pystr)
    (sid : pystr) :
  (length data <= DATA_SIZE)%nat ->
  0 <= n < 10 ^ 50 ->
  In packet_type packet_types ->
  sid = [] \/ (exists msg, sid = md5 msg) ->
  let pkt := _create_packet data (JInt n) packet_type (JStr sid) in
  (length pkt <= PACKET_SIZE)%nat
  /\ length pkt = (HEADER_SIZE + length data)%nat
  /\ skipn HEADER_SIZE pkt = data.
Proof.
  intros Hd Hn Hty Hsid pkt. subst pkt. unfold _create_packet.
  set (header := json_dumps _).
  assert (Hh : (length header <= HEADER_SIZE)%nat).
  { subst header. rewrite length_header. cbn [json_dumps].
    pose proof (length_dec n 50 ltac:(lia) Hn) as L1.
    assert (L2 : (length (dec (Z.of_nat (length data))) <= 4)%nat).
    { apply length_dec; [lia|].
      unfold DATA_SIZE, PACKET_SIZE, HEADER_SIZE in Hd.
      change (10 ^ Z.of_nat 4) with 10000. lia. }
    assert (L3 : (length (quote packet_type) <= 13)%nat).
    { unfold packet_types in Hty. simpl in Hty.
      destruct Hty as [<- | [<- | [<- | [<- | [<- | []]]]]];
        vm_compute; lia. }
    assert (L4 : (length (quote sid) <= 34)%nat).
    { destruct Hsid as [-> | [msg ->]];
        [vm_compute; lia | rewrite length_quote_md5; lia]. }
    unfold HEADER_SIZE. lia. }
  assert (L : length (ljust HEADER_SIZE header) = HEADER_SIZE)
    by (rewrite length_ljust; lia).
  rewrite length_app, L. split; [|split; [reflexivity|]].
  - unfold DATA_SIZE, PACKET_SIZE, HEADER_SIZE in *. lia.
  - now apply skipn_app_exact.
Qed.

Lemma protocol_packets_fit_witness :
  (length (_create_packet (lit "pwd") (JInt 3) (py "LAST")
             (JStr (md5 (lit "peer")))) <= PACKET_SIZE)%nat.
Proof.
  apply (protocol_packets_fit (lit "pwd") 3 (py "LAST") (md5 (lit "peer"))).
  - unfold DATA_SIZE, PACKET_SIZE, HEADER_SIZE. simpl. lia.
  - lia.
  - unfold packet_types. simpl. auto.
  - right. now exists (lit "peer").
Defined.

(** ** Round trip through the codec *)

Lemma lstrip_spaces (k : nat) (b : bytes) :
  lstrip (repeat " "%byte k ++ b) = lstrip b.
Proof. induction k as [|k IH]; [reflexivity | exact IH]. Qed.

Lemma rev_repeat (A : Type) (x : A) (k : nat) :
  rev (repeat x k) = repeat x k.
Proof.
  induction k as [|k IH]; [reflexivity|].
  simpl. rewrite IH. clear IH.
  induction k as [|k IH]; [reflexivity|]. simpl. now rewrite IH.
Qed.

(** Padding on the right is stripped again, when the text begins and
    ends with something else than white space. *)
Lemma strip_ljust (width : nat) (c d : byte) (body : bytes) :
  is_space c = false -> is_space d = false ->
  strip (ljust width (c :: body ++ [d])) = c :: body ++ [d].
Proof.
  intros Hc Hd. unfold strip, ljust.
  cbn [app lstrip]. rewrite Hc.
  change (c :: (body ++ [d]) ++ repeat " "%byte (width - length (c :: body ++ [d])))
    with ((c :: body ++ [d]) ++ repeat " "%byte (width - length (c :: body ++ [d]))).
  rewrite rev_app_distr, rev_repeat, lstrip_spaces.
  change (c :: body ++ [d]) with ((c :: body) ++ [d]).
  rewrite rev_app_distr. cbn [rev app lstrip]. rewrite Hd.
  change (d :: rev body ++ [c]) with ([d] ++ rev (c :: body)).
  now rewrite rev_app_distr, rev_involutive.
Qed.

Lemma json_dumps_header_ends (data : bytes) (seq_num : json)
    (packet_type : pystr) (session_id : json) :
  exists body,
    json_dumps (header_dict data seq_num packet_type session_id)
    = x7b :: body ++ [x7d].
Proof.
  rewrite json_dumps_header. eexists.
  change (lit "{") with [x7b]. change (lit "}") with [x7d].
  cbn [app]. f_equal. rewrite !app_assoc. reflexivity.
Qed.

Lemma slice_to_length (data : bytes) :
  slice_to data (JInt (Z.of_nat (length data))) = Return data.
Proof.
  unfold slice_to.
  destruct (Z.ltb_spec (Z.of_nat (length data)) 0) as [H | _]; [lia|].
  now rewrite Nat2Z.id, firstn_all.
Qed.

Lemma header_dict_fields (data : bytes) (seq_num : json) (packet_type : pystr)
    (session_id : json) :
  let h := header_dict data seq_num packet_type session_id in
  getitem h "seq" = Return seq_num
  /\ getitem h "checksum" = Return (JStr (md5 data))
  /\ getitem h "type" = Return (JStr packet_type)
  /\ getitem h "length" = Return (JInt (Z.of_nat (length data)))
  /\ get_default h "session" (JStr []) = session_id
  /\ contains h "length" = true.
Proof. repeat split. Qed.

Lemma header_dict_checksum_ok (data : bytes) (seq_num : json)
    (packet_type : pystr) (session_id : json) (payload : bytes) :
  checksum_ok (header_dict data seq_num packet_type session_id) payload
  = pystr_eqb (md5 data) (md5 payload).
Proof. reflexivity. Qed.

(** The two halves of a packet, as the receiver cuts it. *)
Lemma packet_halves (loads : bytes -> option json) (p : tx)
    (payload : bytes) :
  readable loads p ->
  loads (strip (firstn HEADER_SIZE (altered (wire p) payload)))
  = Some (header_of p)
  /\ skipn HEADER_SIZE (altered (wire p) payload) = payload
  /\ altered (wire p) (tx_data p) = wire p.
Proof.
  intros [Hl Hfit]. unfold altered, wire, _create_packet.
  fold (header_of p).
  assert (L : length (ljust HEADER_SIZE (json_dumps (header_of p)))
              = HEADER_SIZE) by (rewrite length_ljust; lia).
  rewrite (firstn_app_exact _ _ _ _ L).
  split; [|split].
  - rewrite (firstn_app_exact _ _ _ _ L).
    destruct (json_dumps_header_ends (tx_data p) (tx_seq p) (tx_type p)
                (tx_session p)) as [body E].
    unfold header_of in *. rewrite E in *.
    now rewrite strip_ljust.
  - now apply skipn_app_exact.
  - reflexivity.
Qed.

(** Encode, then decode. When the JSON library reads the header back
    as it was written and the header fits in its 200 bytes, both
    [_parse_packet] functions return, for the packet that [_create_packet]
    built, exactly the sequence number, type, length, session id and
    payload that went in -- whatever the payload; and the client counts
    the whole packet as received. *)
Lemma codec_round_trip_both (loads : bytes -> option json) (data : bytes)
    (seq_num : json) (packet_type : pystr) (session_id : json) (n : Z) :
  let h := header_dict data seq_num packet_type session_id in
  let pkt := _create_packet data seq_num packet_type session_id in
  loads (json_dumps h) = Some h ->
  (length (json_dumps h) <= HEADER_SIZE)%nat ->
  server_parse_packet loads pkt
  = Return (Some (packet_of data seq_num packet_type session_id))
  /\ client_parse_packet loads n pkt
     = (Return (Some (packet_of data seq_num packet_type session_id)),
        n + Z.of_nat (length pkt)).
Proof.
  intros h pkt Hl Hfit.
  set (p := {| tx_data := data; tx_seq := seq_num; tx_type := packet_type;
               tx_session := session_id; tx_to := localhost |}).
  destruct (packet_halves loads p data (conj Hl Hfit)) as (H1 & H2 & H3).
  change (tx_data p) with data in H3.
  rewrite H3 in H1, H2. change (wire p) with pkt in H1, H2.
  destruct (header_dict_fields data seq_num packet_type session_id)
    as (Fs & Fc & Ft & Fl & Fd & Fn).
  fold h in Fs, Fc, Ft, Fl, Fd, Fn.
  assert (Hck : checksum_ok h data = true).
  { subst h. rewrite header_dict_checksum_ok. apply pystr_eqb_refl. }
  rewrite (server_parse_packet_spec loads pkt h (JStr packet_type) H1 Ft).
  rewrite (client_parse_packet_spec loads pkt h (JStr packet_type) n H1 Ft).
  rewrite H2, Hck, !orb_true_r.
  unfold server_fields, client_fields.
  rewrite Fs, Ft, Fl, Fd, Fn. cbn [bind]. rewrite slice_to_length.
  split; reflexivity.
Qed.

(** X6. Encode, then decode. When the JSON library reads the header back
    as it was written and the header fits in its 200 bytes, both
    [_parse_packet] functions return, for the packet that [_create_packet]
    built, exactly the sequence number, type, length, session id and
    payload that went in -- whatever the payload; and the client counts
    the whole packet as received. *)
Theorem codec_round_trip (loads : bytes -> option json) (data : bytes)
    (seq_num : json) (packet_type : pystr) (session_id : json) (n : Z) :
  let h := header_dict data seq_num packet_type session_id in
  let pkt := _create_packet data seq_num packet_type session_id in
  loads (json_dumps h) = Some h ->
  (length (json_dumps h) <= HEADER_SIZE)%nat ->
  server_parse_packet loads pkt
  = Return (Some (packet_of data seq_num packet_type session_id))
  /\ client_parse_packet loads n pkt
     = (Return (Some (packet_of data seq_num packet_type session_id)),
        n + Z.of_nat (length pkt)).
Proof.
  intros h pkt Hl Hfit.
  exact (codec_round_trip_both loads data seq_num packet_type session_id n
           Hl Hfit).
Qed.

Lemma codec_round_trip_witness :
  server_parse_packet header_loads sample_datagram
  = Return (Some sample_packet).
Proof.
  apply (codec_round_trip header_loads (lit "pwd") (JInt 3) (py "LAST")
           (JStr (py "s1")) 0).
  - vm_compute; reflexivity.
  - vm_compute. lia.
Defined.

Lemma recvfrom_small (b : bytes) :
  (length b <= PACKET_SIZE)%nat -> recvfrom PACKET_SIZE b = b.
Proof. intros H. unfold recvfrom. now apply firstn_all2. Qed.

Lemma length_altered (loads : bytes -> option json) (p : tx)
    (payload : bytes) :
  readable loads p ->
  length (altered (wire p) payload) = (HEADER_SIZE + length payload)%nat.
Proof.
  intros [_ Hfit]. unfold altered, wire, _create_packet. fold (header_of p).
  assert (L : length (ljust HEADER_SIZE (json_dumps (header_of p)))
              = HEADER_SIZE) by (rewrite length_ljust; lia).
  now rewrite (firstn_app_exact _ _ _ _ L), length_app, L.
Qed.

Lemma set_data_received_same (c : client) :
  set_data_received c (data_received c) = c.
Proof. now destruct c. Qed.

Lemma data_type_not_exempt (ty : pystr) :
  ty = py "DATA" \/ ty = py "LAST" ->
  among (JStr ty) server_exempt = false
  /\ among (JStr ty) client_exempt = false
  /\ among (JStr ty) ["DATA"; "LAST"]%string = true.
Proof. intros [-> | ->]; repeat split. Qed.

(** X7. Corruption is detected and answered with silence. If the payload
    of a [DATA] or [LAST] packet is replaced on the way by bytes with a
    different MD5 digest, the accepting side and the initiating side both
    drop the packet: the pass sends no acknowledgment, queues nothing and
    leaves the whole state as it was (the client does not even count the
    bytes as received). *)
Theorem corrupted_payload_is_dropped (loads : bytes -> option json) (p : tx)
    (payload : bytes) (s : server) (c : client) (from : address)
    (env : answers) (ok : bool) :
  readable loads p ->
  tx_type p = py "DATA" \/ tx_type p = py "LAST" ->
  md5 payload <> md5 (tx_data p) ->
  (length payload <= DATA_SIZE)%nat ->
  server_loop_body loads s (Datagram (altered (wire p) payload) from) env
  = (s, [])
  /\ receiver_body loads c (Datagram (altered (wire p) payload) from) ok
     = (c, []).
Proof.
  intros Hr Hty Hmd Hlen.
  destruct (packet_halves loads p payload Hr) as (H1 & H2 & _).
  destruct (data_type_not_exempt _ Hty) as (Es & Ec & _).
  assert (Hck : checksum_ok (header_of p) payload = false).
  { unfold header_of. rewrite header_dict_checksum_ok.
    destruct (pystr_eqb (md5 (tx_data p)) (md5 payload)) eqn:E;
      [|reflexivity].
    apply pystr_eqb_eq in E. congruence. }
  assert (Hrecv : recvfrom PACKET_SIZE (altered (wire p) payload)
                  = altered (wire p) payload).
  { apply recvfrom_small. rewrite (length_altered loads p payload Hr).
    unfold DATA_SIZE, PACKET_SIZE, HEADER_SIZE in *. lia. }
  split.
  - unfold server_loop_body. rewrite Hrecv.
    rewrite (server_parse_packet_spec loads _ (header_of p)
               (JStr (tx_type p)) H1 eq_refl).
    now rewrite H2, Es, Hck.
  - unfold receiver_body. rewrite Hrecv.
    rewrite (client_parse_packet_spec loads _ (header_of p)
               (JStr (tx_type p)) _ H1 eq_refl).
    rewrite H2, Ec, Hck. cbn [orb]. now rewrite set_data_received_same.
Qed.

Lemma corrupted_payload_is_dropped_witness :
  server_loop_body header_loads (server_with (py "s1") localhost 0)
    (Datagram (altered sample_datagram (lit "rm ")) localhost) sample_answers
  = (server_with (py "s1") localhost 0, []).
Proof.
  destruct (corrupted_payload_is_dropped header_loads
              {| tx_data := lit "pwd"; tx_seq := JInt 3;
                 tx_type := py "LAST"; tx_session := JStr (py "s1");
                 tx_to := localhost |}
              (lit "rm ") (server_with (py "s1") localhost 0)
              (connected_client (py "s1") localhost) localhost
              sample_answers true) as [A _].
  - split; [vm_compute; reflexivity | vm_compute; lia].
  - now right.
  - vm_compute; discriminate.
  - vm_compute; lia.
  - exact A.
Defined.

(** ** Delivery over a channel that loses nothing *)

Lemma chunk_length_le (payload : bytes) :
  Forall (fun c => (length c <= DATA_SIZE)%nat) (split payload).
Proof.
  unfold split, split_chunks. apply Forall_map, Forall_forall.
  intros i _. rewrite slice_width, length_firstn. lia.
Qed.

Lemma length_wire (loads : bytes -> option json) (p : tx) :
  readable loads p -> length (wire p) = (HEADER_SIZE + length (tx_data p))%nat.
Proof.
  intros Hr. destruct (packet_halves loads p (tx_data p) Hr) as (_ & _ & E).
  rewrite <- E. now apply (length_altered loads).
Qed.

(** The decoders on a datagram that is readable. *)
Lemma parse_readable (loads : bytes -> option json) (p : tx) (n : Z) :
  readable loads p ->
  (length (tx_data p) <= DATA_SIZE)%nat ->
  recvfrom PACKET_SIZE (wire p) = wire p
  /\ server_parse_packet loads (wire p) = Return (Some (received_as p))
  /\ client_parse_packet loads n (wire p)
     = (Return (Some (received_as p)), n + Z.of_nat (length (wire p))).
Proof.
  intros Hr Hlen. split.
  - apply recvfrom_small. rewrite (length_wire loads p Hr).
    unfold DATA_SIZE, PACKET_SIZE, HEADER_SIZE in *. lia.
  - destruct Hr as [Hl Hfit].
    exact (codec_round_trip_both loads (tx_data p) (tx_seq p) (tx_type p)
             (tx_session p) n Hl Hfit).
Qed.

(** The client's pass on a readable [DATA] or [LAST] datagram. *)
Lemma receiver_accepts (loads : bytes -> option json) (c : client) (p : tx)
    (from : address) :
  readable loads p ->
  (length (tx_data p) <= DATA_SIZE)%nat ->
  tx_type p = py "DATA" \/ tx_type p = py "LAST" ->
  exists c',
    receiver_body loads c (Datagram (wire p) from) true
    = (c', [Sent (ack_of (received_as p) (session_id c) (server_addr c))])
    /\ data_queue c' = data_queue c ++ [tx_data p]
    /\ ack_queue c' = ack_queue c
    /\ session_id c' = session_id c
    /\ server_addr c' = server_addr c
    /\ sequence_number c' = sequence_number c
    /\ connected c' = connected c.
Proof.
  intros Hr Hlen Hty.
  destruct (parse_readable loads p (data_received c) Hr Hlen)
    as (Hrecv & _ & Hc).
  destruct (data_type_not_exempt _ Hty) as (_ & _ & Hd).
  destruct (among_data_last _ Hd) as (_ & Ha & Hca).
  unfold receiver_body. rewrite Hrecv, Hc.
  cbn [received_as packet_of p_type] in *. rewrite Ha, Hca, Hd.
  cbn [client_create_packet sendto]. eexists.
  split; [reflexivity|]. repeat split.
Qed.

Lemma deliver_all (loads : bytes -> option json) (ps : list tx) (c : client) :
  Forall (readable loads) ps ->
  Forall (fun p => (length (tx_data p) <= DATA_SIZE)%nat) ps ->
  Forall (fun p => tx_type p = py "DATA" \/ tx_type p = py "LAST") ps ->
  data_queue (fst (deliver loads c ps)) = data_queue c ++ map tx_data ps
  /\ snd (deliver loads c ps)
     = map (fun p => Sent (ack_of (received_as p) (session_id c)
                             (server_addr c))) ps
  /\ ack_queue (fst (deliver loads c ps)) = ack_queue c
  /\ sequence_number (fst (deliver loads c ps)) = sequence_number c.
Proof.
  revert c. induction ps as [|p ps IH]; intros c Hr Hl Ht.
  - simpl. now rewrite app_nil_r.
  - inversion Hr as [|? ? Hr1 Hr2]; inversion Hl as [|? ? Hl1 Hl2];
      inversion Ht as [|? ? Ht1 Ht2]; subst.
    destruct (receiver_accepts loads c p (tx_to p) Hr1 Hl1 Ht1)
      as (c1 & E & D & A & S & P & N & _).
    cbn [deliver]. rewrite E.
    destruct (IH c1 Hr2 Hl2 Ht2) as (D2 & E2 & A2 & N2).
    destruct (deliver loads c1 ps) as [c2 tr2]. cbn [fst snd] in *.
    rewrite D2, D, E2, A2, N2, S, P, A, N, <- app_assoc.
    repeat split.
Qed.

Lemma Forall_of_map (A B : Type) (f : A -> B) (P : B -> Prop) (l : list A)
    (l' : list B) :
  map f l = l' -> Forall P l' -> Forall (fun x => P (f x)) l.
Proof. intros <- H. apply Forall_map. exact H. Qed.

Lemma chunk_type_cases (j total : nat) :
  chunk_type j total = py "DATA" \/ chunk_type j total = py "LAST".
Proof. unfold chunk_type. destruct (_ =? _); auto. Qed.

(** X8. Delivery over a channel that loses, repeats and reorders nothing.
    When [send_data] returns [True] and the client's receive loop gets
    the datagrams that left, in order (each readable by the JSON library),
    the client's [data_queue] grows by exactly the chunks of the payload,
    so that reassembling the queue of a client that had nothing queued
    gives the payload back; the receive loop answers each datagram with
    one [ACK] echoing its number, and touches neither [ack_queue] nor the
    client's own sequence counter. *)
Theorem lossless_delivery (loads : bytes -> option json) (s : server)
    (data : pydata) (payload : bytes) (to : address) (sid : pystr)
    (sends : list bool) (c : client) :
  as_bytes data = Return payload ->
  returned (send_data s data to sid sends) = Return true ->
  Forall (readable loads) (sent (trace_of (send_data s data to sid sends))) ->
  let arrived := sent (trace_of (send_data s data to sid sends)) in
  let c' := fst (deliver loads c arrived) in
  let acks := snd (deliver loads c arrived) in
  data_queue c' = data_queue c ++ split payload
  /\ (data_queue c = [] -> reassemble (data_queue c') = payload)
  /\ map tx_seq (sent acks)
     = numbers_from (counter s (JStr sid)) (length (split payload))
  /\ Forall (fun a => tx_type a = py "ACK" /\ tx_to a = server_addr c)
            (sent acks)
  /\ length acks = length (split payload)
  /\ ack_queue c' = ack_queue c
  /\ sequence_number c' = sequence_number c.
Proof.
  intros Hd Hret Hread arrived c' acks.
  assert (Hsent : map tx_data arrived = split payload
                  /\ map tx_seq arrived
                     = numbers_from (counter s (JStr sid))
                         (length (split payload))
                  /\ Forall (fun p => tx_type p = py "DATA"
                                      \/ tx_type p = py "LAST") arrived).
  { subst arrived. revert Hret. unfold send_data. rewrite Hd.
    set (s0 := if negb (dict_mem (sequence_numbers s) (JStr sid))
               then set_counter s (JStr sid) 0 else s).
    assert (C0 : counter s0 (JStr sid) = counter s (JStr sid)).
    { subst s0. unfold dict_mem, counter.
      destruct (dict_get (sequence_numbers s) (JStr sid)) eqn:G; cbn [negb].
      - now rewrite G.
      - fold (counter (set_counter s (JStr sid) 0) (JStr sid)).
        rewrite counter_set; [reflexivity | apply py_eq_str_refl]. }
    destruct (send_all (split payload) 0 (length (split payload))
                (counter s0 (JStr sid)) to (JStr sid) sends)
      as [[ok tr] env'] eqn:E.
    destruct (send_all_trace _ _ _ _ _ _ _ _ _ _ E) as [_ H].
    destruct ok; [|discriminate]. intros _.
    destruct (H eq_refl) as (D & Q & T). cbn [trace_of fst snd].
    split; [exact D|]. split; [now rewrite Q, C0|].
    apply (Forall_of_map _ _ tx_type
             (fun t => t = py "DATA" \/ t = py "LAST") _ _ T).
    apply Forall_map, Forall_forall. intros j _. apply chunk_type_cases. }
  destruct Hsent as (D & Q & T).
  assert (Hlen : Forall (fun p => (length (tx_data p) <= DATA_SIZE)%nat)
                        arrived).
  { apply (Forall_of_map _ _ tx_data
             (fun d => (length d <= DATA_SIZE)%nat) _ _ D).
    apply chunk_length_le. }
  destruct (deliver_all loads arrived c Hread Hlen T) as (DQ & EV & AQ & SN).
  fold c' in DQ, AQ, SN. fold acks in EV.
  assert (Hsa : sent acks
                = map (fun p => ack_of (received_as p) (session_id c)
                                  (server_addr c)) arrived).
  { rewrite EV. clear. induction arrived as [|p ps IH]; [reflexivity|].
    simpl. now rewrite IH. }
  split; [now rewrite DQ, D|].
  split.
  { intros Hempty. rewrite DQ, Hempty, D. cbn [app].
    rewrite reassemble_concat. apply concat_split_chunks.
    unfold DATA_SIZE, PACKET_SIZE, HEADER_SIZE. lia. }
  split; [now rewrite Hsa, map_map, <- Q|].
  split.
  { rewrite Hsa. apply Forall_map, Forall_forall. intros p _. now split. }
  split; [now rewrite EV, length_map, <- D, length_map|].
  split; assumption.
Qed.

Lemma lossless_delivery_witness :
  data_queue
    (fst (deliver header_loads (connected_client (py "s1") localhost)
            (sent (trace_of (send_data fresh_server (PBytes two_chunks)
                               localhost (py "s1") [])))))
  = split two_chunks.
Proof.
  destruct (lossless_delivery header_loads fresh_server (PBytes two_chunks)
              two_chunks localhost (py "s1") []
              (connected_client (py "s1") localhost)) as (A & _).
  - reflexivity.
  - vm_compute; reflexivity.
  - match goal with
    | |- Forall _ ?l =>
        let l' := eval vm_compute in l in
        replace l with l' by (vm_compute; reflexivity)
    end.
    repeat (apply Forall_cons;
            [split; [vm_compute; reflexivity | vm_compute; lia]|]).
    apply Forall_nil.
  - exact A.
Defined.

(** ** Losses below the retry limit *)

Lemma sent_timeouts (p : tx) (k : nat) (tr : list event) :
  sent (concat (repeat [Sent p; AckTimeout] k) ++ tr) = repeat p k ++ sent tr.
Proof. induction k as [|k IH]; [reflexivity|]. simpl. now rewrite IH. Qed.

Lemma handed_timeouts (p : tx) (k : nat) (tr : list event) :
  handed (concat (repeat [Sent p; AckTimeout] k) ++ tr)
  = repeat p k ++ handed tr.
Proof. induction k as [|k IH]; [reflexivity|]. simpl. now rewrite IH. Qed.

(** The retry loop when [k] waits time out and then the acknowledgment
    arrives, with [k] below the number of passes left. *)
Lemma retry_loop_repairs (k left : nat) (st : client) (chunk : bytes)
    (seq_num : Z) (packet_type : pystr) (rest : list attempt) :
  (k < left)%nat ->
  ack_queue st = [] ->
  exists st',
    retry_loop left st chunk seq_num packet_type
      (repeat quiet k ++ acked seq_num :: rest)
    = (Return true, st',
       concat (repeat [Sent (chunk_packet st chunk seq_num packet_type);
                       AckTimeout] k)
         ++ [Sent (chunk_packet st chunk seq_num packet_type);
             AckGot (JInt seq_num)],
       rest)
    /\ ack_queue st' = []
    /\ sequence_number st' = sequence_number st
    /\ session_id st' = session_id st
    /\ server_addr st' = server_addr st
    /\ connected st' = connected st
    /\ data_queue st' = data_queue st.
Proof.
  revert left st. induction k as [|k IH]; intros left st Hk Hq.
  - destruct left as [|left]; [lia|].
    cbn [retry_loop client_create_packet repeat app next_attempt acked
         send_raises arrivals set_data_sent ack_queue].
    rewrite Hq. cbn [app py_eq].
    cbn [as_number number_eqb]. rewrite Z.eqb_refl.
    eexists. split; [reflexivity|]. repeat split.
  - destruct left as [|left]; [lia|].
    cbn [retry_loop client_create_packet repeat app next_attempt quiet
         send_raises arrivals set_data_sent ack_queue].
    rewrite Hq. cbn [app].
    match goal with
    | |- context [retry_loop left ?s _ _ _ _] =>
        destruct (IH left s ltac:(lia) eq_refl)
          as (st' & E & Q & N & S & P & C & D)
    end.
    rewrite E. exists st'. split; [reflexivity|].
    repeat split; assumption.
Qed.

Lemma send_chunks_repairs (chunks : list bytes) (losses : list nat)
    (i total : nat) (st : client) (rest : list attempt) :
  ack_queue st = [] ->
  length losses = length chunks ->
  Forall (fun k => (k < MAX_RETRIES)%nat) losses ->
  exists st' tr,
    send_chunks chunks i total st (lossy (sequence_number st) losses ++ rest)
    = (Return true, st', tr, rest)
    /\ map tx_data (sent tr) = copies losses chunks
    /\ map tx_seq (sent tr)
       = copies losses (numbers_from (sequence_number st) (length chunks))
    /\ handed tr = sent tr
    /\ sequence_number st'
       = sequence_number st + Z.of_nat (length chunks)
    /\ ack_queue st' = []
    /\ data_queue st' = data_queue st.
Proof.
  revert losses i st.
  induction chunks as [|c chunks IH]; intros losses i st Hq Hl Hk.
  - destruct losses; [|discriminate]. exists st, []. simpl.
    repeat split; auto. lia.
  - destruct losses as [|k ks]; [discriminate|].
    inversion Hk as [|? ? Hk1 Hk2]; subst. injection Hl as Hl.
    cbn [send_chunks lossy]. rewrite <- app_assoc. cbn [app].
    set (st1 := set_sequence_number st (sequence_number st + 1)).
    destruct (retry_loop_repairs k MAX_RETRIES st1 c (sequence_number st)
                (chunk_type i total)
                (lossy (sequence_number st + 1) ks ++ rest) Hk1 Hq)
      as (st2 & E & Q & N & _ & _ & _ & D).
    rewrite E. cbn [st1 set_sequence_number sequence_number] in N.
    destruct (IH ks (S i) st2 Q Hl Hk2)
      as (st3 & tr3 & E3 & D3 & S3 & H3 & N3 & Q3 & DQ3).
    rewrite N in E3, S3, N3. rewrite E3.
    exists st3. eexists. split; [reflexivity|].
    rewrite <- !app_assoc, handed_timeouts, !sent_timeouts.
    cbn [sent handed app]. rewrite !map_app, !map_repeat. cbn [map length].
    rewrite D3, S3, H3, numbers_from_cons. cbn [copies repeat].
    cbn [chunk_packet client_create_packet fst tx_data tx_seq].
    split; [|split; [|split; [|split; [|split]]]].
    + now rewrite repeat_cons, <- app_assoc.
    + now rewrite repeat_cons, <- app_assoc.
    + reflexivity.
    + lia.
    + exact Q3.
    + now rewrite DQ3, D.
Qed.

(** X9. Losses below the retry limit are repaired. Say a connected client
    with no acknowledgment queued sends a payload, and for each chunk
    fewer than [MAX_RETRIES] (5) waits time out before the acknowledgment
    of the chunk's number arrives. Then [send_reliable] returns [True];
    each chunk left once more than it was lost, in order and always under
    the same number, the numbers running from the counter on (no loss:
    every chunk leaves exactly once); the counter has advanced by the
    number of chunks, no acknowledgment is left in the queue, and the
    answers of the environment are used up exactly. *)
Theorem losses_below_the_limit_are_repaired (st : client) (data : pydata)
    (payload : bytes) (losses : list nat) (rest : list attempt) :
  connected st = true ->
  ack_queue st = [] ->
  as_bytes data = Return payload ->
  length losses = length (split payload) ->
  Forall (fun k => (k < MAX_RETRIES)%nat) losses ->
  let r := send_reliable st data (lossy (sequence_number st) losses ++ rest) in
  r = (Return true, state_of r, trace_of r, rest)
  /\ map tx_data (sent (trace_of r)) = copies losses (split payload)
  /\ map tx_seq (sent (trace_of r))
     = copies losses
         (numbers_from (sequence_number st) (length (split payload)))
  /\ sequence_number (state_of r)
     = sequence_number st + Z.of_nat (length (split payload))
  /\ ack_queue (state_of r) = [].
Proof.
  intros Hc Hq Hd Hl Hk r. subst r.
  rewrite (send_reliable_connected st data payload _ Hc Hd).
  destruct (send_chunks_repairs (split payload) losses 0
              (length (split payload)) st rest Hq Hl Hk)
    as (st' & tr & E & D & S & _ & N & Q & _).
  rewrite E. cbn [state_of trace_of fst snd]. auto.
Qed.

Lemma losses_below_the_limit_are_repaired_witness :
  map tx_seq
    (sent (trace_of
             (send_reliable (connected_client (py "s1") localhost)
                (PBytes two_chunks) (lossy 0 [2; 0]%nat ++ []))))
  = [JInt 0; JInt 0; JInt 0; JInt 1].
Proof.
  destruct (losses_below_the_limit_are_repaired
              (connected_client (py "s1") localhost) (PBytes two_chunks)
              two_chunks [2; 0]%nat []) as (_ & _ & S & _).
  - reflexivity.
  - reflexivity.
  - reflexivity.
  - vm_compute; reflexivity.
  - repeat constructor; unfold MAX_RETRIES; lia.
  - exact S.
Defined.

(** ** The round trip of an acknowledgment *)

(** The accepting side's pass on a readable [DATA] or [LAST] datagram of
    a known session. *)
Lemma server_accepts (loads : bytes -> option json) (s : server) (p : tx)
    (from : address) (env : answers) (info : session) :
  readable loads p ->
  (length (tx_data p) <= DATA_SIZE)%nat ->
  tx_type p = py "DATA" \/ tx_type p = py "LAST" ->
  dict_get (clients s) (tx_session p) = Some info ->
  sendto_ok env = true ->
  exists s',
    server_loop_body loads s (Datagram (wire p) from) env
    = (sweep (clock_sweep env) s',
       [Sent (ack_of (received_as p) (tx_session p) from)])
    /\ dict_get (clients s') (tx_session p)
       = Some {| addr := addr info; last_active := clock_handle env;
                 buffer := buffer info ++ [tx_data p] |}
    /\ sequence_numbers s' = sequence_numbers s
    /\ forall k, py_eq (tx_session p) k = false ->
                 dict_get (clients s') k = dict_get (clients s) k.
Proof.
  intros Hr Hlen Hty Hget Hok.
  destruct (parse_readable loads p 0 Hr Hlen) as (Hrecv & Hs & _).
  destruct (data_type_not_exempt _ Hty) as (_ & _ & Hd).
  destruct (among_data_last _ Hd) as (Hc & _ & _).
  destruct (handle_data_known s (received_as p) from env info Hget Hok)
    as (s' & E & G & Q & O).
  exists s'. unfold server_loop_body, server_dispatch.
  rewrite Hrecv, Hs. cbn [received_as packet_of p_type] in *.
  rewrite Hc, Hd, E. auto.
Qed.

(** The initiating side's pass on a readable [ACK]. *)
Lemma receiver_takes_ack (loads : bytes -> option json) (c : client) (a : tx)
    (from : address) (ok : bool) :
  readable loads a ->
  (length (tx_data a) <= DATA_SIZE)%nat ->
  tx_type a = py "ACK" ->
  receiver_body loads c (Datagram (wire a) from) ok
  = (set_ack_queue
       (set_data_received c (data_received c + Z.of_nat (length (wire a))))
       (ack_queue c ++ [tx_seq a]), []).
Proof.
  intros Hr Hlen Hty.
  destruct (parse_readable loads a (data_received c) Hr Hlen)
    as (Hrecv & _ & Hc).
  unfold receiver_body. rewrite Hrecv, Hc.
  cbn [received_as packet_of p_type p_seq]. rewrite Hty. reflexivity.
Qed.

(** X10. The round trip of an acknowledgment. When a readable [DATA] or
    [LAST] datagram of a known session reaches the accepting side, the
    pass sends exactly one datagram, an [ACK] that carries the number and
    session of the datagram to the address it came from, and the chunk is
    appended to the session's buffer. When that [ACK] reaches the
    initiating side, its receive loop sends nothing and appends the
    number of the original datagram to [ack_queue], where the retry loop
    of [send_reliable] looks for it; [data_queue] and the sequence counter
    stay as they were. *)
Theorem acknowledgment_round_trip (loads : bytes -> option json) (s : server)
    (c : client) (p : tx) (from : address) (env : answers) (info : session) :
  readable loads p ->
  (length (tx_data p) <= DATA_SIZE)%nat ->
  tx_type p = py "DATA" \/ tx_type p = py "LAST" ->
  dict_get (clients s) (tx_session p) = Some info ->
  sendto_ok env = true ->
  readable loads (ack_of (received_as p) (tx_session p) from) ->
  let a := ack_of (received_as p) (tx_session p) from in
  let s' := fst (server_loop_body loads s (Datagram (wire p) from) env) in
  let c' := fst (receiver_body loads c (Datagram (wire a) (tx_to p)) true) in
  snd (server_loop_body loads s (Datagram (wire p) from) env) = [Sent a]
  /\ tx_seq a = tx_seq p /\ tx_session a = tx_session p /\ tx_to a = from
  /\ (Qle_bool (clock_sweep env - clock_handle env) 60 = true ->
      exists info',
        dict_get (clients s') (tx_session p) = Some info'
        /\ buffer info' = buffer info ++ [tx_data p])
  /\ snd (receiver_body loads c (Datagram (wire a) (tx_to p)) true) = []
  /\ ack_queue c' = ack_queue c ++ [tx_seq p]
  /\ data_queue c' = data_queue c
  /\ sequence_number c' = sequence_number c.
Proof.
  intros Hr Hlen Hty Hget Hok Hra a s' c'.
  destruct (server_accepts loads s p from env info Hr Hlen Hty Hget Hok)
    as (s1 & E & G & _ & _).
  subst s'. rewrite E. cbn [fst snd].
  split; [reflexivity|]. split; [reflexivity|]. split; [reflexivity|].
  split; [reflexivity|]. split.
  { intros Hsw.
    exists {| addr := addr info; last_active := clock_handle env;
              buffer := buffer info ++ [tx_data p] |}.
    split; [|reflexivity].
    unfold sweep. cbn [set_clients clients].
    apply dict_get_filter_keep; [exact G|].
    intros k'. unfold idle. cbn [snd last_active]. now rewrite Hsw. }
  subst c'.
  rewrite (receiver_takes_ack loads c a (tx_to p) true Hra); cycle 1.
  - unfold DATA_SIZE, PACKET_SIZE, HEADER_SIZE. simpl. lia.
  - reflexivity.
  - cbn [fst snd]. repeat split.
Qed.

Lemma acknowledgment_round_trip_witness :
  ack_queue
    (fst (receiver_body header_loads (connected_client (py "s1") localhost)
            (Datagram
               (wire (ack_of sample_packet (JStr (py "s1")) localhost))
               localhost) true))
  = [JInt 3].
Proof.
  destruct (acknowledgment_round_trip header_loads
              (server_with (py "s1") localhost 0)
              (connected_client (py "s1") localhost)
              {| tx_data := lit "pwd"; tx_seq := JInt 3;
                 tx_type := py "LAST"; tx_session := JStr (py "s1");
                 tx_to := localhost |}
              localhost sample_answers
              {| addr := localhost; last_active := 0; buffer := [] |})
    as (_ & _ & _ & _ & _ & _ & A & _).
  - split; [vm_compute; reflexivity | vm_compute; lia].
  - vm_compute; lia.
  - now right.
  - reflexivity.
  - reflexivity.
  - split; [vm_compute; reflexivity | vm_compute; lia].
  - exact A.
Defined.

(** ** Opening a session *)

(** A pass of the server loop on a readable datagram: what the dispatch
    does with the packet as it was built, then the sweep. *)
Lemma server_loop_readable (loads : bytes -> option json) (s : server)
    (p : tx) (from : address) (env : answers) :
  readable loads p ->
  (length (tx_data p) <= DATA_SIZE)%nat ->
  server_loop_body loads s (Datagram (wire p) from) env
  = (sweep (clock_sweep env)
       (snd (fst (server_dispatch s (received_as p) from env))),
     snd (server_dispatch s (received_as p) from env)).
Proof.
  intros Hr Hlen.
  destruct (parse_readable loads p 0 Hr Hlen) as (Hrecv & Hs & _).
  unfold server_loop_body. rewrite Hrecv, Hs.
  now destruct (server_dispatch s (received_as p) from env) as [[r st] tr].
Qed.

Lemma encode_utf8_app (a b : pystr) :
  encode_utf8 (a ++ b)
  = (x <- encode_utf8 a ;; y <- encode_utf8 b ;; Return (x ++ y)).
Proof.
  induction a as [|c a IH]; cbn [app encode_utf8 bind].
  - now destruct (encode_utf8 b).
  - destruct (utf8_char c) as [x|e]; cbn [bind]; [|reflexivity].
    rewrite IH. destruct (encode_utf8 a) as [y|e]; cbn [bind]; [|reflexivity].
    destruct (encode_utf8 b) as [z|e]; cbn [bind]; [|reflexivity].
    now rewrite app_assoc.
Qed.

(** A hex digest is plain ASCII: it encodes to 32 bytes. *)
Lemma encode_md5 (msg : bytes) :
  exists b, encode_utf8 (md5 msg) = Return b /\ length b = 32%nat.
Proof.
  unfold md5, MD5.hexdigest.
  assert (H : forall l, exists b,
               encode_utf8 (flat_map MD5.hex_of_byte l) = Return b
               /\ length b = (2 * length l)%nat).
  { induction l as [|x l (b & E & L)]; [now exists []|].
    cbn [flat_map]. rewrite encode_utf8_app, E.
    assert (Hx : exists y, encode_utf8 (MD5.hex_of_byte x) = Return y
                           /\ length y = 2%nat)
      by (destruct x; eexists; split; reflexivity).
    destruct Hx as (y & -> & Ly). cbn [bind]. exists (y ++ b).
    split; [reflexivity|]. rewrite length_app. cbn [length]. lia. }
  destruct (H (MD5.digest msg)) as (b & E & L).
  exists b. split; [exact E|]. now rewrite L, length_md5_digest.
Qed.

Lemma length_md5 (msg : bytes) : length (md5 msg) = 32%nat.
Proof.
  unfold md5, MD5.hexdigest.
  assert (H : forall l, length (flat_map MD5.hex_of_byte l)
                        = (2 * length l)%nat).
  { induction l as [|x l IH]; [reflexivity|].
    cbn [flat_map app length MD5.hex_of_byte]. rewrite IH. lia. }
  now rewrite H, length_md5_digest.
Qed.

Lemma new_session_id_md5 (from : address) (env : answers) (sid : pystr) :
  new_session_id from env = Return sid -> exists msg, sid = md5 msg.
Proof.
  unfold new_session_id.
  destruct (encode_utf8 _) as [text|e]; cbn [bind]; [|discriminate].
  intros [= <-]. now exists text.
Qed.

(** X11. A [CONNECT] without session id opens a session. When a readable
    [CONNECT] datagram with the empty session id (the id of a client that
    is not connected yet) reaches the accepting side, the server makes up
    an id, the MD5 hex digest of the peer's address and the clock;
    registers a session under it for that peer, with the current time and
    an empty buffer; sets the session's sequence counter to 0; sends one
    [CONNECT_ACK] numbered 0 that carries the id both as payload and in
    the header; and starts a handler for the session. Other sessions stay
    as they were. When that [CONNECT_ACK] reaches the client, its receive
    loop takes the id as [session_id] and sends nothing. *)
Theorem connect_opens_a_session (loads : bytes -> option json) (s : server)
    (c : client) (p : tx) (from : address) (env : answers) (sid : pystr) :
  readable loads p ->
  (length (tx_data p) <= DATA_SIZE)%nat ->
  tx_type p = py "CONNECT" ->
  tx_session p = JStr [] ->
  dict_get (clients s) (JStr []) = None ->
  new_session_id from env = Return sid ->
  sendto_ok env = true ->
  exists s' payload,
    let ack := {| tx_data := payload; tx_seq := JInt 0;
                  tx_type := py "CONNECT_ACK"; tx_session := JStr sid;
                  tx_to := from |} in
    encode_utf8 sid = Return payload
    /\ length payload = 32%nat
    /\ server_loop_body loads s (Datagram (wire p) from) env
       = (sweep (clock_sweep env) s',
          [Sent ack; StartHandler (JStr sid) from])
    /\ dict_get (clients s') (JStr sid)
       = Some {| addr := from; last_active := clock_handle env;
                 buffer := [] |}
    /\ dict_get (sequence_numbers s') (JStr sid) = Some 0
    /\ (forall k, py_eq (JStr sid) k = false ->
                  dict_get (clients s') k = dict_get (clients s) k)
    /\ (readable loads ack ->
        session_id c = JStr [] ->
        exists c',
          receiver_body loads c (Datagram (wire ack) from) true = (c', [])
          /\ session_id c' = JStr sid
          /\ ack_queue c' = ack_queue c
          /\ data_queue c' = data_queue c).
Proof.
  intros Hr Hlen Hty Hsess Hnew Hid Hok.
  destruct (new_session_id_md5 from env sid Hid) as (msg & ->).
  destruct (encode_md5 msg) as (payload & Henc & Hl).
  rewrite (server_loop_readable loads s p from env Hr Hlen).
  unfold server_dispatch, handle_connect.
  cbn [received_as packet_of p_type p_session]. rewrite Hty, Hsess.
  rewrite py_eq_str_refl. unfold dict_mem. rewrite Hnew.
  cbn [hashable truthy negb length Nat.eqb]. rewrite Hid. cbn [bind].
  cbn [encode_session]. rewrite Henc. unfold sendto. rewrite Hok.
  cbn [fst snd app].
  eexists. exists payload. cbn zeta.
  split; [reflexivity|]. split; [exact Hl|]. split; [reflexivity|].
  cbn [set_counter set_sequence_numbers set_clients clients
       sequence_numbers].
  split; [apply dict_get_set_same, py_eq_str_refl|].
  split; [apply dict_get_set_same, py_eq_str_refl|].
  split; [intros k Hk; now apply dict_get_set_other|].
  intros Hra Hc.
  destruct (parse_readable loads _ (data_received c) Hra) as (Hrecv & _ & Hp).
  { cbn [tx_data]. rewrite Hl. unfold DATA_SIZE, PACKET_SIZE, HEADER_SIZE.
    lia. }
  unfold receiver_body. rewrite Hrecv, Hp.
  cbn [received_as packet_of p_type p_session tx_type tx_session].
  cbn [set_data_received session_id]. rewrite Hc.
  eexists. split; [reflexivity|]. repeat split.
Qed.

Lemma connect_opens_a_session_witness :
  exists s' payload,
    server_loop_body header_loads fresh_server
      (Datagram (_create_packet (lit "CONNECT") (JInt 0) (py "CONNECT")
                   (JStr [])) localhost) sample_answers
    = (sweep 10 s',
       [Sent {| tx_data := payload; tx_seq := JInt 0;
                tx_type := py "CONNECT_ACK";
                tx_session := JStr (md5 (lit "127.0.0.1:2223:10.0"));
                tx_to := localhost |};
        StartHandler (JStr (md5 (lit "127.0.0.1:2223:10.0"))) localhost]).
Proof.
  destruct (connect_opens_a_session header_loads fresh_server
              (connected_client [] localhost)
              {| tx_data := lit "CONNECT"; tx_seq := JInt 0;
                 tx_type := py "CONNECT"; tx_session := JStr [];
                 tx_to := localhost |}
              localhost sample_answers (md5 (lit "127.0.0.1:2223:10.0")))
    as (s' & payload & _ & _ & E & _).
  - split; [vm_compute; reflexivity | vm_compute; lia].
  - vm_compute; lia.
  - reflexivity.
  - reflexivity.
  - reflexivity.
  - vm_compute; reflexivity.
  - reflexivity.
  - exists s', payload. exact E.
Defined.

(** X12. A [CONNECT] for a session that exists is answered again and
    changes nothing. When a readable [CONNECT] datagram carries the id of
    a registered session, the pass sends one [CONNECT_ACK] numbered 0
    with that id to the address the datagram came from, and starts no
    handler; before the sweep the server is exactly as it was: the
    session keeps its address, its buffer and its [last_active] (a
    [CONNECT] does not count as activity), and no counter is reset. *)
Theorem repeated_connect_is_answered_again (loads : bytes -> option json)
    (s : server) (p : tx) (from : address) (env : answers) (sid : pystr)
    (info : session) (payload : bytes) :
  readable loads p ->
  (length (tx_data p) <= DATA_SIZE)%nat ->
  tx_type p = py "CONNECT" ->
  tx_session p = JStr sid ->
  dict_get (clients s) (JStr sid) = Some info ->
  encode_utf8 sid = Return payload ->
  sendto_ok env = true ->
  server_loop_body loads s (Datagram (wire p) from) env
  = (sweep (clock_sweep env) s,
     [Sent {| tx_data := payload; tx_seq := JInt 0;
              tx_type := py "CONNECT_ACK"; tx_session := JStr sid;
              tx_to := from |}]).
Proof.
  intros Hr Hlen Hty Hsess Hget Henc Hok.
  rewrite (server_loop_readable loads s p from env Hr Hlen).
  unfold server_dispatch, handle_connect.
  cbn [received_as packet_of p_type p_session]. rewrite Hty, Hsess.
  rewrite py_eq_str_refl. unfold dict_mem. rewrite Hget.
  cbn [hashable negb encode_session]. rewrite Henc.
  unfold sendto. rewrite Hok. reflexivity.
Qed.

Lemma repeated_connect_is_answered_again_witness :
  server_loop_body header_loads (server_with (py "s1") localhost 0)
    (Datagram (_create_packet (lit "CONNECT") (JInt 0) (py "CONNECT")
                 (JStr (py "s1"))) localhost) sample_answers
  = (sweep 10 (server_with (py "s1") localhost 0),
     [Sent {| tx_data := lit "s1"; tx_seq := JInt 0;
              tx_type := py "CONNECT_ACK"; tx_session := JStr (py "s1");
              tx_to := localhost |}]).
Proof.
  apply (repeated_connect_is_answered_again header_loads
           (server_with (py "s1") localhost 0)
           {| tx_data := lit "CONNECT"; tx_seq := JInt 0;
              tx_type := py "CONNECT"; tx_session := JStr (py "s1");
              tx_to := localhost |}
           localhost sample_answers (py "s1")
           {| addr := localhost; last_active := 0; buffer := [] |}
           (lit "s1")).
  - split; [vm_compute; reflexivity | vm_compute; lia].
  - vm_compute; lia.
  - reflexivity.
  - reflexivity.
  - reflexivity.
  - reflexivity.
  - reflexivity.
Defined.

(** X13. A [CONNECT] with an id that cannot be encoded leaves a session
    behind. When the id of a readable [CONNECT] datagram is not
    registered, counts as true and equals itself, but
    [session_id.encode('utf-8')] raises (the id is a number, or a string
    with a lone surrogate), the exception ends the pass after the session
    was registered and its counter set to 0: nothing is sent and no
    handler is started. *)
Theorem connect_with_unusable_id (loads : bytes -> option json) (s : server)
    (p : tx) (from : address) (env : answers) (e : exn) :
  readable loads p ->
  (length (tx_data p) <= DATA_SIZE)%nat ->
  tx_type p = py "CONNECT" ->
  truthy (tx_session p) = true ->
  py_eq (tx_session p) (tx_session p) = true ->
  dict_get (clients s) (tx_session p) = None ->
  encode_session (tx_session p) = Raise e ->
  exists s',
    server_loop_body loads s (Datagram (wire p) from) env
    = (sweep (clock_sweep env) s', [])
    /\ dict_get (clients s') (tx_session p)
       = Some {| addr := from; last_active := clock_handle env;
                 buffer := [] |}
    /\ dict_get (sequence_numbers s') (tx_session p) = Some 0.
Proof.
  intros Hr Hlen Hty Htruthy Hrefl Hget Henc.
  rewrite (server_loop_readable loads s p from env Hr Hlen).
  unfold server_dispatch, handle_connect.
  cbn [received_as packet_of p_type p_session]. rewrite Hty.
  rewrite py_eq_str_refl. unfold dict_mem. rewrite Hget, Htruthy.
  rewrite (py_eq_hashable _ _ Hrefl). cbn [negb]. rewrite Henc.
  cbn [fst snd]. eexists. split; [reflexivity|].
  cbn [set_counter set_sequence_numbers set_clients clients
       sequence_numbers].
  split; now apply dict_get_set_same.
Qed.

Lemma connect_with_unusable_id_witness :
  exists s',
    server_loop_body header_loads fresh_server
      (Datagram (_create_packet (lit "CONNECT") (JInt 0) (py "CONNECT")
                   (JInt 7)) localhost) sample_answers
    = (sweep 10 s', [])
    /\ dict_get (clients s') (JInt 7)
       = Some {| addr := localhost; last_active := 10; buffer := [] |}
    /\ dict_get (sequence_numbers s') (JInt 7) = Some 0.
Proof.
  apply (connect_with_unusable_id header_loads fresh_server
           {| tx_data := lit "CONNECT"; tx_seq := JInt 0;
              tx_type := py "CONNECT"; tx_session := JInt 7;
              tx_to := localhost |}
           localhost sample_answers AttributeError).
  - split; [vm_compute; reflexivity | vm_compute; lia].
  - vm_compute; lia.
  - reflexivity.
  - reflexivity.
  - reflexivity.
  - reflexivity.
  - reflexivity.
Defined.

(** ** No session under an empty id *)

Lemma fvalue_zero (x : Z) :
  fvalue_eqb (FFinite (inject_Z x)) (FFinite (inject_Z 0)) = (x =? 0).
Proof. simpl. unfold Qeq_bool. simpl. now rewrite Z.mul_1_r. Qed.

(** Equal values count as true together. *)
Lemma py_eq_truthy (a b : json) : py_eq a b = true -> truthy a = truthy b.
Proof.
  assert (Z0 : forall v w, fvalue_eqb v w = true ->
                 fvalue_eqb v (FFinite (inject_Z 0))
                 = fvalue_eqb w (FFinite (inject_Z 0))).
  { intros v w E.
    destruct (fvalue_eqb v (FFinite (inject_Z 0))) eqn:A,
             (fvalue_eqb w (FFinite (inject_Z 0))) eqn:B; try reflexivity.
    - rewrite fvalue_eqb_sym in E.
      now rewrite (fvalue_eqb_trans _ _ _ E A) in B.
    - now rewrite (fvalue_eqb_trans _ _ _ E B) in A. }
  assert (T : forall j n, as_number j = Some n ->
                truthy j = negb (fvalue_eqb (embed n) (FFinite (inject_Z 0)))).
  { intros j n. destruct j as [|[|]|x|f| | |]; simpl; try discriminate;
      intros [= <-]; try reflexivity.
    cbn [embed]. now rewrite fvalue_zero. }
  destruct a as [| | | |s| |], b as [| | | |t| |]; cbn [py_eq as_number];
    try discriminate; try reflexivity;
    try (intros E;
         match goal with
         | |- truthy ?x = truthy ?y =>
             rewrite (T x _ eq_refl), (T y _ eq_refl)
         end;
         rewrite number_eqb_embed in E; f_equal; now apply Z0).
  intros E. apply pystr_eqb_eq in E. now subst.
Qed.

Lemma keys_truthy_lookup (V : Type) (d : dict V) (k : json) :
  keys_truthy d -> truthy k = false -> dict_get d k = None.
Proof.
  intros K F. induction K as [|[k' v] d Hk K IH]; [reflexivity|].
  cbn [dict_get]. destruct (py_eq k' k) eqn:E; [|exact IH].
  apply py_eq_truthy in E. cbn [fst] in Hk. congruence.
Qed.

Lemma dict_set_truthy (V : Type) (d : dict V) (k : json) (v : V) :
  truthy k = true -> keys_truthy d -> keys_truthy (dict_set d k v).
Proof.
  intros T K. induction K as [|[k' v'] d Hk K IH]; cbn [dict_set].
  - now repeat constructor.
  - destruct (py_eq k' k); constructor; auto.
Qed.

Lemma dict_set_known_truthy (V : Type) (d : dict V) (k : json) (v w : V) :
  dict_get d k = Some w -> keys_truthy d -> keys_truthy (dict_set d k v).
Proof.
  intros G K. induction K as [|[k' v'] d Hk K IH]; [discriminate|].
  cbn [dict_set dict_get] in *.
  destruct (py_eq k' k); constructor; try exact Hk; try exact K.
  exact (IH G).
Qed.

Lemma update_client_truthy (s : server) (k : json) (f : session -> session) :
  keys_truthy (clients s) -> keys_truthy (clients (update_client s k f)).
Proof.
  intros K. unfold update_client.
  destruct (dict_get (clients s) k) as [info|] eqn:G; [|exact K].
  exact (dict_set_known_truthy session (clients s) k (f info) info G K).
Qed.

Lemma filter_truthy (V : Type) (f : json * V -> bool) (d : dict V) :
  keys_truthy d -> keys_truthy (filter f d).
Proof.
  intros K. induction K as [|x d Hk K IH]; cbn [filter]; [constructor|].
  destruct (f x); [constructor|]; auto.
Qed.

Lemma length_truthy (sid : pystr) :
  (0 < length sid)%nat -> truthy (JStr sid) = true.
Proof. destruct sid; simpl; [lia | reflexivity]. Qed.

Lemma server_dispatch_truthy (s : server) (pkt : packet) (from : address)
    (env : answers) :
  keys_truthy (clients s) ->
  keys_truthy (clients (snd (fst (server_dispatch s pkt from env)))).
Proof.
  intros K. unfold server_dispatch.
  destruct (py_eq (p_type pkt) _).
  - unfold handle_connect.
    destruct (negb (hashable _)); [exact K|].
    destruct (negb (dict_mem _ _)).
    + destruct (truthy (p_session pkt)) eqn:T; cbn [negb].
      * destruct (encode_session _); cbn [fst snd];
          [|now apply dict_set_truthy].
        unfold sendto. destruct (sendto_ok env); cbn [fst snd];
          now apply dict_set_truthy.
      * destruct (new_session_id from env) as [sid|e] eqn:N; cbn [bind];
          [|exact K].
        assert (Ts : truthy (JStr sid) = true).
        { destruct (new_session_id_md5 from env sid N) as (msg & ->).
          apply length_truthy. rewrite length_md5. lia. }
        destruct (encode_session _); cbn [fst snd];
          [|now apply dict_set_truthy].
        unfold sendto. destruct (sendto_ok env); cbn [fst snd];
          now apply dict_set_truthy.
    + destruct (encode_session _); [|exact K].
      unfold sendto. now destruct (sendto_ok env).
  - destruct (among _ _); [|exact K].
    unfold handle_data.
    destruct (negb (hashable _)); [exact K|].
    destruct (dict_mem _ _); [|exact K].
    unfold _send_ack, sendto. destruct (sendto_ok env); cbn [fst snd];
      repeat apply update_client_truthy; exact K.
Qed.

(** X14. No session is ever registered under an id that counts as false.
    Whatever arrives, a pass of the server loop that starts with every
    key of [self.clients] counting as true ends so (a [CONNECT] without
    id is given a generated one, which is not empty); and in such a
    dictionary the lookup of the empty id, as of any id that counts as
    false, finds nothing, so that a [CONNECT] without id is always taken
    as a new connection. *)
Theorem no_session_under_an_empty_id (loads : bytes -> option json)
    (s : server) (a : arrival) (env : answers) :
  keys_truthy (clients s) ->
  keys_truthy (clients (fst (server_loop_body loads s a env)))
  /\ forall k, truthy k = false ->
       dict_mem (clients (fst (server_loop_body loads s a env))) k = false.
Proof.
  intros K.
  assert (K' : keys_truthy (clients (fst (server_loop_body loads s a env)))).
  { unfold server_loop_body. destruct a as [|datagram from]; cbn [fst].
    - now apply filter_truthy.
    - destruct (server_parse_packet loads _) as [[pkt|]|e]; cbn [fst];
        [|exact K|now apply filter_truthy].
      pose proof (server_dispatch_truthy s pkt from env K) as D.
      destruct (server_dispatch s pkt from env) as [[r st] tr].
      cbn [fst snd] in *. now apply filter_truthy. }
  split; [exact K'|].
  intros k F. unfold dict_mem.
  now rewrite (keys_truthy_lookup session _ k K' F).
Qed.

Lemma no_session_under_an_empty_id_witness :
  dict_mem
    (clients
       (fst (server_loop_body header_loads (server_with (py "s1") localhost 0)
               (Datagram (_create_packet (lit "CONNECT") (JInt 0)
                            (py "CONNECT") (JStr [])) localhost)
               sample_answers)))
    (JStr [])
  = false.
Proof.
  destruct (no_session_under_an_empty_id header_loads
              (server_with (py "s1") localhost 0)
              (Datagram (_create_packet (lit "CONNECT") (JInt 0)
                           (py "CONNECT") (JStr [])) localhost)
              sample_answers) as [_ A].
  - repeat constructor.
  - apply A. reflexivity.
Defined.

(** ** What the accepting side ignores *)

Lemma server_ignores (loads : bytes -> option json) (s : server)
    (datagram : bytes) (from : address) (env : answers) (pkt : packet) :
  server_parse_packet loads (recvfrom PACKET_SIZE datagram)
  = Return (Some pkt) ->
  py_eq (p_type pkt) (JStr (py "CONNECT")) = false ->
  dict_mem (clients s) (p_session pkt) = false
  \/ among (p_type pkt) ["DATA"; "LAST"]%string = false ->
  server_loop_body loads s (Datagram datagram from) env
  = (sweep (clock_sweep env) s, []).
Proof.
  intros Hp Hc H. unfold server_loop_body, server_dispatch.
  rewrite Hp, Hc.
  destruct (among (p_type pkt) ["DATA"; "LAST"]%string) eqn:A;
    [|reflexivity].
  destruct H as [H | H]; [|discriminate].
  unfold handle_data. rewrite H.
  now destruct (negb (hashable (p_session pkt))).
Qed.



(** ** The session handler *)

Lemma send_attempts_handed (left : nat) (p : tx) (env : list bool)
    (ok : bool) (tr : list event) (env' : list bool) :
  send_attempts left p env = (ok, tr, env') ->
  Forall (fun q => q = p) (handed tr) /\ (length (handed tr) <= left)%nat.
Proof.
  revert env ok tr env'.
  induction left as [|left IH]; intros env ok tr env' E.
  - injection E as <- <- <-. split; [constructor | apply Nat.le_refl].
  - cbn [send_attempts] in E.
    destruct (next_send env) as [[|] env1].
    + injection E as <- <- <-. cbn. split; [repeat constructor | lia].
    + destruct (left =? 0)%nat.
      * injection E as <- <- <-. cbn. split; [repeat constructor | lia].
      * destruct (send_attempts left p env1) as [[r tr1] env2] eqn:E1.
        injection E as <- <- <-. destruct (IH _ _ _ _ E1) as [F L].
        cbn [handed length]. split; [now constructor | lia].
Qed.

Lemma send_attempts_nonempty (left : nat) (p : tx) (env : list bool) :
  (1 <= length (handed (snd (fst (send_attempts (S left) p env)))))%nat.
Proof.
  cbn [send_attempts]. destruct (next_send env) as [[|] env1]; cbn; [lia|].
  destruct (left =? 0)%nat; cbn; [lia|].
  destruct (send_attempts left p env1) as [[r tr1] env2]. cbn. lia.
Qed.

(** [send_data] touches the counters only. *)
Lemma send_data_clients (s : server) (data : pydata) (to : address)
    (sid : pystr) (sends : list bool) :
  clients (state_of (send_data s data to sid sends)) = clients s.
Proof.
  unfold send_data. destruct (as_bytes data) as [payload|e]; [|reflexivity].
  match goal with
  | |- context [send_all ?a ?b ?c ?d ?e ?f ?g] =>
      destruct (send_all a b c d e f g) as [[ok tr] env']
  end.
  destruct ok; cbn [state_of fst snd set_counter set_sequence_numbers clients];
    now destruct (negb (dict_mem (sequence_numbers s) (JStr sid))).
Qed.

Lemma dict_del_known (V : Type) (d : dict V) (k : json) (v : V) :
  unique_keys d ->
  dict_get d k = Some v ->
  exists d',
    dict_del d k = Return d'
    /\ dict_get d' k = None
    /\ forall k2, py_eq k k2 = false -> dict_get d' k2 = dict_get d k2.
Proof.
  induction d as [|[k' v'] d IH]; [discriminate|].
  cbn [unique_keys dict_get dict_del]. intros [N U] G.
  destruct (py_eq k' k) eqn:E.
  - exists d. split; [reflexivity|]. split.
    + now rewrite <- (dict_get_congr V d k' k E).
    + intros k2 H. destruct (py_eq k' k2) eqn:E2; [|reflexivity].
      rewrite py_eq_sym in E. now rewrite (py_eq_trans _ _ _ E E2) in H.
  - destruct (IH U G) as (d' & D & G' & O). rewrite D. cbn [bind].
    exists ((k', v') :: d'). split; [reflexivity|].
    cbn [dict_get]. rewrite E. split; [exact G'|].
    intros k2 H. destruct (py_eq k' k2); [reflexivity | now apply O].
Qed.

(** How [send_data] sends the goodbye. *)
Lemma send_data_goodbye (s : server) (to : address) (sid : pystr)
    (sends : list bool) :
  exists ok s' tr sends',
    send_data s (PStr goodbye) to sid sends = (Return ok, s', tr, sends')
    /\ clients s' = clients s
    /\ Forall (fun p => p = goodbye_packet (counter s (JStr sid)) sid to)
              (handed tr)
    /\ (1 <= length (handed tr) <= 5)%nat.
Proof.
  pose proof (send_data_clients s (PStr goodbye) to sid sends) as C.
  revert C. unfold send_data.
  assert (B : as_bytes (PStr goodbye)
              = Return (lit "Goodbye!" ++ [x0d; x0a])) by reflexivity.
  assert (P : split (lit "Goodbye!" ++ [x0d; x0a])
              = [lit "Goodbye!" ++ [x0d; x0a]]) by (vm_compute; reflexivity).
  rewrite B, P. cbn [send_all length].
  set (s0 := if negb (dict_mem (sequence_numbers s) (JStr sid))
             then set_counter s (JStr sid) 0 else s).
  assert (C0 : counter s0 (JStr sid) = counter s (JStr sid)).
  { subst s0. unfold dict_mem, counter.
    destruct (dict_get (sequence_numbers s) (JStr sid)) eqn:G; cbn [negb].
    - now rewrite G.
    - fold (counter (set_counter s (JStr sid) 0) (JStr sid)).
      rewrite counter_set; [reflexivity | apply py_eq_str_refl]. }
  change (Z.of_nat 0) with 0. rewrite C0, Z.add_0_r.
  change (chunk_type 0 1) with (py "LAST").
  fold (goodbye_packet (counter s (JStr sid)) sid to).
  pose proof (send_attempts_nonempty 4 (goodbye_packet (counter s (JStr sid))
                                          sid to) sends) as L1.
  destruct (send_attempts 5 _ sends) as [[ok tr] env'] eqn:E.
  destruct (send_attempts_handed _ _ _ _ _ _ E) as [F L].
  cbn [fst snd] in L1.
  destruct ok; cbn [state_of fst snd]; intros C;
    eexists; eexists; eexists; eexists;
    (split; [reflexivity|]); (split; [exact C|]);
    rewrite ?app_nil_r; (split; [exact F | lia]).
Qed.

(** X16. An exit command closes the session. When the handler of a
    registered session takes a command that decodes and, stripped of
    surrounding white space and in any letter case, reads [exit], it
    hands the goodbye datagram (type [LAST], numbered with the session's
    counter) to the socket, at least once and at most five times, deletes
    the session from [self.clients], leaving the others, and returns.
    From then on the main loop answers no [DATA] or [LAST] packet of that
    session: no acknowledgment is sent and nothing is stored. *)
Theorem exit_closes_the_session (loads : bytes -> option json) (s : server)
    (cmd_data : bytes) (text : pystr) (to : address) (sid : pystr)
    (sends : list bool) (info : session) :
  decode_utf8 cmd_data = Return text ->
  is_exit (str_strip text) = true ->
  unique_keys (clients s) ->
  dict_get (clients s) (JStr sid) = Some info ->
  exists s' tr sends',
    handle_command s cmd_data to sid sends = (Returns, s', tr, sends')
    /\ dict_mem (clients s') (JStr sid) = false
    /\ (forall k, py_eq (JStr sid) k = false ->
                  dict_get (clients s') k = dict_get (clients s) k)
    /\ Forall (fun p => p = goodbye_packet (counter s (JStr sid)) sid to)
              (handed tr)
    /\ (1 <= length (handed tr) <= 5)%nat
    /\ forall datagram from env pkt,
         server_parse_packet loads (recvfrom PACKET_SIZE datagram)
         = Return (Some pkt) ->
         among (p_type pkt) ["DATA"; "LAST"]%string = true ->
         p_session pkt = JStr sid ->
         server_loop_body loads s' (Datagram datagram from) env
         = (sweep (clock_sweep env) s', []).
Proof.
  intros Hd Hx U G. unfold handle_command. rewrite Hd, Hx.
  destruct (send_data_goodbye s to sid sends)
    as (ok & s1 & tr & sends' & E & C & F & L).
  rewrite E, C.
  destruct (dict_del_known session (clients s) (JStr sid) info U G)
    as (d' & D & N & O).
  rewrite D. exists (set_clients s1 d'), tr, sends'.
  cbn [set_clients clients]. split; [reflexivity|].
  split; [unfold dict_mem; now rewrite N|].
  split; [exact O|]. split; [exact F|]. split; [exact L|].
  intros datagram from env pkt Hp Hty Hs.
  apply (server_ignores loads _ datagram from env pkt Hp).
  - now destruct (among_data_last _ Hty).
  - left. rewrite Hs. cbn [set_clients clients]. unfold dict_mem.
    now rewrite N.
Qed.

Lemma exit_closes_the_session_witness :
  exists s' tr sends',
    handle_command (server_with (py "s1") localhost 0)
      (lit " Exit" ++ [x0a]) localhost (py "s1") []
    = (Returns, s', tr, sends')
    /\ dict_mem (clients s') (JStr (py "s1")) = false.
Proof.
  destruct (exit_closes_the_session header_loads
              (server_with (py "s1") localhost 0) (lit " Exit" ++ [x0a])
              (py " Exit" ++ [10%N]) localhost (py "s1") []
              {| addr := localhost; last_active := 0; buffer := [] |})
    as (s' & tr & sends' & E & M & _).
  - reflexivity.
  - reflexivity.
  - split; [reflexivity | exact I].
  - reflexivity.
  - exists s', tr, sends'. split; [exact E | exact M].
Defined.

Ltac bool_hyps :=
  repeat match goal with
         | H : (_ && _)%bool = true |- _ =>
             apply andb_true_iff in H; destruct H
         | H : (_ <=? _)%N = true |- _ => apply N.leb_le in H
         | H : (_ <? _)%N = true |- _ => apply N.ltb_lt in H
         | H : (_ <? _)%N = false |- _ => apply N.ltb_ge in H
         end.

(** Every code point but a surrogate can be encoded. *)
Lemma utf8_char_returns (c : N) :
  surrogate c = false -> exists b, utf8_char c = Return b.
Proof.
  unfold surrogate, utf8_char. intros ->.
  destruct (c <? 128)%N; [now eexists|].
  destruct (c <? 2048)%N; [now eexists|].
  destruct (c <? 65536)%N; now eexists.
Qed.

Lemma encode_utf8_returns (s : pystr) :
  Forall (fun c => surrogate c = false) s -> exists b, encode_utf8 s = Return b.
Proof.
  induction 1 as [|c s Hc _ (b & E)]; [now exists []|].
  destruct (utf8_char_returns c Hc) as (x & X).
  cbn [encode_utf8]. rewrite X, E. cbn [bind]. now eexists.
Qed.

Lemma low6_bound (b : byte) : continuation b = true -> (low6 b < 64)%N.
Proof.
  unfold continuation, low6. intros H. bool_hyps. lia.
Qed.

Lemma not_surrogate (c : N) :
  (c < 55296 \/ 57343 < c)%N -> surrogate c = false.
Proof.
  unfold surrogate. intros H.
  destruct (N.leb_spec 55296 c), (N.leb_spec c 57343); try reflexivity. lia.
Qed.

(** What [decode('utf-8')] returns holds no surrogate. *)
Lemma decode_utf8_plain (n : nat) (b : bytes) (s : pystr) :
  (length b <= n)%nat ->
  decode_utf8 b = Return s ->
  Forall (fun c => surrogate c = false) s.
Proof.
  revert b s. induction n as [|n IH]; intros b s L.
  - destruct b; [|simpl in L; lia]. intros [= <-]. constructor.
  - destruct b as [|b0 r]; [intros [= <-]; constructor|].
    cbn [length] in L. cbn [decode_utf8].
    set (z := Byte.to_N b0).
    destruct (z <? 128)%N eqn:C1.
    { destruct (decode_utf8 r) as [s1|e] eqn:D; cbn [bind]; [|discriminate].
      intros [= <-]. constructor; [|apply (IH r); [lia | exact D]].
      bool_hyps. apply not_surrogate. lia. }
    destruct ((194 <=? z) && (z <=? 223))%N eqn:C2.
    { destruct r as [|b1 r1]; [discriminate|].
      destruct (continuation b1) eqn:K1; [|discriminate].
      destruct (decode_utf8 r1) as [s1|e] eqn:D; cbn [bind]; [|discriminate].
      intros [= <-].
      constructor; [|apply (IH r1); [cbn [length] in L; lia | exact D]].
      pose proof (low6_bound b1 K1). bool_hyps. apply not_surrogate. lia. }
    destruct ((224 <=? z) && (z <=? 239))%N eqn:C3.
    { destruct r as [|b1 [|b2 r2]]; try discriminate.
      match goal with
      | |- (if ?c then _ else _) = _ -> _ => destruct c eqn:K
      end; [|discriminate].
      destruct (decode_utf8 r2) as [s1|e] eqn:D; cbn [bind]; [|discriminate].
      intros [= <-].
      constructor; [|apply (IH r2); [cbn [length] in L; lia | exact D]].
      apply andb_true_iff in K. destruct K as [K K4].
      apply andb_true_iff in K. destruct K as [K K3].
      apply andb_true_iff in K. destruct K as [K1 K2].
      pose proof (low6_bound b1 K1). pose proof (low6_bound b2 K2).
      apply not_surrogate. bool_hyps.
      destruct (N.eqb_spec z 237) as [E|E]; cbn [negb orb] in K4.
      - apply N.leb_le in K4. unfold low6 in *.
        unfold continuation in K1. bool_hyps. lia.
      - lia. }
    destruct ((240 <=? z) && (z <=? 244))%N eqn:C4; [|discriminate].
    destruct r as [|b1 [|b2 [|b3 r3]]]; try discriminate.
    match goal with
    | |- (if ?c then _ else _) = _ -> _ => destruct c eqn:K
    end; [|discriminate].
    destruct (decode_utf8 r3) as [s1|e] eqn:D; cbn [bind]; [|discriminate].
    intros [= <-].
    constructor; [|apply (IH r3); [cbn [length] in L; lia | exact D]].
    apply andb_true_iff in K. destruct K as [K K5].
    apply andb_true_iff in K. destruct K as [K K4].
    apply not_surrogate. bool_hyps.
    destruct (N.eqb_spec z 240) as [E|E]; cbn [negb orb] in K4.
    + apply N.leb_le in K4. unfold low6. lia.
    + lia.
Qed.

Lemma str_lstrip_plain (P : N -> Prop) (s : pystr) :
  Forall P s -> Forall P (str_lstrip s).
Proof.
  induction 1 as [|c s Hc Hs IH]; cbn [str_lstrip]; [constructor|].
  destruct (str_space c); [exact IH | now constructor].
Qed.

Lemma str_strip_plain (P : N -> Prop) (s : pystr) :
  Forall P s -> Forall P (str_strip s).
Proof.
  intros H. unfold str_strip.
  apply Forall_rev, str_lstrip_plain, Forall_rev, str_lstrip_plain, H.
Qed.

(** With a socket that raises nothing, every chunk leaves. *)
Lemma send_all_undisturbed (chunks : list bytes) (i total : nat) (seq_num : Z)
    (to : address) (sid : json) (sends : list bool) :
  Forall (fun b => b = true) sends ->
  fst (fst (send_all chunks i total seq_num to sid sends)) = true.
Proof.
  revert i sends. induction chunks as [|c chunks IH]; intros i sends F;
    [reflexivity|].
  cbn [send_all send_attempts].
  assert (N : fst (next_send sends) = true
              /\ Forall (fun b => b = true) (snd (next_send sends))).
  { destruct F as [|b sends -> F]; cbn; auto. }
  destruct (next_send sends) as [ok sends1]. cbn [fst snd] in N.
  destruct N as [-> F1].
  specialize (IH (S i) sends1 F1).
  destruct (send_all chunks (S i) total seq_num to sid sends1)
    as [[r tr] env']. cbn [fst] in *. exact IH.
Qed.

(** X17. Any other command is answered with its echo, and the session
    stays. When the handler takes a command that decodes and is not an
    exit, it sends [b"Executing: "], the command stripped of surrounding
    white space, and [b"\r\n$ "] with [send_data], no branch raises (what
    was decoded can be encoded again), the handler goes on, and
    [self.clients] is as before. When [send_data] returns [True] (as it
    does when no [sendto] raises) the payloads of the datagrams that
    left, put together, are that reply. *)
Theorem command_is_answered (s : server) (cmd_data : bytes) (text : pystr)
    (to : address) (sid : pystr) (sends : list bool) :
  decode_utf8 cmd_data = Return text ->
  is_exit (str_strip text) = false ->
  exists cmd ok s' tr sends',
    let reply := lit "Executing: " ++ cmd ++ [x0d; x0a] ++ lit "$ " in
    encode_utf8 (str_strip text) = Return cmd
    /\ handle_command s cmd_data to sid sends = (GoesOn, s', tr, sends')
    /\ send_data s (PBytes reply) to sid sends = (Return ok, s', tr, sends')
    /\ clients s' = clients s
    /\ (ok = true -> reassemble (map tx_data (sent tr)) = reply)
    /\ (Forall (fun b => b = true) sends -> ok = true).
Proof.
  intros Hd Hx.
  pose proof (decode_utf8_plain _ cmd_data text (Nat.le_refl _) Hd) as Hp.
  destruct (encode_utf8_returns _ (str_strip_plain _ text Hp)) as (cmd & Hc).
  exists cmd.
  assert (Hr : as_bytes (PStr (executing (str_strip text)))
               = Return (lit "Executing: " ++ cmd ++ [x0d; x0a] ++ lit "$ ")).
  { cbn [as_bytes]. unfold executing.
    rewrite !encode_utf8_app, Hc. reflexivity. }
  unfold handle_command. rewrite Hd, Hx.
  pose proof (send_data_clients s
                (PBytes (lit "Executing: " ++ cmd ++ [x0d; x0a] ++ lit "$ "))
                to sid sends) as C.
  revert C. unfold send_data. rewrite Hr. cbn [as_bytes].
  set (reply := lit "Executing: " ++ cmd ++ [x0d; x0a] ++ lit "$ ").
  match goal with
  | |- context [send_all ?a ?b ?c ?d ?e ?f ?g] =>
      pose proof (send_all_undisturbed a b c d e f g) as A;
      destruct (send_all a b c d e f g) as [[ok tr] env'] eqn:E
  end.
  destruct (send_all_trace _ _ _ _ _ _ _ _ _ _ E) as [_ T].
  cbn [fst] in A.
  destruct ok; cbn [state_of fst snd]; intros C;
    eexists; eexists; eexists; eexists; cbn zeta;
    (split; [exact Hc|]); (split; [reflexivity|]);
    (split; [reflexivity|]); (split; [exact C|]);
    (split; [|exact A]).
  - intros _. destruct (T eq_refl) as (D & _). rewrite D.
    rewrite reassemble_concat. apply concat_split_chunks.
    unfold DATA_SIZE, PACKET_SIZE, HEADER_SIZE. lia.
  - discriminate.
Qed.

Lemma command_is_answered_witness :
  exists cmd ok s' tr sends',
    encode_utf8 (py "pwd") = Return cmd
    /\ handle_command (server_with (py "s1") localhost 0)
         (lit " pwd" ++ [x0a]) localhost (py "s1") []
       = (GoesOn, s', tr, sends')
    /\ send_data (server_with (py "s1") localhost 0)
         (PBytes (lit "Executing: " ++ cmd ++ [x0d; x0a] ++ lit "$ "))
         localhost (py "s1") []
       = (Return ok, s', tr, sends').
Proof.
  destruct (command_is_answered (server_with (py "s1") localhost 0)
              (lit " pwd" ++ [x0a]) (py " pwd" ++ [10%N]) localhost
              (py "s1") [])
    as (cmd & ok & s' & tr & sends' & A & B & C & _).
  - reflexivity.
  - reflexivity.
  - exists cmd, ok, s', tr, sends'. repeat split; assumption.
Defined.

(** ** Transmissions of the initiating side *)

Lemma handed_app (a b : list event) : handed (a ++ b) = handed a ++ handed b.
Proof.
  induction a as [|e a IH]; [reflexivity|].
  destruct e; simpl; now rewrite IH.
Qed.

Lemma wire_bytes_cons (p : tx) (l : list tx) :
  wire_bytes (p :: l) = Z.of_nat (length (wire p)) + wire_bytes l.
Proof. reflexivity. Qed.

Lemma wire_bytes_app (a b : list tx) :
  wire_bytes (a ++ b) = wire_bytes a + wire_bytes b.
Proof.
  induction a as [|p a IH]; [reflexivity|].
  cbn [app]. rewrite !wire_bytes_cons, IH. lia.
Qed.

(** The retry loop hands one and the same datagram to the socket, at most
    once per pass, and [data_sent] grows by its size each time. *)
Lemma retry_loop_handed (left : nat) (st : client) (chunk : bytes)
    (seq_num : Z) (packet_type : pystr) (env : list attempt)
    (r : outcome bool) (st' : client) (tr : list event)
    (env' : list attempt) :
  retry_loop left st chunk seq_num packet_type env = (r, st', tr, env') ->
  Forall (fun p => p = chunk_packet st chunk seq_num packet_type) (handed tr)
  /\ (length (handed tr) <= left)%nat
  /\ data_sent st' = data_sent st + wire_bytes (handed tr)
  /\ connected st' = connected st
  /\ session_id st' = session_id st
  /\ server_addr st' = server_addr st.
Proof.
  revert st env r st' tr env'.
  induction left as [|left IH]; intros st env r st' tr env' E.
  - simpl in E. injection E as <- <- <- <-. cbn [handed length].
    change (wire_bytes []) with 0.
    repeat split; try constructor; lia.
  - cbn [retry_loop client_create_packet] in E.
    set (p := {| tx_data := chunk; tx_seq := JInt seq_num;
                 tx_type := packet_type; tx_session := session_id st;
                 tx_to := server_addr st |}) in *.
    set (st1 := set_data_sent st _) in E.
    assert (Step : forall q r2 st2 tr2 env2 env1,
               retry_loop left (set_ack_queue st1 q) chunk seq_num
                 packet_type env1 = (r2, st2, tr2, env2) ->
               Forall (fun x => x = p) (handed tr2)
               /\ (length (handed tr2) <= left)%nat
               /\ data_sent st2
                  = data_sent st + Z.of_nat (length (wire p))
                    + wire_bytes (handed tr2)
               /\ connected st2 = connected st
               /\ session_id st2 = session_id st
               /\ server_addr st2 = server_addr st).
    { intros q r2 st2 tr2 env2 env1 E2.
      destruct (IH _ _ _ _ _ _ E2) as (F & L & D & C & S & A).
      repeat split; assumption. }
    destruct (next_attempt env) as [a env1].
    destruct (send_raises a).
    { injection E as <- <- <- <-. cbn [handed length].
      rewrite wire_bytes_cons. change (wire_bytes []) with 0.
      subst st1. cbn [set_data_sent data_sent connected session_id server_addr].
      repeat split; try (repeat constructor; fail); lia. }
    destruct (ack_queue st1 ++ arrivals a) as [|ack q].
    + destruct (retry_loop left (set_ack_queue st1 []) chunk seq_num
                  packet_type env1) as [[[r2 st2] tr2] env2] eqn:E2.
      injection E as <- <- <- <-.
      destruct (Step _ _ _ _ _ _ E2) as (F & L & D & C & S & A).
      cbn [handed length]. rewrite wire_bytes_cons.
      repeat split; try assumption; [now constructor | lia |].
      rewrite D. lia.
    + destruct (py_eq ack (JInt seq_num)).
      * injection E as <- <- <- <-. cbn [handed length].
        rewrite wire_bytes_cons. change (wire_bytes []) with 0.
        subst st1.
        cbn [set_ack_queue set_data_sent data_sent connected session_id
             server_addr].
        repeat split; try (repeat constructor; fail); lia.
      * destruct (retry_loop left (set_ack_queue st1 q) chunk seq_num
                    packet_type env1) as [[[r2 st2] tr2] env2] eqn:E2.
        injection E as <- <- <- <-.
        destruct (Step _ _ _ _ _ _ E2) as (F & L & D & C & S & A).
        cbn [handed length]. rewrite wire_bytes_cons.
        repeat split; try assumption; [now constructor | lia |].
        rewrite D. lia.
Qed.

Lemma send_chunks_handed (chunks : list bytes) (i total : nat) (st : client)
    (env : list attempt) (r : outcome bool) (st' : client) (tr : list event)
    (env' : list attempt) :
  send_chunks chunks i total st env = (r, st', tr, env') ->
  data_sent st' = data_sent st + wire_bytes (handed tr)
  /\ connected st' = connected st.
Proof.
  revert i st env r st' tr env'.
  induction chunks as [|c chunks IH]; intros i st env r st' tr env' E.
  - simpl in E. injection E as <- <- <- <-. cbn [handed].
    change (wire_bytes []) with 0. split; [lia | reflexivity].
  - cbn [send_chunks] in E.
    destruct (retry_loop MAX_RETRIES _ c _ _ env)
      as [[[r1 st1] tr1] env1] eqn:E1.
    destruct (retry_loop_handed _ _ _ _ _ _ _ _ _ _ E1)
      as (_ & _ & D1 & C1 & _).
    cbn [set_sequence_number data_sent connected] in D1, C1.
    destruct r1 as [[|]|e].
    + destruct (send_chunks chunks (S i) total st1 env1)
        as [[[r2 st2] tr2] env2] eqn:E2.
      injection E as <- <- <- <-.
      destruct (IH _ _ _ _ _ _ _ E2) as [D2 C2].
      rewrite handed_app, wire_bytes_app, D2, D1, C2, C1.
      split; [lia | reflexivity].
    + injection E as <- <- <- <-. now split.
    + injection E as <- <- <- <-. now split.
Qed.

(** X18. [disconnect] is final. Whatever the environment does, after
    [disconnect] the client is not connected: a later [send_reliable]
    returns [False] at once, sends nothing and changes nothing, and a
    second [disconnect] does nothing. A connected client's [disconnect]
    hands the one datagram for [b"exit"] (type [LAST], numbered with the
    sequence counter) to the socket at most [MAX_RETRIES] (5) times and
    nothing else; a client that is not connected sends nothing and stays
    as it is. *)
Theorem disconnect_is_final (st : client) (env env2 : list attempt)
    (data : pydata) :
  let r := disconnect st env in
  let st' := fst (fst r) in
  let tr := snd (fst r) in
  connected st' = false
  /\ send_reliable st' data env2 = (Return false, st', [], env2)
  /\ disconnect st' env2 = (st', [], env2)
  /\ Forall (fun p => p = {| tx_data := lit "exit";
                             tx_seq := JInt (sequence_number st);
                             tx_type := py "LAST";
                             tx_session := session_id st;
                             tx_to := server_addr st |}) (handed tr)
  /\ (length (handed tr) <= MAX_RETRIES)%nat
  /\ (if connected st then True else r = (st, [], env)).
Proof.
  intros r st' tr.
  assert (H : connected st' = false
              /\ Forall (fun p => p = {| tx_data := lit "exit";
                                         tx_seq := JInt (sequence_number st);
                                         tx_type := py "LAST";
                                         tx_session := session_id st;
                                         tx_to := server_addr st |})
                        (handed tr)
              /\ (length (handed tr) <= MAX_RETRIES)%nat
              /\ (if connected st then True else r = (st, [], env))).
  { subst st' tr r. unfold disconnect.
    destruct (connected st) eqn:C.
    2:{ cbn [fst snd handed length]. rewrite C.
        repeat split; [constructor | unfold MAX_RETRIES; lia]. }
    unfold send_reliable. rewrite C. cbn [negb].
    assert (B : as_bytes (PStr (py "exit")) = Return (lit "exit"))
      by reflexivity.
    assert (P : split (lit "exit") = [lit "exit"])
      by (vm_compute; reflexivity).
    rewrite B, P. cbn [send_chunks length].
    change (chunk_type 0 1) with (py "LAST").
    destruct (retry_loop MAX_RETRIES _ (lit "exit") _ _ env)
      as [[[r1 st1] tr1] env1] eqn:E1.
    destruct (retry_loop_handed _ _ _ _ _ _ _ _ _ _ E1)
      as (F & L & _).
    destruct r1 as [[|]|e]; cbn [fst snd set_connected connected];
      rewrite ?app_nil_r; repeat split; assumption. }
  destruct H as (C & F & L & N).
  split; [exact C|].
  split; [unfold send_reliable; now rewrite C|].
  split; [unfold disconnect; now rewrite C|].
  repeat split; assumption.
Qed.

Ltac tally :=
  cbn [fst snd handed set_data_received set_ack_queue set_session_id
       set_data_queue set_data_sent data_sent client_create_packet sendto];
  rewrite ?wire_bytes_cons; change (wire_bytes []) with 0; try lia.

Lemma receiver_body_handed (loads : bytes -> option json) (c : client)
    (a : arrival) (ok : bool) :
  data_sent (fst (receiver_body loads c a ok))
  = data_sent c + wire_bytes (handed (snd (receiver_body loads c a ok))).
Proof.
  unfold receiver_body. destruct a as [|datagram from]; [tally|].
  destruct (client_parse_packet loads (data_received c) _)
    as [[[pkt|]|e] n]; [|tally..].
  destruct (py_eq (p_type pkt) (JStr (py "ACK"))); [tally|].
  destruct (py_eq (p_type pkt) (JStr (py "CONNECT_ACK"))).
  { destruct (negb (truthy _)); tally. }
  destruct (among (p_type pkt) ["DATA"; "LAST"]%string); [|tally].
  destruct ok; tally.
Qed.

(** X19. [data_sent] counts every transmission. After [send_reliable],
    whatever it returns, [data_sent] has grown by the total size of the
    datagrams handed to the socket, each retransmission counted again;
    and a pass of the receive loop adds the size of the acknowledgment it
    hands to the socket, and nothing when it sends none. *)
Theorem data_sent_counts_every_transmission (loads : bytes -> option json)
    (st : client) (data : pydata) (env : list attempt) (a : arrival)
    (ok : bool) :
  data_sent (state_of (send_reliable st data env))
  = data_sent st + wire_bytes (handed (trace_of (send_reliable st data env)))
  /\ data_sent (fst (receiver_body loads st a ok))
     = data_sent st
       + wire_bytes (handed (snd (receiver_body loads st a ok))).
Proof.
  split; [|apply receiver_body_handed].
  unfold send_reliable.
  destruct (negb (connected st));
    [cbn [state_of trace_of fst snd]; tally|].
  destruct (as_bytes data) as [payload|e];
    [|cbn [state_of trace_of fst snd]; tally].
  destruct (send_chunks (split payload) 0 (length (split payload)) st env)
    as [[[r st'] tr] env'] eqn:E.
  exact (proj1 (send_chunks_handed _ _ _ _ _ _ _ _ _ E)).
Qed.

(** ** What the accepting side keeps of a reliable send *)

Lemma sent_of_handed (P : tx -> Prop) (tr : list event) :
  Forall P (handed tr) -> Forall P (sent tr).
Proof.
  induction tr as [|e tr IH]; [constructor|].
  destruct e; cbn [handed sent]; intros H; auto;
    inversion H; subst; auto.
Qed.

(** Every datagram of [send_reliable] carries the client's session id,
    goes to the server and is of type [DATA] or [LAST]. *)
Lemma send_chunks_packets (chunks : list bytes) (i total : nat) (st : client)
    (env : list attempt) (r : outcome bool) (st' : client) (tr : list event)
    (env' : list attempt) :
  send_chunks chunks i total st env = (r, st', tr, env') ->
  Forall (fun p => tx_session p = session_id st
                   /\ tx_to p = server_addr st
                   /\ (tx_type p = py "DATA" \/ tx_type p = py "LAST"))
         (handed tr)
  /\ session_id st' = session_id st
  /\ server_addr st' = server_addr st.
Proof.
  revert i st env r st' tr env'.
  induction chunks as [|c chunks IH]; intros i st env r st' tr env' E.
  - simpl in E. injection E as <- <- <- <-. repeat split. constructor.
  - cbn [send_chunks] in E.
    destruct (retry_loop MAX_RETRIES _ c _ _ env)
      as [[[r1 st1] tr1] env1] eqn:E1.
    destruct (retry_loop_handed _ _ _ _ _ _ _ _ _ _ E1)
      as (F1 & _ & _ & _ & S1 & A1).
    cbn [set_sequence_number session_id server_addr] in S1, A1.
    assert (F1' : Forall (fun p => tx_session p = session_id st
                            /\ tx_to p = server_addr st
                            /\ (tx_type p = py "DATA"
                                \/ tx_type p = py "LAST")) (handed tr1)).
    { revert F1. apply Forall_impl. intros p ->.
      cbn [chunk_packet client_create_packet fst tx_session tx_to tx_type
           set_sequence_number session_id server_addr].
      repeat split. apply chunk_type_cases. }
    destruct r1 as [[|]|e].
    + destruct (send_chunks chunks (S i) total st1 env1)
        as [[[r2 st2] tr2] env2] eqn:E2.
      injection E as <- <- <- <-.
      destruct (IH _ _ _ _ _ _ _ E2) as (F2 & S2 & A2).
      rewrite S1, A1 in F2. rewrite S2, A2, S1, A1, handed_app.
      repeat split. apply Forall_app. now split.
    + injection E as <- <- <- <-. now repeat split.
    + injection E as <- <- <- <-. now repeat split.
Qed.

(** The passes of the server loop on readable [DATA] and [LAST] datagrams
    of one registered session. *)
Lemma serve_all (loads : bytes -> option json) (sid : json) (from : address)
    (arrived : list (tx * answers)) (s : server) (info : session) :
  Forall (fun x => readable loads (fst x)
                   /\ (length (tx_data (fst x)) <= DATA_SIZE)%nat
                   /\ (tx_type (fst x) = py "DATA"
                       \/ tx_type (fst x) = py "LAST")
                   /\ tx_session (fst x) = sid
                   /\ prompt_pass (snd x)) arrived ->
  dict_get (clients s) sid = Some info ->
  exists info',
    dict_get (clients (fst (serve loads s arrived from))) sid = Some info'
    /\ buffer info' = buffer info ++ map (fun x => tx_data (fst x)) arrived
    /\ addr info' = addr info
    /\ snd (serve loads s arrived from)
       = map (fun x => Sent (ack_of (received_as (fst x)) sid from)) arrived.
Proof.
  intros F. revert s info.
  induction F as [|[p env] rest (Hr & Hl & Ht & Hs & Hok & Hsw) F IH];
    intros s info G.
  - exists info. cbn. now rewrite app_nil_r.
  - cbn [fst snd] in *. subst sid. cbn [serve].
    destruct (server_accepts loads s p from env info Hr Hl Ht G Hok)
      as (s1 & E & G1 & _ & _).
    rewrite E.
    assert (G2 : dict_get (clients (sweep (clock_sweep env) s1))
                   (tx_session p)
                 = Some {| addr := addr info;
                           last_active := clock_handle env;
                           buffer := buffer info ++ [tx_data p] |}).
    { unfold sweep. cbn [set_clients clients].
      apply dict_get_filter_keep; [exact G1|].
      intros k'. unfold idle. cbn [snd last_active]. now rewrite Hsw. }
    destruct (IH _ _ G2) as (info' & G' & B' & A' & T').
    destruct (serve loads (sweep (clock_sweep env) s1) rest from)
      as [s2 tr2]. cbn [fst snd] in *.
    exists info'. split; [exact G'|].
    split; [rewrite B'; cbn [buffer map fst]; now rewrite <- app_assoc|].
    split; [exact A'|]. cbn [app map fst]. now rewrite T'.
Qed.

Lemma copies_in (A : Type) (losses : list nat) (l : list A) (x : A) :
  In x (copies losses l) -> In x l.
Proof.
  revert l. induction losses as [|k ks IH]; intros [|y l]; cbn [copies];
    try contradiction.
  intros H. apply in_app_or in H. destruct H as [H | H].
  - left. symmetry. exact (repeat_spec _ _ _ H).
  - right. now apply IH.
Qed.

Lemma Forall_combine_fst (A B : Type) (P : A -> Prop) (Q : B -> Prop)
    (l : list A) (m : list B) :
  Forall P l -> Forall Q m ->
  Forall (fun x => P (fst x) /\ Q (snd x)) (combine l m).
Proof.
  intros Hl. revert m. induction Hl as [|a l Ha Hl IH]; intros m Hm;
    [constructor|].
  destruct Hm as [|b m Hb Hm]; [constructor|].
  cbn [combine]. constructor; [now split | now apply IH].
Qed.

Lemma map_fst_combine (A B C : Type) (f : A -> C) (l : list A) (m : list B) :
  length l = length m ->
  map (fun x => f (fst x)) (combine l m) = map f l.
Proof.
  revert m. induction l as [|a l IH]; intros [|b m] H; try discriminate;
    [reflexivity|].
  cbn [combine map fst]. f_equal. apply IH. now injection H.
Qed.

(** X20. What a reliable send leaves at the accepting side: every copy.
    Say a connected client sends a payload and every chunk's
    acknowledgment comes in time on the first try or after fewer than
    [MAX_RETRIES] (5) timed-out waits, so that [send_reliable] returns
    [True]; and say all the datagrams that left reach the server loop in
    order, readable, in passes whose [sendto] returns and whose sweep runs
    within a minute of the handling, the session being registered. Then
    the session's buffer has grown by the chunks of the payload in order,
    each chunk as many times as it was transmitted: the server stores a
    retransmitted chunk again (when nothing was lost, the buffer has
    grown by exactly the chunks of the payload); and the server has
    answered every datagram with an [ACK] of its number. *)
Theorem retransmissions_are_stored_again (loads : bytes -> option json)
    (c : client) (s : server) (data : pydata) (payload : bytes)
    (losses : list nat) (rest : list attempt) (envs : list answers)
    (from : address) (info : session) :
  connected c = true ->
  ack_queue c = [] ->
  as_bytes data = Return payload ->
  length losses = length (split payload) ->
  Forall (fun k => (k < MAX_RETRIES)%nat) losses ->
  let r := send_reliable c data (lossy (sequence_number c) losses ++ rest) in
  Forall (readable loads) (sent (trace_of r)) ->
  length envs = length (sent (trace_of r)) ->
  Forall prompt_pass envs ->
  dict_get (clients s) (session_id c) = Some info ->
  let served := serve loads s (combine (sent (trace_of r)) envs) from in
  returned r = Return true
  /\ exists info',
       dict_get (clients (fst served)) (session_id c) = Some info'
       /\ buffer info' = buffer info ++ copies losses (split payload)
       /\ map tx_seq (sent (snd served))
          = copies losses
              (numbers_from (sequence_number c) (length (split payload))).
Proof.
  intros Hc Hq Hd Hl Hk r. subst r.
  rewrite (send_reliable_connected c data payload _ Hc Hd).
  destruct (send_chunks_repairs (split payload) losses 0
              (length (split payload)) c rest Hq Hl Hk)
    as (c' & tr & E & D & S & H & _).
  destruct (send_chunks_packets _ _ _ _ _ _ _ _ _ E) as (P & _).
  rewrite E. cbn [returned trace_of fst snd].
  intros Hread Hlen Hpass Hget. split; [reflexivity|].
  assert (F : Forall (fun p => readable loads p
                        /\ (length (tx_data p) <= DATA_SIZE)%nat
                        /\ (tx_type p = py "DATA" \/ tx_type p = py "LAST")
                        /\ tx_session p = session_id c) (sent tr)).
  { apply sent_of_handed in P. apply Forall_forall. intros p Hp.
    rewrite Forall_forall in Hread, P.
    destruct (P p Hp) as (Ps & _ & Pt).
    split; [now apply Hread|]. split; [|split; [exact Pt | exact Ps]].
    assert (I : In (tx_data p) (split payload)).
    { apply (copies_in _ losses). rewrite <- D. now apply in_map. }
    pose proof (chunk_length_le payload) as CL.
    rewrite Forall_forall in CL. now apply CL. }
  pose proof (Forall_combine_fst _ _ _ _ _ _ F Hpass) as FC.
  destruct (serve_all loads (session_id c) from (combine (sent tr) envs) s
              info) as (info' & G & B & _ & T); [|exact Hget|].
  { revert FC. apply Forall_impl. intros [p env]. cbn [fst snd].
    intros ((Hr & Hle & Ht & Hs) & Hp). auto. }
  exists info'. split; [exact G|].
  rewrite (map_fst_combine _ _ _ tx_data _ _ (eq_sym Hlen)) in B.
  split; [now rewrite B, D|].
  rewrite T.
  assert (Hs : forall l : list (tx * answers),
             sent (map (fun x => Sent (ack_of (received_as (fst x))
                                         (session_id c) from)) l)
             = map (fun x => ack_of (received_as (fst x)) (session_id c)
                               from) l).
  { induction l as [|x l IH]; [reflexivity|]. cbn [map sent].
    now rewrite IH. }
  rewrite Hs, map_map. cbn [ack_of tx_seq received_as packet_of p_seq].
  now rewrite (map_fst_combine _ _ _ tx_seq _ _ (eq_sym Hlen)), S.
Qed.

Lemma retransmissions_are_stored_again_witness :
  exists info',
    dict_get
      (clients
         (fst (serve header_loads (server_with (py "s1") localhost 0)
                 (combine
                    (sent (trace_of
                             (send_reliable
                                (connected_client (py "s1") localhost)
                                (PBytes (lit "pwd"))
                                (lossy 0 [1%nat] ++ []))))
                    [sample_answers; sample_answers]) localhost)))
      (JStr (py "s1")) = Some info'
    /\ buffer info' = [] ++ [lit "pwd"; lit "pwd"].
Proof.
  destruct (retransmissions_are_stored_again header_loads
              (connected_client (py "s1") localhost)
              (server_with (py "s1") localhost 0) (PBytes (lit "pwd"))
              (lit "pwd") [1%nat] [] [sample_answers; sample_answers]
              localhost
              {| addr := localhost; last_active := 0; buffer := [] |})
    as (_ & info' & G & B & _).
  - reflexivity.
  - reflexivity.
  - reflexivity.
  - vm_compute; reflexivity.
  - repeat constructor; unfold MAX_RETRIES; lia.
  - match goal with
    | |- Forall _ ?l =>
        let l' := eval vm_compute in l in
        replace l with l' by (vm_compute; reflexivity)
    end.
    repeat (apply Forall_cons;
            [split; [vm_compute; reflexivity | vm_compute; lia]|]).
    apply Forall_nil.
  - vm_compute; reflexivity.
  - repeat (apply Forall_cons; [split; reflexivity|]). apply Forall_nil.
  - reflexivity.
  - exists info'. split; [exact G | exact B].
Defined.

(** ** The main thread: [connect] *)

(** The initiating side's pass on a readable [CONNECT_ACK] while it has
    no session id. *)
Lemma receiver_takes_connect_ack (loads : bytes -> option json) (c : client)
    (a : tx) (from : address) (ok : bool) :
  readable loads a ->
  (length (tx_data a) <= DATA_SIZE)%nat ->
  tx_type a = py "CONNECT_ACK" ->
  truthy (session_id c) = false ->
  receiver_body loads c (Datagram (wire a) from) ok
  = (set_session_id
       (set_data_received c (data_received c + Z.of_nat (length (wire a))))
       (tx_session a), []).
Proof.
  intros Hr Hlen Hty Hs.
  destruct (parse_readable loads a (data_received c) Hr Hlen)
    as (Hrecv & _ & Hc).
  unfold receiver_body. rewrite Hrecv, Hc.
  cbn [received_as packet_of p_type p_session]. rewrite Hty.
  cbn [set_data_received session_id]. rewrite Hs. reflexivity.
Qed.

Lemma poll_session_unanswered (loads : bytes -> option json) (k : nat)
    (more : list look) (st : client) :
  truthy (session_id st) = false ->
  poll_session loads (repeat waiting k ++ time_up :: more) st
  = Some (TimedOut, st, []).
Proof.
  intros Hs. induction k as [|k IH]; cbn; [reflexivity|].
  rewrite Hs. cbn in IH. now rewrite IH.
Qed.

Lemma connect_attempts_unanswered (loads : bytes -> option json) (left : nat)
    (p : tx) (st : client) (env : list connect_attempt)
    (welcome : list look) :
  truthy (session_id st) = false ->
  (left <= length env)%nat ->
  Forall unanswered (firstn left env) ->
  connect_attempts loads left p st env welcome
  = Some ({| connect_returns := false; running := true |}, st,
          repeat (Sent p) left).
Proof.
  intros Hs. revert env. induction left as [|left IH]; intros env L F;
    [reflexivity|].
  destruct env as [|a env]; [cbn in L; lia|].
  cbn [firstn] in F. inversion F as [|? ? (Hr & k & more & Hl) F']; subst.
  cbn [connect_attempts]. rewrite Hr, Hl, poll_session_unanswered by exact Hs.
  rewrite IH; [reflexivity | cbn in L; lia | exact F'].
Qed.

(** X21. A [connect] that nothing answers gives up after [MAX_RETRIES]
    (5) transmissions. Say the client has no session id, no [sendto]
    raises, and during each of the five waits nothing is received until
    the time is up. Then [connect] returns [False]; the same [CONNECT]
    datagram (number 0, payload [b"CONNECT"], the client's empty session
    id) was sent five times and nothing else; [data_sent] has grown by
    the size of that datagram once, not five times (the packet is built
    before the loop); the client is otherwise unchanged, in particular
    not connected if it was not; and [self.running] stays true, so the
    receiver thread goes on. *)
Theorem connect_without_answer_gives_up (loads : bytes -> option json)
    (st : client) (env : list connect_attempt) (welcome : list look) :
  truthy (session_id st) = false ->
  (MAX_RETRIES <= length env)%nat ->
  Forall unanswered (firstn MAX_RETRIES env) ->
  connect loads st env welcome
  = Some ({| connect_returns := false; running := true |},
          set_data_sent st
            (data_sent st
             + Z.of_nat (length (wire (connect_packet_of st)))),
          repeat (Sent (connect_packet_of st)) MAX_RETRIES).
Proof.
  intros Hs L F. unfold connect. cbn [client_create_packet].
  fold (connect_packet_of st).
  set (st0 := set_data_sent st _).
  assert (Hs0 : truthy (session_id st0) = false) by exact Hs.
  now rewrite (connect_attempts_unanswered loads MAX_RETRIES
                 (connect_packet_of st) st0 env welcome Hs0 L F).
Qed.

Lemma connect_without_answer_gives_up_witness :
  connect header_loads
    {| session_id := JStr []; sequence_number := 0; server_addr := localhost;
       connected := false; ack_queue := []; data_queue := [];
       data_sent := 0; data_received := 0 |}
    (repeat {| sendto_raises := false; looks := [waiting; time_up] |} 5) []
  = Some ({| connect_returns := false; running := true |},
          {| session_id := JStr []; sequence_number := 0;
             server_addr := localhost; connected := false; ack_queue := [];
             data_queue := []; data_sent := 207; data_received := 0 |},
          repeat (Sent {| tx_data := lit "CONNECT"; tx_seq := JInt 0;
                          tx_type := py "CONNECT"; tx_session := JStr [];
                          tx_to := localhost |}) 5).
Proof.
  apply (connect_without_answer_gives_up header_loads
           {| session_id := JStr []; sequence_number := 0;
              server_addr := localhost; connected := false; ack_queue := [];
              data_queue := []; data_sent := 0; data_received := 0 |}
           (repeat {| sendto_raises := false; looks := [waiting; time_up] |} 5)
           []).
  - reflexivity.
  - cbn. unfold MAX_RETRIES. lia.
  - repeat (apply Forall_cons;
            [split; [reflexivity | now exists 1%nat, []]|]).
    apply Forall_nil.
Defined.

(** X22. The handshake of [connect], and the welcome that cannot be
    decoded. Say the client has no session id and nothing queued, the
    first [sendto] returns, and at the first look of the wait the
    receiver thread has got a readable [CONNECT_ACK] with a session id
    that is not empty; and at the first look of the wait for the welcome
    it has got a readable [DATA] or [LAST] datagram. Then [connect] has
    sent the [CONNECT] datagram once, the receiver thread has
    acknowledged the welcome under the new session id, and afterwards the
    client holds the session id of the [CONNECT_ACK], is connected, and
    has taken the welcome out of [data_queue]. [connect] returns [True]
    when the welcome is valid UTF-8. When it is not, [connect] returns
    [False] and stops the receiver thread, although the client is
    connected and has its session id. *)
Theorem connect_handshake (loads : bytes -> option json) (st : client)
    (ack w : tx) (sid : pystr) (from from' : address) (ok : bool)
    (more more' : list look) (env : list connect_attempt) :
  truthy (session_id st) = false ->
  data_queue st = [] ->
  readable loads ack ->
  (length (tx_data ack) <= DATA_SIZE)%nat ->
  tx_type ack = py "CONNECT_ACK" ->
  tx_session ack = JStr sid ->
  (0 < length sid)%nat ->
  readable loads w ->
  (length (tx_data w) <= DATA_SIZE)%nat ->
  tx_type w = py "DATA" \/ tx_type w = py "LAST" ->
  let first :=
    {| sendto_raises := false;
       looks := {| in_time := true;
                   passes := [(Datagram (wire ack) from, ok)] |} :: more |} in
  let welcome :=
    {| in_time := true;
       passes := [(Datagram (wire w) from', true)] |} :: more' in
  exists st',
    connect loads st (first :: env) welcome
    = Some (match decode_utf8 (tx_data w) with
            | Return _ => {| connect_returns := true; running := true |}
            | Raise _ => {| connect_returns := false; running := false |}
            end,
            st',
            [Sent (connect_packet_of st);
             Sent (ack_of (received_as w) (JStr sid) (server_addr st))])
    /\ session_id st' = JStr sid
    /\ connected st' = true
    /\ data_queue st' = []
    /\ ack_queue st' = ack_queue st
    /\ sequence_number st' = sequence_number st.
Proof.
  intros Hs Hq Ha Hal Hat Has Hsid Hw Hwl Hwt first welcome.
  unfold connect. cbn [client_create_packet]. fold (connect_packet_of st).
  set (st0 := set_data_sent st _).
  subst first welcome.
  cbn [connect_attempts MAX_RETRIES sendto_raises looks poll_session passes
       in_time receive].
  assert (Hs0 : truthy (session_id st0) = false) by exact Hs.
  rewrite (receiver_takes_connect_ack loads st0 ack from ok Ha Hal Hat Hs0).
  set (st1 := set_session_id _ _).
  cbn [app]. replace (truthy (session_id st1)) with true
    by (subst st1; cbn [set_session_id session_id]; rewrite Has;
        symmetry; now apply length_truthy).
  cbn [await_welcome passes in_time receive].
  destruct (receiver_accepts loads (set_connected st1 true) w from' Hw Hwl Hwt)
    as (st2 & E & D & A & S & P & N & C).
  rewrite E.
  replace (data_queue st2) with [tx_data w]
    by (rewrite D; subst st1 st0; cbn; now rewrite Hq).
  replace (session_id (set_connected st1 true)) with (JStr sid)
    by (subst st1; cbn; now rewrite Has).
  replace (server_addr (set_connected st1 true)) with (server_addr st)
    by reflexivity.
  exists (set_data_queue st2 []).
  split.
  { destruct (decode_utf8 (tx_data w)); reflexivity. }
  cbn [set_data_queue session_id connected data_queue ack_queue
       sequence_number].
  rewrite S, C, A, N. subst st1 st0. cbn. rewrite Has. auto.
Qed.

Lemma connect_handshake_witness :
  exists st',
    connect header_loads
      {| session_id := JStr []; sequence_number := 0;
         server_addr := localhost; connected := false; ack_queue := [];
         data_queue := []; data_sent := 0; data_received := 0 |}
      [{| sendto_raises := false;
          looks := [{| in_time := true;
                       passes :=
                         [(Datagram
                             (_create_packet (lit "s1") (JInt 0)
                                (py "CONNECT_ACK") (JStr (py "s1")))
                             localhost, true)] |}] |}]
      [{| in_time := true;
          passes := [(Datagram
                        (_create_packet [xff] (JInt 0) (py "LAST")
                           (JStr (py "s1"))) localhost, true)] |}]
    = Some ({| connect_returns := false; running := false |}, st',
            [Sent {| tx_data := lit "CONNECT"; tx_seq := JInt 0;
                     tx_type := py "CONNECT"; tx_session := JStr [];
                     tx_to := localhost |};
             Sent {| tx_data := lit "ACK"; tx_seq := JInt 0;
                     tx_type := py "ACK"; tx_session := JStr (py "s1");
                     tx_to := localhost |}])
    /\ connected st' = true.
Proof.
  destruct (connect_handshake header_loads
              {| session_id := JStr []; sequence_number := 0;
                 server_addr := localhost; connected := false;
                 ack_queue := []; data_queue := []; data_sent := 0;
                 data_received := 0 |}
              {| tx_data := lit "s1"; tx_seq := JInt 0;
                 tx_type := py "CONNECT_ACK"; tx_session := JStr (py "s1");
                 tx_to := localhost |}
              {| tx_data := [xff]; tx_seq := JInt 0; tx_type := py "LAST";
                 tx_session := JStr (py "s1"); tx_to := localhost |}
              (py "s1") localhost localhost true [] [] [])
    as (st' & E & _ & C & _).
  - reflexivity.
  - reflexivity.
  - split; [vm_compute; reflexivity | vm_compute; lia].
  - vm_compute; lia.
  - reflexivity.
  - reflexivity.
  - cbn; lia.
  - split; [vm_compute; reflexivity | vm_compute; lia].
  - vm_compute; lia.
  - now right.
  - exists st'. split; [exact E | exact C].
Defined.

(** ** The main thread: [send_command] *)

Lemma retry_loop_data_queue (left : nat) (st : client) (chunk : bytes)
    (seq_num : Z) (packet_type : pystr) (env : list attempt) :
  data_queue (state_of (retry_loop left st chunk seq_num packet_type env))
  = data_queue st.
Proof.
  revert st env. induction left as [|left IH]; intros st env; [reflexivity|].
  cbn [retry_loop client_create_packet].
  set (st1 := set_data_sent st _).
  destruct (next_attempt env) as [a env1].
  destruct (send_raises a); [reflexivity|].
  destruct (ack_queue st1 ++ arrivals a) as [|ack q].
  - specialize (IH (set_ack_queue st1 []) env1).
    destruct (retry_loop left _ chunk seq_num packet_type env1)
      as [[[r2 st2] tr2] env2]. exact IH.
  - destruct (py_eq ack (JInt seq_num)); [reflexivity|].
    specialize (IH (set_ack_queue st1 q) env1).
    destruct (retry_loop left _ chunk seq_num packet_type env1)
      as [[[r2 st2] tr2] env2]. exact IH.
Qed.

Lemma send_chunks_data_queue (chunks : list bytes) (i total : nat)
    (st : client) (env : list attempt) :
  data_queue (state_of (send_chunks chunks i total st env)) = data_queue st.
Proof.
  revert i st env. induction chunks as [|c chunks IH]; intros i st env;
    [reflexivity|].
  cbn [send_chunks].
  pose proof (retry_loop_data_queue MAX_RETRIES
                (set_sequence_number st (sequence_number st + 1)) c
                (sequence_number st) (chunk_type i total) env) as R.
  destruct (retry_loop MAX_RETRIES _ c _ _ env) as [[[r1 st1] tr1] env1].
  cbn [state_of fst snd set_sequence_number data_queue] in R.
  destruct r1 as [[|]|e]; try exact R.
  specialize (IH (S i) st1 env1).
  destruct (send_chunks chunks (S i) total st1 env1)
    as [[[r2 st2] tr2] env2].
  cbn [state_of fst snd] in *. now rewrite IH.
Qed.

(** [send_reliable] does not touch [data_queue]. *)
Lemma send_reliable_data_queue (st : client) (data : pydata)
    (env : list attempt) :
  data_queue (state_of (send_reliable st data env)) = data_queue st.
Proof.
  unfold send_reliable. destruct (negb (connected st)); [reflexivity|].
  destruct (as_bytes data); [|reflexivity].
  apply send_chunks_data_queue.
Qed.

(** The loop of [send_command] while nothing more is received: it takes
    what is queued, oldest first, and then waits for the time to be up. *)
Lemma collect_queued (loads : bytes -> option json) (n : nat)
    (more : list look) (st : client) (response : bytes) :
  (length (data_queue st) <= n)%nat ->
  exists st',
    collect loads (repeat waiting n ++ time_up :: more) st response
    = Some (fold_left (fun r d => r ++ d) (data_queue st) response, st', [])
    /\ data_queue st' = []
    /\ ack_queue st' = ack_queue st
    /\ session_id st' = session_id st
    /\ sequence_number st' = sequence_number st
    /\ connected st' = connected st
    /\ data_sent st' = data_sent st.
Proof.
  revert st response. induction n as [|n IH]; intros st response L.
  - destruct (data_queue st) eqn:Q; [|cbn in L; lia].
    exists st. cbn. now rewrite Q.
  - cbn [repeat app collect waiting passes in_time receive].
    destruct (data_queue st) as [|d q] eqn:Q.
    + destruct (IH st response) as (st' & E & R); [rewrite Q; cbn; lia|].
      rewrite Q in E. cbn [fold_left] in *. rewrite E.
      exists st'. split; [reflexivity | exact R].
    + destruct (IH (set_data_queue st q) (response ++ d))
        as (st' & E & R); [cbn in *; lia|].
      cbn [set_data_queue data_queue ack_queue session_id sequence_number
           connected data_sent] in E, R.
      cbn [fold_left]. rewrite E.
      exists st'. split; [reflexivity | exact R].
Qed.

(** X23. [send_command] returns what is queued, whether or not the
    command got through. Say the client is connected, [send_reliable]
    raises nothing (it may return [False]: no acknowledgment came), and
    while the response loop runs nothing more is received, the time being
    up after at least as many looks as there are chunks in [data_queue].
    Then the datagrams sent are those of [send_reliable] for the command
    followed by a newline; the loop takes every chunk that was queued
    before the call, oldest first, and [data_queue] is empty afterwards;
    and [send_command] returns the result with these chunks, put together
    and decoded, as output (the empty string if nothing was queued), or
    [None] if they are not valid UTF-8. What [send_reliable] returned
    makes no difference. *)
Theorem send_command_returns_what_is_queued (loads : bytes -> option json)
    (st : client) (command : pystr) (started finished : Q)
    (acks : list attempt) (n : nat) (more : list look) (sent_ok : bool) :
  connected st = true ->
  returned (send_reliable st (PStr (command ++ [10%N])) acks)
  = Return sent_ok ->
  (length (data_queue st) <= n)%nat ->
  exists st',
    send_command loads st command started finished acks
      (repeat waiting n ++ time_up :: more)
    = Some (match decode_utf8 (reassemble (data_queue st)) with
            | Return text =>
                Some {| output := text;
                        execution_time := finished - started |}
            | Raise _ => None
            end,
            st',
            trace_of (send_reliable st (PStr (command ++ [10%N])) acks))
    /\ data_queue st' = []
    /\ sequence_number st'
       = sequence_number
           (state_of (send_reliable st (PStr (command ++ [10%N])) acks)).
Proof.
  intros Hc Hr Hn. unfold send_command. rewrite Hc. cbn [negb].
  pose proof (send_reliable_data_queue st (PStr (command ++ [10%N])) acks)
    as Q.
  destruct (send_reliable st (PStr (command ++ [10%N])) acks)
    as [[[r st1] tr] env'].
  cbn [returned state_of trace_of fst snd] in *. subst r.
  destruct (collect_queued loads n more st1 [])
    as (st' & E & D & _ & _ & N & _); [now rewrite Q|].
  rewrite E, Q. fold (reassemble (data_queue st)).
  exists st'. split; [|split; [exact D | exact N]].
  destruct (decode_utf8 (reassemble (data_queue st)));
    now rewrite app_nil_r.
Qed.

Lemma send_command_returns_what_is_queued_witness :
  exists st',
    send_command header_loads
      {| session_id := JStr (py "s1"); sequence_number := 0;
         server_addr := localhost; connected := true; ack_queue := [];
         data_queue := [lit "old "; lit "reply"]; data_sent := 0;
         data_received := 0 |}
      (py "pwd") 0 3 [] (repeat waiting 2 ++ [time_up])
    = Some (Some {| output := py "old reply"; execution_time := 3 - 0 |},
            st',
            trace_of
              (send_reliable
                 {| session_id := JStr (py "s1"); sequence_number := 0;
                    server_addr := localhost; connected := true;
                    ack_queue := [];
                    data_queue := [lit "old "; lit "reply"]; data_sent := 0;
                    data_received := 0 |}
                 (PStr (py "pwd" ++ [10%N])) []))
    /\ data_queue st' = [].
Proof.
  destruct (send_command_returns_what_is_queued header_loads
              {| session_id := JStr (py "s1"); sequence_number := 0;
                 server_addr := localhost; connected := true;
                 ack_queue := [];
                 data_queue := [lit "old "; lit "reply"]; data_sent := 0;
                 data_received := 0 |}
              (py "pwd") 0 3 [] 2 [] false)
    as (st' & E & D & _).
  - reflexivity.
  - vm_compute; reflexivity.
  - cbn; lia.
  - exists st'. split; [exact E | exact D].
Defined.
